(** * mockflow: the in-memory Airflow mock, its store and its request rules

    A shallow embedding of [airflow_mock/models.py], [airflow_mock/store.py],
    [airflow_mock/api.py] and [airflow_mock/server.py].

    - Python dictionaries are finite maps ([gmap]); the innermost XCom
      dictionary (run_id -> XCom) is an insertion-ordered dictionary
      ([OrderedDict]) because [max] over its values depends on that order.
    - [TaskInstance] and [Pool] objects are mutated in place after they
      were stored, so they live in an object memory ([Mem]) and the store
      keeps references to them.
    - Request handlers run in a state-and-exception monad: what was
      written before a [raise] stays written.
    - [datetime] values are naive UTC instants counted in microseconds,
      as [datetime.utcnow()] gives them; every call of it is an explicit
      argument.  The execution date of a run and the date bounds of a
      run listing, which are compared with one another, may carry a UTC
      offset ([datetime_tz]).
    - A [float] is a binary number with 53 significant bits. *)

From Stdlib Require Import ZArith Lia.
From stdpp Require Import base strings gmap list option pretty.

Open Scope Z_scope.

(** ** Values *)

Definition datetime := Z.

(** A [datetime] parsed from a request: naive, or aware of its UTC offset
    (in microseconds). *)
Inductive datetime_tz :=
| Naive (t : datetime)
| Aware (t : datetime) (utcoffset : Z).

(** What two naive, or two aware, datetimes are ordered by: a naive one
    by its reading, an aware one by its instant in UTC. *)
Definition ordering_instant (x : datetime_tz) : Z :=
  match x with
  | Naive t => t
  | Aware t utcoffset => t - utcoffset
  end.

(** A Python [float]; a finite one is [m * 2^e]. *)
Inductive float :=
| Finite (m e : Z)
| Infinity (negative : bool)
| NaN.

(** The integer nearest to [n / d], a tie going to the even one
    ([0 < d]). *)
Definition round_half_even (n d : Z) : Z :=
  let q := n / d in
  match 2 * (n mod d) ?= d with
  | Lt => q
  | Gt => q + 1
  | Eq => if Z.even q then q else q + 1
  end.

(** [n / (d * 2^e)] as a fraction of two integers, for an exponent of
    either sign. *)
Definition scaled_numerator (n e : Z) : Z := n * 2 ^ Z.max 0 (- e).
Definition scaled_denominator (d e : Z) : Z := d * 2 ^ Z.max 0 e.

(** [n / d] on positive integers: mantissa and exponent of the quotient
    rounded to 53 significant bits.  With [k] the difference of the bit
    lengths, the quotient lies between [2^(k-1)] and [2^(k+1)]; the
    exponent is chosen so that the mantissa has 53 bits, and a mantissa
    rounded up to [2^53] is renormalised. *)
Definition true_divide_pos (n d : Z) : Z * Z :=
  let k := Z.log2 n - Z.log2 d in
  let e :=
    if scaled_denominator d k <=? scaled_numerator n k then k - 52
    else k - 53 in
  let m := round_half_even (scaled_numerator n e) (scaled_denominator d e) in
  if m =? 2 ^ 53 then (2 ^ 52, e + 1) else (m, e).

(** [n / d] on Python integers with [0 < d]: the [float] nearest to the
    quotient, ties to even.  (A quotient of 2^1024 or more raises
    OverflowError in Python; no difference of two datetimes comes near
    it.) *)
Definition true_divide (n d : Z) : float :=
  match n with
  | 0 => Finite 0 0
  | Zpos _ => let '(m, e) := true_divide_pos n d in Finite m e
  | Zneg _ => let '(m, e) := true_divide_pos (- n) d in Finite (- m) e
  end.

(** [timedelta.total_seconds()]: the microseconds of the difference
    divided by [10**6]. *)
Definition total_seconds (microseconds : Z) : float :=
  true_divide microseconds (10 ^ 6).

(** [dict] and [Any] payloads of the models. *)
#[warnings="-register-all"]
Inductive JSON :=
| JNull
| JBool (b : bool)
| JInt (n : Z)
| JStr (s : string)
| JList (l : list JSON)
| JDict (d : list (string * JSON)).

(** Python truthiness of the values the code tests with [if x] / [if not x]. *)
Definition truthy_str (s : string) : bool :=
  match s with EmptyString => false | _ => true end.

Definition truthy_opt_str (s : option string) : bool :=
  match s with Some s => truthy_str s | None => false end.

(** A [datetime] and a pydantic model are always true; only [None] is false. *)
Definition truthy_opt {A} (x : option A) : bool :=
  match x with Some _ => true | None => false end.

(** ** models.py *)

Module DAG.
Record t := mk {
  dag_id : string;
  is_paused : bool;
  is_active : bool;
  last_parsed_time : datetime;
  last_pickled : datetime;
  last_expired : datetime;
  scheduler_lock : option bool;
  pickle_id : option string;
  fileloc : string;
  owners : list string;
  description : option string;
  schedule_interval : option JSON;
  tags : list JSON
}.
End DAG.

Module DAGRun.
Record t := mk {
  dag_id : string;
  run_id : string;
  execution_date : datetime_tz;
  start_date : option datetime;
  end_date : option datetime;
  state : string;
  external_trigger : bool;
  conf : JSON
}.

Definition set_dag_id (v : string) (x : t) : t :=
  mk v (run_id x) (execution_date x) (start_date x) (end_date x) (state x)
     (external_trigger x) (conf x).
Definition set_run_id (v : string) (x : t) : t :=
  mk (dag_id x) v (execution_date x) (start_date x) (end_date x) (state x)
     (external_trigger x) (conf x).
Definition set_execution_date (v : datetime_tz) (x : t) : t :=
  mk (dag_id x) (run_id x) v (start_date x) (end_date x) (state x)
     (external_trigger x) (conf x).
Definition set_start_date (v : option datetime) (x : t) : t :=
  mk (dag_id x) (run_id x) (execution_date x) v (end_date x) (state x)
     (external_trigger x) (conf x).
End DAGRun.

Module TaskInstance.
Record t := mk {
  task_id : string;
  dag_id : string;
  run_id : string;
  state : string;
  try_number : Z;
  max_tries : Z;
  start_date : option datetime;
  end_date : option datetime;
  duration : option float;
  pool : string;
  queue : string;
  priority_weight : Z;
  operator : string;
  queued_when : option datetime;
  queued_by_job_id : option string;
  pid : option Z;
  executor_config : JSON;
  sla_miss : option datetime;
  rendered_fields : JSON
}.

Definition set_state (v : string) (x : t) : t :=
  mk (task_id x) (dag_id x) (run_id x) v (try_number x) (max_tries x)
     (start_date x) (end_date x) (duration x) (pool x) (queue x)
     (priority_weight x) (operator x) (queued_when x) (queued_by_job_id x)
     (pid x) (executor_config x) (sla_miss x) (rendered_fields x).
Definition set_try_number (v : Z) (x : t) : t :=
  mk (task_id x) (dag_id x) (run_id x) (state x) v (max_tries x)
     (start_date x) (end_date x) (duration x) (pool x) (queue x)
     (priority_weight x) (operator x) (queued_when x) (queued_by_job_id x)
     (pid x) (executor_config x) (sla_miss x) (rendered_fields x).
Definition set_start_date (v : option datetime) (x : t) : t :=
  mk (task_id x) (dag_id x) (run_id x) (state x) (try_number x) (max_tries x)
     v (end_date x) (duration x) (pool x) (queue x)
     (priority_weight x) (operator x) (queued_when x) (queued_by_job_id x)
     (pid x) (executor_config x) (sla_miss x) (rendered_fields x).
Definition set_end_date (v : option datetime) (x : t) : t :=
  mk (task_id x) (dag_id x) (run_id x) (state x) (try_number x) (max_tries x)
     (start_date x) v (duration x) (pool x) (queue x)
     (priority_weight x) (operator x) (queued_when x) (queued_by_job_id x)
     (pid x) (executor_config x) (sla_miss x) (rendered_fields x).
Definition set_duration (v : option float) (x : t) : t :=
  mk (task_id x) (dag_id x) (run_id x) (state x) (try_number x) (max_tries x)
     (start_date x) (end_date x) v (pool x) (queue x)
     (priority_weight x) (operator x) (queued_when x) (queued_by_job_id x)
     (pid x) (executor_config x) (sla_miss x) (rendered_fields x).

(** The fields no state change or clear touches. *)
Definition same_identity (x y : t) : Prop :=
  task_id x = task_id y /\ dag_id x = dag_id y /\ run_id x = run_id y /\
  max_tries x = max_tries y /\ pool x = pool y /\ queue x = queue y /\
  priority_weight x = priority_weight y /\ operator x = operator y /\
  queued_when x = queued_when y /\ queued_by_job_id x = queued_by_job_id y /\
  pid x = pid y /\ executor_config x = executor_config y /\
  sla_miss x = sla_miss y /\ rendered_fields x = rendered_fields y.
End TaskInstance.

Module TaskInstanceActionResponse.
Record t := mk {
  task_id : string;
  dag_id : string;
  run_id : string;
  state : string;
  message : string
}.
End TaskInstanceActionResponse.

Module TaskLog.
Record t := mk {
  try_number : Z;
  content : string;
  timestamp : datetime
}.
End TaskLog.

Module ClearTaskInstance.
Record t := mk {
  dry_run : bool;
  start_date : option datetime;
  end_date : option datetime;
  only_failed : bool;
  only_running : bool;
  include_subdags : bool;
  include_parentdag : bool;
  reset_dag_runs : bool
}.
End ClearTaskInstance.

(** The model [Variable]; the name alone is reserved. *)
Module Variable_.
Record t := mk {
  key : string;
  value : string;
  description : option string
}.

Definition set_key (v : string) (x : t) : t := mk v (value x) (description x).
End Variable_.

Module Connection.
Record t := mk {
  conn_id : string;
  conn_type : string;
  host : option string;
  port : option Z;
  login : option string;
  password : option string;
  connection_schema : option string;
  extra : option JSON
}.

Definition set_conn_id (v : string) (x : t) : t :=
  mk v (conn_type x) (host x) (port x) (login x) (password x)
     (connection_schema x) (extra x).
End Connection.

Module XCom.
Record t := mk {
  key : string;
  value : JSON;
  timestamp : datetime;
  execution_date : datetime;
  task_id : string;
  dag_id : string;
  run_id : option string;
  description : option string
}.

Definition set_task_id (v : string) (x : t) : t :=
  mk (key x) (value x) (timestamp x) (execution_date x) v (dag_id x)
     (run_id x) (description x).
Definition set_dag_id (v : string) (x : t) : t :=
  mk (key x) (value x) (timestamp x) (execution_date x) (task_id x) v
     (run_id x) (description x).
Definition set_run_id (v : option string) (x : t) : t :=
  mk (key x) (value x) (timestamp x) (execution_date x) (task_id x)
     (dag_id x) v (description x).
End XCom.

Module Pool.
Record t := mk {
  name : string;
  slots : Z;
  description : option string;
  occupied_slots : Z;
  queued_slots : Z;
  running_slots : Z;
  open_slots : option Z
}.

(** The keyword arguments a [Pool] is built from: a field left out of the
    request is [None] here and takes the class default. *)
Record data := mk_data {
  d_name : string;
  d_slots : Z;
  d_description : option string;
  d_occupied_slots : option Z;
  d_queued_slots : option Z;
  d_running_slots : option Z;
  d_open_slots : option Z
}.

(** The inherited initialiser: the field values with their defaults. *)
Definition base_init (d : data) : t :=
  mk (d_name d) (d_slots d) (d_description d)
     (default 0 (d_occupied_slots d))
     (default 0 (d_queued_slots d))
     (default 0 (d_running_slots d))
     (d_open_slots d).

Definition set_name (v : string) (x : t) : t :=
  mk v (slots x) (description x) (occupied_slots x) (queued_slots x)
     (running_slots x) (open_slots x).
Definition set_occupied_slots (v : Z) (x : t) : t :=
  mk (name x) (slots x) (description x) v (queued_slots x)
     (running_slots x) (open_slots x).
Definition set_queued_slots (v : Z) (x : t) : t :=
  mk (name x) (slots x) (description x) (occupied_slots x) v
     (running_slots x) (open_slots x).
Definition set_running_slots (v : Z) (x : t) : t :=
  mk (name x) (slots x) (description x) (occupied_slots x) (queued_slots x)
     v (open_slots x).
Definition set_open_slots (v : option Z) (x : t) : t :=
  mk (name x) (slots x) (description x) (occupied_slots x) (queued_slots x)
     (running_slots x) v.

(** [Pool.__init__]: build the fields, then derive [open_slots]. *)
Definition init (d : data) : t :=
  let self := base_init d in
  set_open_slots (Some (slots self - occupied_slots self)) self.
End Pool.

Module ProviderHook.
Record t := mk {
  hook_class_name : string;
  connection_type : string;
  hook_name : string;
  package_name : string;
  description : option string
}.
End ProviderHook.

Module Provider.
Record t := mk {
  package_name : string;
  description : option string;
  version : string;
  provider_name : string;
  hooks : list ProviderHook.t;
  extra_links : list string;
  connection_form : option JSON
}.

Definition set_package_name (v : string) (x : t) : t :=
  mk v (description x) (version x) (provider_name x) (hooks x)
     (extra_links x) (connection_form x).
End Provider.

Module DAGCollection.
Record t := mk {
  dags : list DAG.t;
  total_entries : Z
}.
End DAGCollection.

Module DAGRunCollection.
Record t := mk {
  dag_runs : list DAGRun.t;
  total_entries : Z
}.
End DAGRunCollection.

Module TaskInstanceCollection.
Record t := mk {
  task_instances : list TaskInstance.t;
  total_entries : Z
}.
End TaskInstanceCollection.

Module XComCollection.
Record t := mk {
  xcom_entries : list XCom.t;
  total_entries : Z
}.
End XComCollection.

Module ConnectionCollection.
Record t := mk {
  connections : list Connection.t;
  total_entries : Z
}.
End ConnectionCollection.

(** ** Python containers *)

(** A dictionary whose iteration order is observed: insertion-ordered,
    assignment to a present key keeps its place. *)
Module OrderedDict.
Section ordered_dict.
Context {K V : Type} `{EqDecision K}.

Definition t : Type := list (K * V).

Definition empty : t := [].

(** [d.get(k)] *)
Fixpoint get (d : t) (k : K) : option V :=
  match d with
  | [] => None
  | (k', v) :: d' => if decide (k = k') then Some v else get d' k
  end.

(** [d[k] = v] *)
Fixpoint set (k : K) (v : V) (d : t) : t :=
  match d with
  | [] => [(k, v)]
  | (k', v') :: d' =>
      if decide (k = k') then (k', v) :: d' else (k', v') :: set k v d'
  end.

(** [d.values()] and [d.keys()], in iteration order. *)
Definition values (d : t) : list V := map snd d.
Definition keys (d : t) : list K := map fst d.

(** [del d[k]]; [None] stands for the [KeyError] on an absent key. *)
Fixpoint del (k : K) (d : t) : option t :=
  match d with
  | [] => None
  | (k', v) :: d' =>
      if decide (k = k') then Some d' else cons (k', v) <$> del k d'
  end.

End ordered_dict.
Global Arguments t : clear implicits.
End OrderedDict.

(** [max(iterable, key=f)]: the running best is replaced only by a
    strictly greater key, so the first maximal element wins.  [None]
    stands for the [ValueError] on an empty iterable. *)
Fixpoint max_from {A} (f : A -> Z) (best : A) (l : list A) : A :=
  match l with
  | [] => best
  | x :: l' => max_from f (if f best <? f x then x else best) l'
  end.

Definition py_max {A} (f : A -> Z) (l : list A) : option A :=
  match l with
  | [] => None
  | x :: l' => Some (max_from f x l')
  end.

(** [l[start:stop]] for integers or [None]: a negative index counts from
    the end, and every index is brought into the range of the list. *)
Definition slice_index (n i : Z) : Z :=
  if i <? 0 then Z.max 0 (n + i) else Z.min i n.

Definition py_slice {A} (l : list A) (start stop : option Z) : list A :=
  let n := Z.of_nat (length l) in
  let a := match start with Some i => slice_index n i | None => 0 end in
  let b := match stop with Some i => slice_index n i | None => n end in
  take (Z.to_nat (b - a)) (drop (Z.to_nat a) l).

(** ** store.py: InstanceStore *)

(** A reference to a [TaskInstance] or [Pool] object in [Mem]. *)
Definition ref := nat.

Record InstanceStore := mkInstanceStore {
  instance_id : string;
  dags : gmap string DAG.t;
  dag_runs : gmap string (gmap string DAGRun.t);
  task_instances : gmap string (gmap string (gmap string ref));
  task_logs : gmap string (gmap string (gmap string (gmap Z TaskLog.t)));
  variables : gmap string Variable_.t;
  connections : gmap string Connection.t;
  xcoms : gmap string (gmap string (gmap string (OrderedDict.t string XCom.t)));
  pools : gmap string ref;
  providers : gmap string Provider.t
}.

(** [InstanceStore.__init__] *)
Definition InstanceStore_init (instance_id : string) : InstanceStore :=
  mkInstanceStore instance_id ∅ ∅ ∅ ∅ ∅ ∅ ∅ ∅ ∅.

Definition set_dags v (s : InstanceStore) : InstanceStore :=
  mkInstanceStore (instance_id s) v (dag_runs s) (task_instances s)
    (task_logs s) (variables s) (connections s) (xcoms s) (pools s)
    (providers s).
Definition set_dag_runs v (s : InstanceStore) : InstanceStore :=
  mkInstanceStore (instance_id s) (dags s) v (task_instances s)
    (task_logs s) (variables s) (connections s) (xcoms s) (pools s)
    (providers s).
Definition set_task_instances v (s : InstanceStore) : InstanceStore :=
  mkInstanceStore (instance_id s) (dags s) (dag_runs s) v
    (task_logs s) (variables s) (connections s) (xcoms s) (pools s)
    (providers s).
Definition set_task_logs v (s : InstanceStore) : InstanceStore :=
  mkInstanceStore (instance_id s) (dags s) (dag_runs s) (task_instances s)
    v (variables s) (connections s) (xcoms s) (pools s)
    (providers s).
Definition set_variables v (s : InstanceStore) : InstanceStore :=
  mkInstanceStore (instance_id s) (dags s) (dag_runs s) (task_instances s)
    (task_logs s) v (connections s) (xcoms s) (pools s)
    (providers s).
Definition set_connections v (s : InstanceStore) : InstanceStore :=
  mkInstanceStore (instance_id s) (dags s) (dag_runs s) (task_instances s)
    (task_logs s) (variables s) v (xcoms s) (pools s)
    (providers s).
Definition set_xcoms v (s : InstanceStore) : InstanceStore :=
  mkInstanceStore (instance_id s) (dags s) (dag_runs s) (task_instances s)
    (task_logs s) (variables s) (connections s) v (pools s)
    (providers s).
Definition set_pools v (s : InstanceStore) : InstanceStore :=
  mkInstanceStore (instance_id s) (dags s) (dag_runs s) (task_instances s)
    (task_logs s) (variables s) (connections s) (xcoms s) v
    (providers s).
Definition set_providers v (s : InstanceStore) : InstanceStore :=
  mkInstanceStore (instance_id s) (dags s) (dag_runs s) (task_instances s)
    (task_logs s) (variables s) (connections s) (xcoms s) (pools s)
    v.

(** [if k not in d: d[k] = {}] *)
Definition ensure `{EqDecision K, Countable K} {V} (k : K) (empty : V)
    (d : gmap K V) : gmap K V :=
  match d !! k with
  | Some _ => d
  | None => <[k := empty]> d
  end.

(** [d.get(k, empty)]; also [d[k]] on a key made present by [ensure]. *)
Definition at_key `{EqDecision K, Countable K} {V} (k : K) (empty : V)
    (d : gmap K V) : V :=
  default empty (d !! k).

(** [d[k][...] = ...]: the dictionary held under [k] is changed in place. *)
Definition update_at `{EqDecision K, Countable K} {V} (k : K) (empty : V)
    (f : V -> V) (d : gmap K V) : gmap K V :=
  <[k := f (at_key k empty d)]> d.

(** ** The object memory and the handler monad *)

Record Mem := mkMem {
  task_instance_objs : list TaskInstance.t;
  pool_objs : list Pool.t
}.

Record World := mkWorld {
  mem : Mem;
  store : InstanceStore
}.

(** [InvalidRef] marks a reference to no object; Python cannot produce one. *)
Inductive Exn :=
| HTTPException (status_code : Z) (detail : string)
| NameError (name : string)
| TypeError (message : string)
| InvalidRef.

Inductive Outcome (A : Type) :=
| Done (a : A)
| Raised (e : Exn).
Global Arguments Done {A} a.
Global Arguments Raised {A} e.

Definition M (A : Type) : Type := World -> Outcome A * World.

Global Instance M_ret : MRet M := fun A a w => (Done a, w).

Global Instance M_bind : MBind M := fun A B f m w =>
  match m w with
  | (Done a, w') => f a w'
  | (Raised e, w') => (Raised e, w')
  end.

Definition raise {A} (e : Exn) : M A := fun w => (Raised e, w).

Definition read_store : M InstanceStore := fun w => (Done (store w), w).

Definition modify_store (f : InstanceStore -> InstanceStore) : M unit :=
  fun w => (Done tt, mkWorld (mem w) (f (store w))).

(** A store method that answers with a value. *)
Definition call_store {A} (f : InstanceStore -> A * InstanceStore) : M A :=
  fun w => (Done (f (store w)).1, mkWorld (mem w) (f (store w)).2).

(** Reading an object through a reference. *)
Definition load_task_instance (r : ref) : M TaskInstance.t := fun w =>
  match task_instance_objs (mem w) !! r with
  | Some ti => (Done ti, w)
  | None => (Raised InvalidRef, w)
  end.

Definition load_pool (r : ref) : M Pool.t := fun w =>
  match pool_objs (mem w) !! r with
  | Some p => (Done p, w)
  | None => (Raised InvalidRef, w)
  end.

(** Assigning fields of the object a reference points to. *)
Definition store_task_instance (r : ref) (ti : TaskInstance.t) : M unit :=
  fun w =>
    (Done tt,
     mkWorld (mkMem (<[r := ti]> (task_instance_objs (mem w)))
                    (pool_objs (mem w)))
             (store w)).

Definition store_pool (r : ref) (p : Pool.t) : M unit := fun w =>
  (Done tt,
   mkWorld (mkMem (task_instance_objs (mem w)) (<[r := p]> (pool_objs (mem w))))
           (store w)).

(** A newly built object becomes shared: it gets a fresh reference. *)
Definition new_task_instance (ti : TaskInstance.t) : M ref := fun w =>
  (Done (length (task_instance_objs (mem w))),
   mkWorld (mkMem (task_instance_objs (mem w) ++ [ti]) (pool_objs (mem w)))
           (store w)).

Definition new_pool (p : Pool.t) : M ref := fun w =>
  (Done (length (pool_objs (mem w))),
   mkWorld (mkMem (task_instance_objs (mem w)) (pool_objs (mem w) ++ [p]))
           (store w)).

(** Reading the objects of a list of references, as a listing does when
    it is turned into a response. *)
Fixpoint load_task_instances (rs : list ref) : M (list TaskInstance.t) :=
  match rs with
  | [] => mret []
  | r :: rs =>
      ti ← load_task_instance r;
      tis ← load_task_instances rs;
      mret (ti :: tis)
  end.

(** ** store.py: the methods of InstanceStore *)

Module Store.

Definition add_dag (dag : DAG.t) (self : InstanceStore) : InstanceStore :=
  set_dags (<[DAG.dag_id dag := dag]> (dags self)) self.

Definition get_dag (self : InstanceStore) (dag_id : string) : option DAG.t :=
  dags self !! dag_id.

Definition add_dag_run (dag_run : DAGRun.t) (self : InstanceStore)
    : InstanceStore :=
  let dag_id := DAGRun.dag_id dag_run in
  let d1 := ensure dag_id ∅ (dag_runs self) in
  let d2 := update_at dag_id ∅ (insert (DAGRun.run_id dag_run) dag_run) d1 in
  set_dag_runs d2 self.

Definition get_dag_run (self : InstanceStore) (dag_id run_id : string)
    : option DAGRun.t :=
  at_key dag_id ∅ (dag_runs self) !! run_id.

(** The dictionary steps of [add_task_instance], once the three key
    fields of the object are read. *)
Definition put_task_instance (dag_id run_id task_id : string)
    (task_instance : ref) (self : InstanceStore) : InstanceStore :=
  let d1 := ensure dag_id ∅ (task_instances self) in
  let d2 := update_at dag_id ∅ (ensure run_id ∅) d1 in
  let d3 :=
    update_at dag_id ∅ (update_at run_id ∅ (insert task_id task_instance)) d2 in
  set_task_instances d3 self.

Definition add_task_instance (task_instance : ref) : M unit :=
  ti ← load_task_instance task_instance;
  modify_store
    (put_task_instance (TaskInstance.dag_id ti) (TaskInstance.run_id ti)
       (TaskInstance.task_id ti) task_instance).

Definition get_task_instance (self : InstanceStore)
    (dag_id run_id task_id : string) : option ref :=
  at_key run_id ∅ (at_key dag_id ∅ (task_instances self)) !! task_id.

Definition add_task_log (dag_id run_id task_id : string) (try_number : Z)
    (log : TaskLog.t) (self : InstanceStore) : InstanceStore :=
  let d1 := ensure dag_id ∅ (task_logs self) in
  let d2 := update_at dag_id ∅ (ensure run_id ∅) d1 in
  let d3 := update_at dag_id ∅ (update_at run_id ∅ (ensure task_id ∅)) d2 in
  let d4 :=
    update_at dag_id ∅
      (update_at run_id ∅ (update_at task_id ∅ (insert try_number log))) d3 in
  set_task_logs d4 self.

Definition get_task_log (self : InstanceStore) (dag_id run_id task_id : string)
    (try_number : Z) : option TaskLog.t :=
  at_key task_id ∅ (at_key run_id ∅ (at_key dag_id ∅ (task_logs self)))
    !! try_number.

(** The five field assignments of [clear_task_instance]. *)
Definition reset (ti : TaskInstance.t) : TaskInstance.t :=
  let ti := TaskInstance.set_state "none" ti in
  let ti := TaskInstance.set_try_number 1 ti in
  let ti := TaskInstance.set_start_date None ti in
  let ti := TaskInstance.set_end_date None ti in
  TaskInstance.set_duration None ti.

Definition clear_task_instance (task_instance : ref) : M unit :=
  ti ← load_task_instance task_instance;
  store_task_instance task_instance (reset ti);;
  add_task_instance task_instance.

Definition add_xcom_value (xcom : XCom.t) (self : InstanceStore)
    : InstanceStore :=
  let dag_id := XCom.dag_id xcom in
  let task_id := XCom.task_id xcom in
  let key := XCom.key xcom in
  let x1 := ensure dag_id ∅ (xcoms self) in
  let x2 := update_at dag_id ∅ (ensure task_id ∅) x1 in
  let x3 :=
    update_at dag_id ∅ (update_at task_id ∅ (ensure key OrderedDict.empty)) x2 in
  let x4 :=
    match XCom.run_id xcom with
    | Some run_id =>
        if truthy_str run_id then
          update_at dag_id ∅
            (update_at task_id ∅
               (update_at key OrderedDict.empty (OrderedDict.set run_id xcom)))
            x3
        else x3
    | None => x3
    end in
  set_xcoms x4 self.

(** The run_id -> XCom dictionary under (dag_id, task_id, key), or [{}]. *)
Definition xcom_runs (self : InstanceStore) (dag_id task_id key : string)
    : OrderedDict.t string XCom.t :=
  at_key key OrderedDict.empty (at_key task_id ∅ (at_key dag_id ∅ (xcoms self))).

Definition get_xcom_value (self : InstanceStore) (dag_id task_id key : string)
    (run_id : option string) : option XCom.t :=
  let most_recent :=
    let xcoms := OrderedDict.values (xcom_runs self dag_id task_id key) in
    match xcoms with
    | [] => None
    | _ => py_max XCom.timestamp xcoms
    end in
  match run_id with
  | Some r =>
      if truthy_str r then OrderedDict.get (xcom_runs self dag_id task_id key) r
      else most_recent
  | None => most_recent
  end.

Definition add_pool (pool : ref) : M unit :=
  p ← load_pool pool;
  modify_store (fun self => set_pools (<[Pool.name p := pool]> (pools self)) self).

Definition get_pool (self : InstanceStore) (name : string) : option ref :=
  pools self !! name.

(** An argument left out takes its default, 0. *)
Definition update_pool_slots (name : string) (occupied queued running : option Z)
    : M (option ref) :=
  self ← read_store;
  match get_pool self name with
  | Some pool =>
      p ← load_pool pool;
      let p1 := Pool.set_occupied_slots (default 0 occupied) p in
      let p2 := Pool.set_queued_slots (default 0 queued) p1 in
      let p3 := Pool.set_running_slots (default 0 running) p2 in
      let p4 :=
        Pool.set_open_slots (Some (Pool.slots p3 - Pool.occupied_slots p3)) p3 in
      store_pool pool p4;;
      mret (Some pool)
  | None => mret None
  end.

Definition add_variable (variable : Variable_.t) (self : InstanceStore)
    : InstanceStore :=
  set_variables (<[Variable_.key variable := variable]> (variables self)) self.

Definition get_variable (self : InstanceStore) (key : string)
    : option Variable_.t :=
  variables self !! key.

Definition add_connection (connection : Connection.t) (self : InstanceStore)
    : InstanceStore :=
  set_connections
    (<[Connection.conn_id connection := connection]> (connections self)) self.

Definition get_connection (self : InstanceStore) (conn_id : string)
    : option Connection.t :=
  connections self !! conn_id.

Definition add_provider (provider : Provider.t) (self : InstanceStore)
    : InstanceStore :=
  set_providers
    (<[Provider.package_name provider := provider]> (providers self)) self.

Definition get_provider (self : InstanceStore) (package_name : string)
    : option Provider.t :=
  providers self !! package_name.

(** [KeyError] at any level of the path is caught and answered [False]. *)
Definition delete_xcom_value (dag_id task_id key : string)
    (run_id : option string) (self : InstanceStore) : bool * InstanceStore :=
  let deleted : option InstanceStore :=
    by_task ← xcoms self !! dag_id;
    by_key ← by_task !! task_id;
    runs ← by_key !! key;
    match run_id with
    | Some r =>
        if truthy_str r then
          runs' ← OrderedDict.del r runs;
          Some (set_xcoms
                  (<[dag_id := <[task_id := <[key := runs']> by_key]> by_task]>
                     (xcoms self)) self)
        else
          Some (set_xcoms
                  (<[dag_id := <[task_id := delete key by_key]> by_task]>
                     (xcoms self)) self)
    | None =>
        Some (set_xcoms
                (<[dag_id := <[task_id := delete key by_key]> by_task]>
                   (xcoms self)) self)
    end in
  match deleted with
  | Some self' => (true, self')
  | None => (false, self)
  end.

Definition delete_pool (name : string) (self : InstanceStore)
    : bool * InstanceStore :=
  match pools self !! name with
  | Some _ => (true, set_pools (delete name (pools self)) self)
  | None => (false, self)
  end.

Definition delete_variable (key : string) (self : InstanceStore)
    : bool * InstanceStore :=
  match variables self !! key with
  | Some _ => (true, set_variables (delete key (variables self)) self)
  | None => (false, self)
  end.

Definition delete_connection (conn_id : string) (self : InstanceStore)
    : bool * InstanceStore :=
  match connections self !! conn_id with
  | Some _ => (true, set_connections (delete conn_id (connections self)) self)
  | None => (false, self)
  end.

Definition delete_provider (package_name : string) (self : InstanceStore)
    : bool * InstanceStore :=
  match providers self !! package_name with
  | Some _ => (true, set_providers (delete package_name (providers self)) self)
  | None => (false, self)
  end.

Definition get_provider_hooks (self : InstanceStore) (package_name : string)
    : list ProviderHook.t :=
  match get_provider self package_name with
  | Some provider => Provider.hooks provider
  | None => []
  end.

End Store.

(** ** api.py: the request handlers

    The handlers are closures of [create_app].  Those of DAGs, runs, task
    instances and logs work on [instance_store], the store of the world
    they run on.  The others take an [instance_id] parameter of their own
    and begin with [store = get_store(instance_id)]. *)

Module Api.

(** api.py imports [store] and the models and defines [create_app]; it
    neither imports nor defines [get_store], and no module of the
    repository does.  Evaluating the name finds it in no scope, so the
    call raises NameError before it takes place.  The statements of a
    handler that follow it are transcribed with [store] read as the store
    of the world; none of them is ever reached. *)
Definition get_store (instance_id : string) : M InstanceStore :=
  raise (NameError "get_store").

(** A [datetime] is never false. *)
Definition truthy_datetime (d : datetime_tz) : bool := true.

(** The assignments [create_dag_run] makes on the request body: the
    dag_id of the path, then the defaults.  [strftime] formats an instant
    as year-month-day, "T", hour:minute:second. *)
Definition fill_dag_run (strftime : datetime -> string)
    (now_run_id now_execution now_start : datetime)
    (dag_id : string) (dag_run : DAGRun.t) : DAGRun.t :=
  let dag_run := DAGRun.set_dag_id dag_id dag_run in
  let dag_run :=
    if negb (truthy_str (DAGRun.run_id dag_run)) then
      DAGRun.set_run_id ("manual__" +:+ strftime now_run_id) dag_run
    else dag_run in
  let dag_run :=
    if negb (truthy_datetime (DAGRun.execution_date dag_run)) then
      DAGRun.set_execution_date (Naive now_execution) dag_run
    else dag_run in
  let dag_run :=
    if negb (truthy_opt (DAGRun.start_date dag_run)) then
      DAGRun.set_start_date (Some now_start) dag_run
    else dag_run in
  dag_run.

Definition create_dag_run (strftime : datetime -> string)
    (now_run_id now_execution now_start : datetime)
    (dag_id : string) (dag_run : DAGRun.t) : M DAGRun.t :=
  self ← read_store;
  if bool_decide (dags self !! dag_id = None) then
    raise (HTTPException 404 "DAG not found")
  else
    let dag_run :=
      fill_dag_run strftime now_run_id now_execution now_start dag_id dag_run in
    modify_store (Store.add_dag_run dag_run);;
    mret dag_run.

(** The field assignments of [set_task_instance_state] on the object
    found.  [now_start] and [now_end] are the readings of the clock taken
    for [start_date] and for [end_date]. *)
Definition assign_state (now_start now_end : datetime) (state : string)
    (ti : TaskInstance.t) : TaskInstance.t :=
  let ti := TaskInstance.set_state state ti in
  if bool_decide (state = "running") then
    TaskInstance.set_end_date None
      (TaskInstance.set_start_date (Some now_start) ti)
  else if bool_decide (state ∈ ["success"; "failed"; "skipped"]) then
    let ti :=
      if negb (truthy_opt (TaskInstance.start_date ti)) then
        TaskInstance.set_start_date (Some now_start) ti
      else ti in
    let ti := TaskInstance.set_end_date (Some now_end) ti in
    match TaskInstance.start_date ti with
    | Some start_date =>
        TaskInstance.set_duration
          (Some (total_seconds (now_end - start_date))) ti
    | None => ti
    end
  else ti.

Definition set_task_instance_state (now_start now_end : datetime)
    (dag_id run_id task_id state : string) : M TaskInstanceActionResponse.t :=
  self ← read_store;
  match Store.get_task_instance self dag_id run_id task_id with
  | None => raise (HTTPException 404 "Task instance not found")
  | Some task_instance =>
      ti ← load_task_instance task_instance;
      store_task_instance task_instance
        (assign_state now_start now_end state ti);;
      Store.add_task_instance task_instance;;
      mret (TaskInstanceActionResponse.mk task_id dag_id run_id state
              ("Task instance state set to " +:+ state))
  end.

(** The filter check of [clear_task_instance]. *)
Definition should_clear (clear_request : ClearTaskInstance.t)
    (ti : TaskInstance.t) : bool :=
  let should_clear := true in
  let should_clear :=
    if ClearTaskInstance.only_failed clear_request
       && negb (bool_decide (TaskInstance.state ti = "failed"))
    then false else should_clear in
  let should_clear :=
    if ClearTaskInstance.only_running clear_request
       && negb (bool_decide (TaskInstance.state ti = "running"))
    then false else should_clear in
  should_clear.

Definition clear_task_instance (dag_id run_id task_id : string)
    (clear_request : ClearTaskInstance.t) : M TaskInstanceActionResponse.t :=
  self ← read_store;
  match Store.get_task_instance self dag_id run_id task_id with
  | None => raise (HTTPException 404 "Task instance not found")
  | Some task_instance =>
      ti ← load_task_instance task_instance;
      message ←
        (if should_clear clear_request ti
            && negb (ClearTaskInstance.dry_run clear_request) then
           Store.clear_task_instance task_instance;;
           mret "Task instance cleared"
         else
           mret "Task instance not cleared (dry run or filter conditions not met)");
      ti ← load_task_instance task_instance;
      mret (TaskInstanceActionResponse.mk task_id dag_id run_id
              (TaskInstance.state ti) message)
  end.

Definition get_task_logs (now : datetime) (dag_id run_id task_id : string)
    (try_number : Z) : M TaskLog.t :=
  self ← read_store;
  match Store.get_task_log self dag_id run_id task_id try_number with
  | Some task_log => mret task_log
  | None =>
      let task_log :=
        TaskLog.mk try_number
          ("No logs found for task " +:+ task_id +:+ " (try "
             +:+ pretty try_number +:+ ")")
          now in
      modify_store (Store.add_task_log dag_id run_id task_id try_number task_log);;
      mret task_log
  end.

Definition create_xcom_entry (dag_id run_id task_id : string) (xcom : XCom.t)
    (instance_id : string) : M XCom.t :=
  get_store instance_id;;
  let xcom := XCom.set_dag_id dag_id xcom in
  let xcom := XCom.set_run_id (Some run_id) xcom in
  let xcom := XCom.set_task_id task_id xcom in
  modify_store (Store.add_xcom_value xcom);;
  mret xcom.

Definition create_connection (connection : Connection.t)
    (instance_id : string) : M Connection.t :=
  self ← get_store instance_id;
  if truthy_opt (Store.get_connection self (Connection.conn_id connection)) then
    raise (HTTPException 409
             ("Connection " +:+ Connection.conn_id connection
                +:+ " already exists"))
  else
    modify_store (Store.add_connection connection);;
    mret connection.

Definition update_connection (conn_id : string) (connection : Connection.t)
    (instance_id : string) : M Connection.t :=
  self ← get_store instance_id;
  if negb (truthy_opt (Store.get_connection self conn_id)) then
    raise (HTTPException 404 ("Connection " +:+ conn_id +:+ " not found"))
  else
    let connection := Connection.set_conn_id conn_id connection in
    modify_store (Store.add_connection connection);;
    mret connection.

Definition create_variable (variable : Variable_.t) (instance_id : string)
    : M Variable_.t :=
  self ← get_store instance_id;
  if truthy_opt (Store.get_variable self (Variable_.key variable)) then
    raise (HTTPException 409
             ("Variable " +:+ Variable_.key variable +:+ " already exists"))
  else
    modify_store (Store.add_variable variable);;
    mret variable.

Definition update_variable (key : string) (variable : Variable_.t)
    (instance_id : string) : M Variable_.t :=
  self ← get_store instance_id;
  if negb (truthy_opt (Store.get_variable self key)) then
    raise (HTTPException 404 ("Variable " +:+ key +:+ " not found"))
  else
    let variable := Variable_.set_key key variable in
    modify_store (Store.add_variable variable);;
    mret variable.

(** The [Pool] argument is built from the request body by [Pool.init];
    it becomes a shared object when the store takes it. *)
Definition create_pool (body : Pool.data) (instance_id : string) : M Pool.t :=
  let pool := Pool.init body in
  self ← get_store instance_id;
  if truthy_opt (Store.get_pool self (Pool.name pool)) then
    raise (HTTPException 409
             ("Pool " +:+ Pool.name pool +:+ " already exists"))
  else
    pool_ref ← new_pool pool;
    Store.add_pool pool_ref;;
    load_pool pool_ref.

Definition update_pool (pool_name : string) (body : Pool.data)
    (instance_id : string) : M Pool.t :=
  let pool := Pool.init body in
  self ← get_store instance_id;
  if negb (truthy_opt (Store.get_pool self pool_name)) then
    raise (HTTPException 404 ("Pool " +:+ pool_name +:+ " not found"))
  else
    let pool := Pool.set_name pool_name pool in
    pool_ref ← new_pool pool;
    Store.add_pool pool_ref;;
    load_pool pool_ref.

Definition update_pool_slots (pool_name : string)
    (occupied_slots queued_slots running_slots : option Z)
    (instance_id : string) : M Pool.t :=
  self ← get_store instance_id;
  match Store.get_pool self pool_name with
  | None => raise (HTTPException 404 ("Pool " +:+ pool_name +:+ " not found"))
  | Some pool =>
      p ← load_pool pool;
      let occupied :=
        match occupied_slots with Some v => v | None => Pool.occupied_slots p end in
      let queued :=
        match queued_slots with Some v => v | None => Pool.queued_slots p end in
      let running :=
        match running_slots with Some v => v | None => Pool.running_slots p end in
      updated_pool ←
        Store.update_pool_slots pool_name (Some occupied) (Some queued)
          (Some running);
      match updated_pool with
      | None =>
          raise (HTTPException 500
                   ("Failed to update pool " +:+ pool_name +:+ " slots"))
      | Some updated_pool => load_pool updated_pool
      end
  end.

Definition create_provider (provider : Provider.t) (instance_id : string)
    : M Provider.t :=
  self ← get_store instance_id;
  if truthy_opt (Store.get_provider self (Provider.package_name provider)) then
    raise (HTTPException 409
             ("Provider " +:+ Provider.package_name provider
                +:+ " already exists"))
  else
    modify_store (Store.add_provider provider);;
    mret provider.

Definition update_provider (provider_name : string) (provider : Provider.t)
    (instance_id : string) : M Provider.t :=
  self ← get_store instance_id;
  if negb (truthy_opt (Store.get_provider self provider_name)) then
    raise (HTTPException 404 ("Provider " +:+ provider_name +:+ " not found"))
  else
    let provider := Provider.set_package_name provider_name provider in
    modify_store (Store.add_provider provider);;
    mret provider.

Definition get_dag (dag_id : string) : M DAG.t :=
  self ← read_store;
  match Store.get_dag self dag_id with
  | Some dag => mret dag
  | None => raise (HTTPException 404 "DAG not found")
  end.

Definition get_dag_run (dag_id run_id : string) : M DAGRun.t :=
  self ← read_store;
  match Store.get_dag_run self dag_id run_id with
  | Some dag_run => mret dag_run
  | None => raise (HTTPException 404 "DAG run not found")
  end.

Definition update_dag_run (dag_id run_id : string) (dag_run : DAGRun.t)
    : M DAGRun.t :=
  self ← read_store;
  if negb (truthy_opt (Store.get_dag_run self dag_id run_id)) then
    raise (HTTPException 404 "DAG run not found")
  else
    let dag_run := DAGRun.set_dag_id dag_id dag_run in
    let dag_run := DAGRun.set_run_id run_id dag_run in
    modify_store (Store.add_dag_run dag_run);;
    mret dag_run.

Definition get_task_instance (dag_id run_id task_id : string)
    : M TaskInstance.t :=
  self ← read_store;
  match Store.get_task_instance self dag_id run_id task_id with
  | Some task_instance => load_task_instance task_instance
  | None => raise (HTTPException 404 "Task instance not found")
  end.

Definition get_xcom_entry (dag_id run_id task_id key : string)
    (instance_id : string) : M XCom.t :=
  self ← get_store instance_id;
  match Store.get_xcom_value self dag_id task_id key (Some run_id) with
  | Some xcom => mret xcom
  | None => raise (HTTPException 404 "XCom entry not found")
  end.

Definition delete_xcom_entry (dag_id run_id task_id key : string)
    (instance_id : string) : M unit :=
  get_store instance_id;;
  deleted ← call_store (Store.delete_xcom_value dag_id task_id key (Some run_id));
  if negb deleted then raise (HTTPException 404 "XCom entry not found")
  else mret tt.

Definition get_connection (conn_id : string) (instance_id : string)
    : M Connection.t :=
  self ← get_store instance_id;
  match Store.get_connection self conn_id with
  | Some connection => mret connection
  | None =>
      raise (HTTPException 404 ("Connection " +:+ conn_id +:+ " not found"))
  end.

Definition delete_connection (conn_id : string) (instance_id : string)
    : M unit :=
  get_store instance_id;;
  deleted ← call_store (Store.delete_connection conn_id);
  if negb deleted then
    raise (HTTPException 404 ("Connection " +:+ conn_id +:+ " not found"))
  else mret tt.

Definition get_variable (key : string) (instance_id : string)
    : M Variable_.t :=
  self ← get_store instance_id;
  match Store.get_variable self key with
  | Some variable => mret variable
  | None => raise (HTTPException 404 ("Variable " +:+ key +:+ " not found"))
  end.

Definition delete_variable (key : string) (instance_id : string) : M unit :=
  get_store instance_id;;
  deleted ← call_store (Store.delete_variable key);
  if negb deleted then
    raise (HTTPException 404 ("Variable " +:+ key +:+ " not found"))
  else mret tt.

Definition get_pool (pool_name : string) (instance_id : string) : M Pool.t :=
  self ← get_store instance_id;
  match Store.get_pool self pool_name with
  | Some pool => load_pool pool
  | None => raise (HTTPException 404 ("Pool " +:+ pool_name +:+ " not found"))
  end.

Definition delete_pool (pool_name : string) (instance_id : string)
    : M unit :=
  get_store instance_id;;
  deleted ← call_store (Store.delete_pool pool_name);
  if negb deleted then
    raise (HTTPException 404 ("Pool " +:+ pool_name +:+ " not found"))
  else mret tt.

Definition get_provider (provider_name : string) (instance_id : string)
    : M Provider.t :=
  self ← get_store instance_id;
  match Store.get_provider self provider_name with
  | Some provider => mret provider
  | None =>
      raise (HTTPException 404 ("Provider " +:+ provider_name +:+ " not found"))
  end.

Definition delete_provider (provider_name : string) (instance_id : string)
    : M unit :=
  get_store instance_id;;
  deleted ← call_store (Store.delete_provider provider_name);
  if negb deleted then
    raise (HTTPException 404 ("Provider " +:+ provider_name +:+ " not found"))
  else mret tt.

Definition get_provider_hooks (provider_name : string)
    (instance_id : string) : M (list ProviderHook.t) :=
  self ← get_store instance_id;
  match Store.get_provider self provider_name with
  | Some provider => mret (Provider.hooks provider)
  | None =>
      raise (HTTPException 404 ("Provider " +:+ provider_name +:+ " not found"))
  end.

End Api.

(** ** store.py: MockStore; server.py: MockServer *)

Record MockStore := mkMockStore {
  instances : gmap string InstanceStore
}.

(** [MockStore.__init__], the module-level [store = MockStore()]. *)
Definition MockStore_init : MockStore := mkMockStore ∅.

(** [MockStore.get_instance]: the store found, and the registry after the
    lookup. *)
Definition get_instance (instance_id : string) (self : MockStore)
    : InstanceStore * MockStore :=
  let instances :=
    ensure instance_id (InstanceStore_init instance_id) (instances self) in
  (at_key instance_id (InstanceStore_init instance_id) instances,
   mkMockStore instances).

(** What the server keeps of a [uvicorn.Server]: its configuration. *)
Record UvicornServer := mkUvicornServer {
  app : string;
  host : string;
  port : Z
}.

(** The module-level [store] and [server], and the objects they reach. *)
Record Process := mkProcess {
  objects : Mem;
  registry : MockStore;
  servers : gmap string UvicornServer
}.

Definition Process_init : Process := mkProcess (mkMem [] []) MockStore_init ∅.

(** A handler of the application that [create_app instance_id] built.  It
    works on [instance_store], the object [store.get_instance(instance_id)]
    returned, and changes it in place: the registry holds the changed
    store afterwards. *)
Definition handle {A} (instance_id : string) (handler : M A) (p : Process)
    : Outcome A * Process :=
  let '(instance_store, reg) := get_instance instance_id (registry p) in
  let '(out, w) := handler (mkWorld (objects p) instance_store) in
  (out,
   mkProcess (mem w) (mkMockStore (<[instance_id := store w]> (instances reg)))
     (servers p)).

(** [create_app]: binds the application to its instance store. *)
Definition create_app (instance_id : string) (p : Process) : string * Process :=
  let '(_, reg) := get_instance instance_id (registry p) in
  (instance_id, mkProcess (objects p) reg (servers p)).

(** [MockServer.start_instance], up to the point where the server starts
    serving.  [populate_instance] is the sample data generator. *)
Definition start_instance (populate_instance : M unit) (instance_id : string)
    (port : Z) (populate : bool) (p : Process) : Process :=
  let '(app, p) := create_app instance_id p in
  let p := if populate then (handle instance_id populate_instance p).2 else p in
  let server := mkUvicornServer app "0.0.0.0" port in
  mkProcess (objects p) (registry p) (<[instance_id := server]> (servers p)).

(** [MockServer.stop_instance]: shut the server down and forget it. *)
Definition stop_instance (instance_id : string) (p : Process) : Process :=
  match servers p !! instance_id with
  | Some _ => mkProcess (objects p) (registry p) (delete instance_id (servers p))
  | None => p
  end.

(** ** Listings

    [list(d.values())] and [list(d.keys())] follow the insertion order of
    the dictionary, which a finite map does not record.  The listings
    therefore take the enumeration of a dictionary as a parameter,
    [dict_items]; their properties are proved for every enumeration that
    lists exactly the items of the map. *)

(** [[x for x in l if keep(x)]] where evaluating [keep(x)] may raise:
    the elements are tested in order and the first raise ends the
    comprehension. *)
Fixpoint comprehension {A} (keep : A -> Exn + bool) (l : list A)
    : Exn + list A :=
  match l with
  | [] => inr []
  | x :: l =>
      match keep x with
      | inl e => inl e
      | inr b =>
          match comprehension keep l with
          | inl e => inl e
          | inr l' => inr (if b then x :: l' else l')
          end
      end
  end.

Definition raising {A} (r : Exn + A) : M A :=
  match r with
  | inl e => raise e
  | inr a => mret a
  end.

(** [x <= y] and [x >= y] on datetimes.  Python orders two naive and two
    aware datetimes and refuses to order a naive and an aware one. *)
Definition naive_and_aware : Exn :=
  TypeError "can't compare offset-naive and offset-aware datetimes".

Definition datetime_le (x y : datetime_tz) : Exn + bool :=
  match x, y with
  | Naive _, Aware _ _ | Aware _ _, Naive _ => inl naive_and_aware
  | _, _ => inr (bool_decide (ordering_instant x <= ordering_instant y))
  end.

Definition datetime_ge (x y : datetime_tz) : Exn + bool := datetime_le y x.

Module Listing.
Section enumeration.
Context (dict_items : forall V : Type, gmap string V -> list (string * V)).

Definition dict_values {V} (d : gmap string V) : list V := (dict_items V d).*2.
Definition dict_keys {V} (d : gmap string V) : list string :=
  (dict_items V d).*1.

(** [[x] if x else all] *)
Definition one_or_all (x : option string) (all : list string) : list string :=
  match x with
  | Some v => if truthy_str v then [v] else all
  | None => all
  end.

(** [InstanceStore.get_task_instances] *)
Definition get_task_instances (self : InstanceStore) (dag_id run_id : string)
    : list ref :=
  dict_values (at_key run_id ∅ (at_key dag_id ∅ (task_instances self))).

(** [InstanceStore.list_xcom_values] *)
Definition list_xcom_values (self : InstanceStore)
    (dag_id task_id run_id key : option string) : list XCom.t :=
  d_id ← one_or_all dag_id (dict_keys (xcoms self));
  match xcoms self !! d_id with
  | None => []
  | Some by_task =>
      t_id ← one_or_all task_id (dict_keys by_task);
      match by_task !! t_id with
      | None => []
      | Some by_key =>
          k ← one_or_all key (dict_keys by_key);
          match by_key !! k with
          | None => []
          | Some runs =>
              r_id ← one_or_all run_id (OrderedDict.keys runs);
              match OrderedDict.get runs r_id with
              | Some xcom => [xcom]
              | None => []
              end
          end
      end
  end.

(** [InstanceStore.list_connections] *)
Definition list_connections (self : InstanceStore) (limit offset : option Z)
    : list Connection.t :=
  let connections := dict_values (connections self) in
  let connections :=
    match offset with
    | Some offset => py_slice connections (Some offset) None
    | None => connections
    end in
  let connections :=
    match limit with
    | Some limit => py_slice connections None (Some limit)
    | None => connections
    end in
  connections.

(** [MockStore.list_instances] and [MockServer.list_instances] *)
Definition store_list_instances (self : MockStore) : list string :=
  dict_keys (instances self).
Definition server_list_instances (p : Process) : list string :=
  dict_keys (servers p).

(** api.py: the listing handlers.  [limit] and [offset] of the first
    three are validated before the handler runs ([limit >= 1],
    [offset >= 0]); those of [list_connections] are not. *)

Definition list_dags (limit offset : Z) : M DAGCollection.t :=
  self ← read_store;
  let dags := dict_values (dags self) in
  let total := Z.of_nat (length dags) in
  let dags := py_slice dags (Some offset) (Some (offset + limit)) in
  mret (DAGCollection.mk dags total).

Definition list_dag_runs (dag_id : string) (limit offset : Z)
    (execution_date_gte execution_date_lte : option datetime_tz)
    (state : option string) : M DAGRunCollection.t :=
  self ← read_store;
  match dag_runs self !! dag_id with
  | None => mret (DAGRunCollection.mk [] 0)
  | Some runs =>
      let dag_runs := dict_values runs in
      dag_runs ←
        match execution_date_gte with
        | Some gte =>
            raising
              (comprehension
                 (fun dr => datetime_ge (DAGRun.execution_date dr) gte)
                 dag_runs)
        | None => mret dag_runs
        end;
      dag_runs ←
        match execution_date_lte with
        | Some lte =>
            raising
              (comprehension
                 (fun dr => datetime_le (DAGRun.execution_date dr) lte)
                 dag_runs)
        | None => mret dag_runs
        end;
      let dag_runs :=
        if truthy_opt_str state then
          filter (fun dr => Some (DAGRun.state dr) = state) dag_runs
        else dag_runs in
      let total := Z.of_nat (length dag_runs) in
      let dag_runs := py_slice dag_runs (Some offset) (Some (offset + limit)) in
      mret (DAGRunCollection.mk dag_runs total)
  end.

(** The two date bounds are parameters of the request and are not used. *)
Definition list_task_instances (dag_id run_id : string) (limit offset : Z)
    (execution_date_gte execution_date_lte : option datetime)
    (state : option string) : M TaskInstanceCollection.t :=
  self ← read_store;
  task_instances ← load_task_instances (get_task_instances self dag_id run_id);
  let task_instances :=
    if truthy_opt_str state then
      filter (fun ti => Some (TaskInstance.state ti) = state) task_instances
    else task_instances in
  let total := Z.of_nat (length task_instances) in
  let task_instances :=
    py_slice task_instances (Some offset) (Some (offset + limit)) in
  mret (TaskInstanceCollection.mk task_instances total).

Definition list_xcom_entries (dag_id run_id task_id : string)
    (key : option string) (instance_id : string) : M XComCollection.t :=
  self ← Api.get_store instance_id;
  let xcom_entries :=
    list_xcom_values self (Some dag_id) (Some task_id) (Some run_id) key in
  mret (XComCollection.mk xcom_entries (Z.of_nat (length xcom_entries))).

Definition api_list_connections (limit offset : option Z)
    (instance_id : string) : M ConnectionCollection.t :=
  self ← Api.get_store instance_id;
  let connections := list_connections self limit offset in
  mret (ConnectionCollection.mk connections
          (Z.of_nat (length (list_connections self None None)))).

End enumeration.
End Listing.

(** An enumeration lists a dictionary when it gives exactly its items,
    each once. *)
Definition lists_items
    (dict_items : forall V : Type, gmap string V -> list (string * V)) : Prop :=
  forall (V : Type) (d : gmap string V), dict_items V d ≡ₚ map_to_list d.

(** One such enumeration, in the order of the keys. *)
Definition items_by_key (V : Type) (d : gmap string V) : list (string * V) :=
  map_to_list d.

(** * Statements and scenarios *)

(** ** Create-or-replace *)

(** A kind stored by value: after [add e] the lookup under the key of [e]
    gives [e], and a later [add] under the same key leaves the store as if
    it alone had happened. *)
Definition create_or_replace {E K : Type}
    (add : E -> InstanceStore -> InstanceStore)
    (get : InstanceStore -> K -> option E) (key : E -> K) : Prop :=
  forall (self : InstanceStore) (e : E),
    get (add e self) (key e) = Some e /\
    forall e' : E, key e' = key e -> add e' (add e self) = add e' self.

(** A kind stored by reference: the same, for live references. *)
Definition create_or_replace_ref {O K : Type} (objs : Mem -> list O)
    (add : ref -> M unit) (get : InstanceStore -> K -> option ref)
    (key : O -> K) : Prop :=
  forall (w : World) (r : ref) (o : O),
    objs (mem w) !! r = Some o ->
    exists w' : World,
      add r w = (Done tt, w') /\ mem w' = mem w /\
      get (store w') (key o) = Some r /\
      forall (r' : ref) (o' : O),
        objs (mem w) !! r' = Some o' -> key o' = key o ->
        (add r;; add r') w = add r' w.

Definition empty_world : World := mkWorld (mkMem [] []) (InstanceStore_init "i1").

Definition xcom_no_run : XCom.t :=
  XCom.mk "k" (JInt 1) 10 10 "t1" "d1" None None.

Definition xcom_r1 : XCom.t :=
  XCom.mk "k" (JInt 1) 10 10 "t1" "d1" (Some "r1") None.

(** ** XCom entries with equal timestamps *)

Definition xcom_a : XCom.t := XCom.mk "k" (JStr "from a") 5 5 "t1" "d1" (Some "a") None.
Definition xcom_b : XCom.t := XCom.mk "k" (JStr "from b") 5 5 "t1" "d1" (Some "b") None.

(** The same two entries, stored in either order. *)
Definition store_a_then_b : InstanceStore :=
  Store.add_xcom_value xcom_b (Store.add_xcom_value xcom_a (InstanceStore_init "i1")).
Definition store_b_then_a : InstanceStore :=
  Store.add_xcom_value xcom_a (Store.add_xcom_value xcom_b (InstanceStore_init "i1")).

(** ** Pools *)

(** The derived field agrees with the fields it is derived from. *)
Definition pool_derived (p : Pool.t) : Prop :=
  Pool.open_slots p = Some (Pool.slots p - Pool.occupied_slots p).

(** What the slot update of the store leaves of pool [p]: each count is
    the argument given, 0 for an argument left out. *)
Definition slots_assigned (occupied queued running : option Z) (p : Pool.t)
    : Pool.t :=
  let occupied := default 0 occupied in
  Pool.mk (Pool.name p) (Pool.slots p) (Pool.description p)
    occupied (default 0 queued) (default 0 running)
    (Some (Pool.slots p - occupied)).

(** Pool "p1" of 10 slots, 3 of them occupied, held by the store. *)
Definition pool_p1 : Pool.t := Pool.mk "p1" 10 None 3 0 0 (Some 7).
Definition world_p1 : World :=
  mkWorld (mkMem [] [pool_p1])
    (set_pools {["p1" := 0%nat]} (InstanceStore_init "i1")).

(** An operation keeps every [Pool] object derived. *)
Definition keeps_pools_derived {A} (handler : M A) : Prop :=
  forall w : World,
    Forall pool_derived (pool_objs (mem w)) ->
    Forall pool_derived (pool_objs (mem (handler w).2)).

(** ** Task instances *)

(** [f] is the float nearest to [n / d], for [0 < d]: it is [m * 2^e]
    with the sign of [n] and, unless zero, a mantissa of exactly 53 bits;
    it lies at most half a unit of its last place from the quotient, has
    an even mantissa when it lies exactly half a unit away, and at the
    bottom of a binade, where the floats below are twice as dense, lies
    at most a quarter of a unit above the quotient.  The quotient is
    [num / den] in units of [2^e]. *)
Definition nearest_float (n d : Z) (f : float) : Prop :=
  exists m e : Z,
    f = Finite m e /\
    Z.sgn m = Z.sgn n /\
    (n = 0 -> e = 0) /\
    (n <> 0 -> 2 ^ 52 <= Z.abs m < 2 ^ 53) /\
    let num := Z.abs n * 2 ^ Z.max 0 (- e) in
    let den := d * 2 ^ Z.max 0 e in
    2 * Z.abs (Z.abs m * den - num) <= den /\
    (2 * Z.abs (Z.abs m * den - num) = den -> Z.even m = true) /\
    (Z.abs m = 2 ^ 52 -> 4 * (Z.abs m * den - num) <= den).

(** Task instance (d1, r1, t1), running since instant 100, held by the
    store. *)
Definition ti_running : TaskInstance.t :=
  TaskInstance.mk "t1" "d1" "r1" "running" 2 0 (Some 100) None None
    "default_pool" "default" 1 "PythonOperator" None None None (JDict [])
    None (JDict []).
Definition world_t1 : World :=
  mkWorld (mkMem [ti_running] [])
    (Store.put_task_instance "d1" "r1" "t1" 0%nat (InstanceStore_init "i1")).

(** The same task instance before it ever ran. *)
Definition ti_fresh : TaskInstance.t :=
  TaskInstance.mk "t1" "d1" "r1" "none" 1 0 None None None
    "default_pool" "default" 1 "PythonOperator" None None None (JDict [])
    None (JDict []).
Definition world_t0 : World :=
  mkWorld (mkMem [ti_fresh] [])
    (Store.put_task_instance "d1" "r1" "t1" 0%nat (InstanceStore_init "i1")).

(** The conditions under which a clear request is carried out. *)
Definition clear_allowed (clear_request : ClearTaskInstance.t)
    (ti : TaskInstance.t) : Prop :=
  ClearTaskInstance.dry_run clear_request = false /\
  (ClearTaskInstance.only_failed clear_request = true ->
   TaskInstance.state ti = "failed") /\
  (ClearTaskInstance.only_running clear_request = true ->
   TaskInstance.state ti = "running").

Definition clear_request_plain : ClearTaskInstance.t :=
  ClearTaskInstance.mk false None None false false false false false.
Definition clear_request_only_failed : ClearTaskInstance.t :=
  ClearTaskInstance.mk false None None true false false false false.

(** ** Uniqueness *)

(** A handler that raises NameError at its call of [get_store], on every
    world, and leaves the world as it was. *)
Definition raises_name_error {A} (handler : M A) : Prop :=
  forall w : World, handler w = (Raised (NameError "get_store"), w).

Definition conn_c1 : Connection.t :=
  Connection.mk "c1" "http" (Some "api.example.com") None None None None None.
Definition conn_c1_again : Connection.t :=
  Connection.mk "c1" "postgres" (Some "localhost") (Some 5432) None None None None.

(** ** The registry across a stop *)

Definition dag_d1 : DAG.t :=
  DAG.mk "d1" false true 0 0 0 None None "/tmp/dags/d1.py" ["admin"] None None [].

(** Instance "a" is started and seeded with DAG "d1", a log is read
    through its application, and the instance is stopped. *)
Definition process_started : Process :=
  start_instance (modify_store (Store.add_dag dag_d1)) "a" 8080 true Process_init.
Definition process_used : Process :=
  (handle "a" (Api.get_task_logs 7 "d1" "r1" "t1" 1) process_started).2.
Definition process_stopped : Process := stop_instance "a" process_used.

(** ** Deletion *)

(** [del] answers whether the key was there, removes it and nothing else,
    and leaves the store as it is when the key was not there. *)
Definition deletes_key {E : Type} (get : InstanceStore -> string -> option E)
    (del : string -> InstanceStore -> bool * InstanceStore) : Prop :=
  forall (self : InstanceStore) (k : string),
    (del k self).1 = bool_decide (is_Some (get self k)) /\
    get (del k self).2 k = None /\
    (forall k' : string, k' <> k -> get (del k self).2 k' = get self k') /\
    (get self k = None -> (del k self).2 = self).

(** Deleting what was just added under a new key gives the store back. *)
Definition add_then_delete_restores {E : Type}
    (get : InstanceStore -> string -> option E)
    (add : E -> InstanceStore -> InstanceStore) (key : E -> string)
    (del : string -> InstanceStore -> bool * InstanceStore) : Prop :=
  forall (self : InstanceStore) (e : E),
    get self (key e) = None -> del (key e) (add e self) = (true, self).

Definition world_c1 : World :=
  mkWorld (mkMem [] []) (Store.add_connection conn_c1 (InstanceStore_init "i1")).

(** The store after two XCom entries of key "k" of (d1, t1), one of run
    "a" and one of run "b". *)
Definition xcom_b_later : XCom.t :=
  XCom.mk "k" (JStr "from b") 9 9 "t1" "d1" (Some "b") None.
Definition store_two_runs : InstanceStore :=
  Store.add_xcom_value xcom_b_later
    (Store.add_xcom_value xcom_a (InstanceStore_init "i1")).

(** ** Reading, creating and replacing *)

(** The get handler answers with what the store holds under the key, or
    with 404; either way the world is what it was. *)
Definition get_answers {K E : Type} (get : InstanceStore -> K -> option E)
    (get_handler : K -> M E) : Prop :=
  forall (w : World) (k : K),
    match get (store w) k with
    | Some e => get_handler k w = (Done e, w)
    | None =>
        exists detail : string,
          get_handler k w = (Raised (HTTPException 404 detail), w)
    end.

Definition provider_p : Provider.t :=
  Provider.mk "apache-airflow-providers-http" None "4.1.0" "HTTP"
    [ProviderHook.mk "HttpHook" "http" "HTTP" "apache-airflow-providers-http" None]
    [] None.
Definition world_provider : World :=
  mkWorld (mkMem [] []) (Store.add_provider provider_p (InstanceStore_init "i1")).

(** A store that holds DAG "d1" and its run "r1". *)
Definition run_r1 : DAGRun.t :=
  DAGRun.mk "d1" "r1" (Naive 50) (Some 60) None "running" false (JDict []).
Definition world_run : World :=
  mkWorld (mkMem [] [])
    (Store.add_dag_run run_r1 (Store.add_dag dag_d1 (InstanceStore_init "i1"))).

(** ** Listings *)

(** Two datetimes can be ordered: both are naive, or both are aware. *)
Definition comparable (x y : datetime_tz) : Prop :=
  match x, y with
  | Naive _, Naive _ | Aware _ _, Aware _ _ => True
  | _, _ => False
  end.

(** A run passes the filters of a listing request. *)
Definition run_passes (execution_date_gte execution_date_lte : option datetime_tz)
    (state : option string) (dr : DAGRun.t) : Prop :=
  (forall gte, execution_date_gte = Some gte ->
     ordering_instant gte <= ordering_instant (DAGRun.execution_date dr)) /\
  (forall lte, execution_date_lte = Some lte ->
     ordering_instant (DAGRun.execution_date dr) <= ordering_instant lte) /\
  (truthy_opt_str state = true -> Some (DAGRun.state dr) = state).

Definition run_r2 : DAGRun.t :=
  DAGRun.mk "d1" "r2" (Naive 80) (Some 90) None "success" false (JDict []).
Definition world_two_runs : World :=
  mkWorld (mkMem [] []) (Store.add_dag_run run_r2 (store world_run)).

(** Every dictionary of runs lists each run_id once, as a Python
    dictionary does. *)
Definition runs_listed_once (self : InstanceStore) : Prop :=
  forall dag_id task_id key : string,
    NoDup (OrderedDict.keys (Store.xcom_runs self dag_id task_id key)).

(** * Properties *)

(** Opens a handler up to its first read of the store. *)
Ltac run_handler h := unfold h, mbind, M_bind, read_store.

(** ** Nested dictionaries *)

Section nested.
Context `{Countable K} {V : Type}.
Implicit Types (d : gmap K V) (k : K) (e : V) (f g : V -> V).

Lemma at_key_ensure k e d : at_key k e (ensure k e d) = at_key k e d.
Proof.
  unfold at_key, ensure. destruct (d !! k) eqn:E.
  - by rewrite E.
  - by rewrite lookup_insert_eq.
Qed.

Lemma at_key_ensure_ne k k' e e' d :
  k ≠ k' -> at_key k' e' (ensure k e d) = at_key k' e' d.
Proof.
  intros Hne. unfold at_key, ensure. destruct (d !! k); [done|].
  by rewrite lookup_insert_ne.
Qed.

Lemma at_key_update_at k e f d :
  at_key k e (update_at k e f d) = f (at_key k e d).
Proof. unfold at_key at 1, update_at. by rewrite lookup_insert_eq. Qed.

Lemma at_key_update_at_ne k k' e e' f d :
  k ≠ k' -> at_key k' e' (update_at k e f d) = at_key k' e' d.
Proof.
  intros Hne. unfold at_key at 1, update_at. by rewrite lookup_insert_ne.
Qed.

Lemma update_at_ensure k e f d :
  update_at k e f (ensure k e d) = update_at k e f d.
Proof.
  unfold update_at. rewrite at_key_ensure. unfold ensure.
  destruct (d !! k); [done|]. by rewrite insert_insert_eq.
Qed.

Lemma update_at_update_at k e f g d :
  update_at k e f (update_at k e g d) = update_at k e (fun v => f (g v)) d.
Proof.
  unfold update_at at 1. rewrite at_key_update_at.
  unfold update_at. by rewrite insert_insert_eq.
Qed.

Lemma update_at_ext k e f g d :
  (forall v, f v = g v) -> update_at k e f d = update_at k e g d.
Proof. intros Hfg. unfold update_at. by rewrite Hfg. Qed.

End nested.

(** ** The insertion-ordered dictionary *)

Section ordered_dict_facts.
Context {K V : Type} `{EqDecision K}.
Implicit Types (d : OrderedDict.t K V) (k : K) (v : V).

Lemma ordered_get_set k v d : OrderedDict.get (OrderedDict.set k v d) k = Some v.
Proof.
  induction d as [|[k' v'] d IH]; simpl.
  - by rewrite decide_True.
  - destruct (decide (k = k')) as [->|Hne]; simpl.
    + by rewrite decide_True.
    + by rewrite decide_False.
Qed.

Lemma ordered_get_set_ne k k' v d :
  k ≠ k' -> OrderedDict.get (OrderedDict.set k v d) k' = OrderedDict.get d k'.
Proof.
  intros Hne. induction d as [|[k0 v0] d IH]; simpl.
  - rewrite decide_False; [done|congruence].
  - destruct (decide (k = k0)) as [->|Hne0]; simpl.
    + rewrite !decide_False; [done|congruence|congruence].
    + destruct (decide (k' = k0)); [done|apply IH].
Qed.

Lemma ordered_set_set k v v' d :
  OrderedDict.set k v' (OrderedDict.set k v d) = OrderedDict.set k v' d.
Proof.
  induction d as [|[k0 v0] d IH]; simpl.
  - by rewrite decide_True.
  - destruct (decide (k = k0)) as [->|Hne]; simpl.
    + by rewrite decide_True.
    + rewrite decide_False; [|done]. by rewrite IH.
Qed.

End ordered_dict_facts.

(** ** The store methods in closed form *)

Lemma add_dag_run_eq dag_run self :
  Store.add_dag_run dag_run self
  = set_dag_runs
      (update_at (DAGRun.dag_id dag_run) ∅
         (insert (DAGRun.run_id dag_run) dag_run) (dag_runs self)) self.
Proof. unfold Store.add_dag_run. cbv zeta. by rewrite update_at_ensure. Qed.

Lemma put_task_instance_eq dag_id run_id task_id r self :
  Store.put_task_instance dag_id run_id task_id r self
  = set_task_instances
      (update_at dag_id ∅ (update_at run_id ∅ (insert task_id r))
         (task_instances self)) self.
Proof.
  unfold Store.put_task_instance. cbv zeta.
  rewrite update_at_update_at, update_at_ensure. f_equal.
  apply update_at_ext. intros v. apply update_at_ensure.
Qed.

Lemma add_task_log_eq dag_id run_id task_id try_number log self :
  Store.add_task_log dag_id run_id task_id try_number log self
  = set_task_logs
      (update_at dag_id ∅
         (update_at run_id ∅ (update_at task_id ∅ (insert try_number log)))
         (task_logs self)) self.
Proof.
  unfold Store.add_task_log. cbv zeta.
  rewrite !update_at_update_at, update_at_ensure. f_equal.
  apply update_at_ext. intros v.
  rewrite update_at_update_at, update_at_ensure.
  apply update_at_ext. intros u. apply update_at_ensure.
Qed.

(** The XCom tree after [add_xcom_value] stored an entry under [run_id]. *)
Lemma add_xcom_value_eq xcom run_id self :
  XCom.run_id xcom = Some run_id -> truthy_str run_id = true ->
  Store.add_xcom_value xcom self
  = set_xcoms
      (update_at (XCom.dag_id xcom) ∅
         (update_at (XCom.task_id xcom) ∅
            (update_at (XCom.key xcom) OrderedDict.empty
               (OrderedDict.set run_id xcom)))
         (xcoms self)) self.
Proof.
  intros Hr Ht. unfold Store.add_xcom_value. cbv zeta. rewrite Hr, Ht.
  rewrite !update_at_update_at, update_at_ensure. f_equal.
  apply update_at_ext. intros v.
  rewrite update_at_update_at, update_at_ensure.
  apply update_at_ext. intros u. apply update_at_ensure.
Qed.

(** Without a run_id only the enclosing dictionaries are created. *)
Lemma add_xcom_value_no_run xcom self :
  truthy_opt_str (XCom.run_id xcom) = false ->
  Store.xcom_runs (Store.add_xcom_value xcom self) (XCom.dag_id xcom)
    (XCom.task_id xcom) (XCom.key xcom)
  = Store.xcom_runs self (XCom.dag_id xcom) (XCom.task_id xcom) (XCom.key xcom).
Proof.
  intros Hr. unfold Store.xcom_runs, Store.add_xcom_value. cbv zeta.
  assert (forall x3 : gmap string (gmap string (gmap string (OrderedDict.t string XCom.t))),
    match XCom.run_id xcom with
    | Some run_id =>
        if truthy_str run_id then
          update_at (XCom.dag_id xcom) ∅
            (update_at (XCom.task_id xcom) ∅
               (update_at (XCom.key xcom) OrderedDict.empty
                  (OrderedDict.set run_id xcom))) x3
        else x3
    | None => x3
    end = x3) as ->.
  { intros x3. destruct (XCom.run_id xcom) as [r|]; [|done].
    simpl in Hr. by rewrite Hr. }
  simpl. by rewrite !at_key_update_at, !at_key_ensure.
Qed.

Lemma get_put_task_instance dag_id run_id task_id r self :
  Store.get_task_instance
    (Store.put_task_instance dag_id run_id task_id r self) dag_id run_id task_id
  = Some r.
Proof.
  rewrite put_task_instance_eq. unfold Store.get_task_instance. simpl.
  rewrite !at_key_update_at. apply lookup_insert_eq.
Qed.

Lemma get_put_task_instance_ne d r t d' r' t' x self :
  (d', r', t') ≠ (d, r, t) ->
  Store.get_task_instance (Store.put_task_instance d' r' t' x self) d r t
  = Store.get_task_instance self d r t.
Proof.
  intros Hne. rewrite put_task_instance_eq. unfold Store.get_task_instance.
  simpl. destruct (decide (d' = d)) as [->|Hd].
  - rewrite at_key_update_at. destruct (decide (r' = r)) as [->|Hr].
    + rewrite at_key_update_at. rewrite lookup_insert_ne; [done|congruence].
    + by rewrite at_key_update_at_ne.
  - by rewrite at_key_update_at_ne.
Qed.

Lemma put_put_task_instance dag_id run_id task_id r r' self :
  Store.put_task_instance dag_id run_id task_id r'
    (Store.put_task_instance dag_id run_id task_id r self)
  = Store.put_task_instance dag_id run_id task_id r' self.
Proof.
  rewrite !put_task_instance_eq. unfold set_task_instances. simpl.
  rewrite update_at_update_at. f_equal. apply update_at_ext. intros v.
  rewrite update_at_update_at. apply update_at_ext. intros u.
  apply insert_insert_eq.
Qed.

Lemma add_task_instance_run r ti w :
  task_instance_objs (mem w) !! r = Some ti ->
  Store.add_task_instance r w
  = (Done tt,
     mkWorld (mem w)
       (Store.put_task_instance (TaskInstance.dag_id ti) (TaskInstance.run_id ti)
          (TaskInstance.task_id ti) r (store w))).
Proof.
  intros Hr. unfold Store.add_task_instance, mbind, M_bind, load_task_instance.
  by rewrite Hr.
Qed.

Lemma add_pool_run r p w :
  pool_objs (mem w) !! r = Some p ->
  Store.add_pool r w
  = (Done tt,
     mkWorld (mem w) (set_pools (<[Pool.name p := r]> (pools (store w))) (store w))).
Proof.
  intros Hr. unfold Store.add_pool, mbind, M_bind, load_pool. by rewrite Hr.
Qed.

(** ** C1: upsert is create-or-replace *)

Lemma create_or_replace_flat {E : Type} (field : InstanceStore -> gmap string E)
    (set_field : gmap string E -> InstanceStore -> InstanceStore)
    (key : E -> string) :
  (forall v s, field (set_field v s) = v) ->
  (forall v v' s, set_field v' (set_field v s) = set_field v' s) ->
  create_or_replace (fun e s => set_field (<[key e := e]> (field s)) s)
    (fun s k => field s !! k) key.
Proof.
  intros Hget Hset self e. split.
  - rewrite Hget. apply lookup_insert_eq.
  - intros e' Hk. rewrite Hget, Hset, Hk. by rewrite insert_insert_eq.
Qed.

Lemma create_or_replace_dag_run :
  create_or_replace Store.add_dag_run
    (fun s k => Store.get_dag_run s k.1 k.2)
    (fun e => (DAGRun.dag_id e, DAGRun.run_id e)).
Proof.
  intros self e. split.
  - rewrite add_dag_run_eq. unfold Store.get_dag_run. simpl.
    rewrite at_key_update_at. apply lookup_insert_eq.
  - intros e' Hk. injection Hk as Hd Hr. rewrite !add_dag_run_eq.
    unfold set_dag_runs. simpl. rewrite Hd, Hr, update_at_update_at.
    f_equal. apply update_at_ext. intros v. apply insert_insert_eq.
Qed.

Lemma create_or_replace_task_instance :
  create_or_replace_ref task_instance_objs Store.add_task_instance
    (fun s k => Store.get_task_instance s k.1.1 k.1.2 k.2)
    (fun o => (TaskInstance.dag_id o, TaskInstance.run_id o,
               TaskInstance.task_id o)).
Proof.
  intros w r o Hr. eexists. split; [by apply add_task_instance_run|].
  split; [done|]. split; [apply get_put_task_instance|].
  intros r' o' Hr' Hk. injection Hk as Hd Hrun Ht.
  unfold mbind at 1. unfold M_bind. rewrite (add_task_instance_run r o w Hr).
  rewrite (add_task_instance_run r' o' w Hr').
  erewrite add_task_instance_run by exact Hr'. simpl.
  by rewrite Hd, Hrun, Ht, put_put_task_instance.
Qed.

Lemma create_or_replace_pool :
  create_or_replace_ref pool_objs Store.add_pool Store.get_pool Pool.name.
Proof.
  intros w r o Hr. eexists. split; [by apply add_pool_run|].
  split; [done|]. split; [apply lookup_insert_eq|].
  intros r' o' Hr' Hk. unfold mbind at 1. unfold M_bind.
  rewrite (add_pool_run r o w Hr), (add_pool_run r' o' w Hr').
  erewrite add_pool_run by exact Hr'. simpl. unfold set_pools. simpl.
  by rewrite Hk, insert_insert_eq.
Qed.

Lemma get_add_task_log dag_id run_id task_id try_number log self :
  Store.get_task_log
    (Store.add_task_log dag_id run_id task_id try_number log self)
    dag_id run_id task_id try_number
  = Some log.
Proof.
  rewrite add_task_log_eq. unfold Store.get_task_log. simpl.
  rewrite !at_key_update_at. apply lookup_insert_eq.
Qed.

Lemma add_add_task_log dag_id run_id task_id try_number log log' self :
  Store.add_task_log dag_id run_id task_id try_number log'
    (Store.add_task_log dag_id run_id task_id try_number log self)
  = Store.add_task_log dag_id run_id task_id try_number log' self.
Proof.
  rewrite !add_task_log_eq. unfold set_task_logs. simpl.
  rewrite update_at_update_at. f_equal. apply update_at_ext. intros v.
  rewrite update_at_update_at. apply update_at_ext. intros u.
  rewrite update_at_update_at. apply update_at_ext. intros x.
  apply insert_insert_eq.
Qed.

Lemma get_add_xcom_value xcom run_id self :
  XCom.run_id xcom = Some run_id -> truthy_str run_id = true ->
  Store.get_xcom_value (Store.add_xcom_value xcom self) (XCom.dag_id xcom)
    (XCom.task_id xcom) (XCom.key xcom) (Some run_id)
  = Some xcom.
Proof.
  intros Hr Ht. rewrite (add_xcom_value_eq _ _ _ Hr Ht).
  unfold Store.get_xcom_value, Store.xcom_runs. rewrite Ht. simpl.
  rewrite !at_key_update_at. apply ordered_get_set.
Qed.

Lemma add_add_xcom_value xcom xcom' run_id self :
  XCom.run_id xcom = Some run_id -> truthy_str run_id = true ->
  XCom.dag_id xcom' = XCom.dag_id xcom ->
  XCom.task_id xcom' = XCom.task_id xcom ->
  XCom.key xcom' = XCom.key xcom ->
  XCom.run_id xcom' = XCom.run_id xcom ->
  Store.add_xcom_value xcom' (Store.add_xcom_value xcom self)
  = Store.add_xcom_value xcom' self.
Proof.
  intros Hr Ht Hd Htask Hk Hrun. rewrite Hr in Hrun.
  rewrite !(add_xcom_value_eq xcom' run_id) by done.
  rewrite (add_xcom_value_eq xcom run_id) by done.
  unfold set_xcoms. simpl. rewrite Hd, Htask, Hk, update_at_update_at.
  f_equal. apply update_at_ext. intros v.
  rewrite update_at_update_at. apply update_at_ext. intros u.
  rewrite update_at_update_at. apply update_at_ext. intros x.
  apply ordered_set_set.
Qed.

(** C1 (as amended).  For DAGs, DAG runs, task instances, task logs,
    variables, connections, pools and providers, and for XCom entries
    whose run_id is a non-empty string, the store's add operation always
    succeeds; the lookup under the entity's natural key (for a task log,
    the key it was added under) then returns the entity, and a second add
    under the same key leaves the store exactly as if only the second add
    had happened.  For an XCom entry without a run_id (absent or empty)
    the add stores no entry: the entries under (dag_id, task_id, key) are
    what they were. *)
Theorem upsert_is_create_or_replace :
  create_or_replace Store.add_dag Store.get_dag DAG.dag_id /\
  create_or_replace Store.add_dag_run
    (fun s k => Store.get_dag_run s k.1 k.2)
    (fun e => (DAGRun.dag_id e, DAGRun.run_id e)) /\
  create_or_replace_ref task_instance_objs Store.add_task_instance
    (fun s k => Store.get_task_instance s k.1.1 k.1.2 k.2)
    (fun o => (TaskInstance.dag_id o, TaskInstance.run_id o,
               TaskInstance.task_id o)) /\
  (forall (self : InstanceStore) (dag_id run_id task_id : string)
          (try_number : Z) (log : TaskLog.t),
      Store.get_task_log
        (Store.add_task_log dag_id run_id task_id try_number log self)
        dag_id run_id task_id try_number = Some log /\
      forall log' : TaskLog.t,
        Store.add_task_log dag_id run_id task_id try_number log'
          (Store.add_task_log dag_id run_id task_id try_number log self)
        = Store.add_task_log dag_id run_id task_id try_number log' self) /\
  create_or_replace Store.add_variable Store.get_variable Variable_.key /\
  create_or_replace Store.add_connection Store.get_connection
    Connection.conn_id /\
  (forall (self : InstanceStore) (xcom : XCom.t) (run_id : string),
      XCom.run_id xcom = Some run_id -> truthy_str run_id = true ->
      Store.get_xcom_value (Store.add_xcom_value xcom self) (XCom.dag_id xcom)
        (XCom.task_id xcom) (XCom.key xcom) (XCom.run_id xcom) = Some xcom /\
      forall xcom' : XCom.t,
        XCom.dag_id xcom' = XCom.dag_id xcom ->
        XCom.task_id xcom' = XCom.task_id xcom ->
        XCom.key xcom' = XCom.key xcom ->
        XCom.run_id xcom' = XCom.run_id xcom ->
        Store.add_xcom_value xcom' (Store.add_xcom_value xcom self)
        = Store.add_xcom_value xcom' self) /\
  (forall (self : InstanceStore) (xcom : XCom.t),
      truthy_opt_str (XCom.run_id xcom) = false ->
      Store.xcom_runs (Store.add_xcom_value xcom self) (XCom.dag_id xcom)
        (XCom.task_id xcom) (XCom.key xcom)
      = Store.xcom_runs self (XCom.dag_id xcom) (XCom.task_id xcom)
          (XCom.key xcom)) /\
  create_or_replace_ref pool_objs Store.add_pool Store.get_pool Pool.name /\
  create_or_replace Store.add_provider Store.get_provider
    Provider.package_name.
Proof.
  split; [by apply (create_or_replace_flat dags set_dags)|].
  split; [apply create_or_replace_dag_run|].
  split; [apply create_or_replace_task_instance|].
  split.
  { intros. split; [apply get_add_task_log|]. intros. apply add_add_task_log. }
  split; [by apply (create_or_replace_flat variables set_variables)|].
  split; [by apply (create_or_replace_flat connections set_connections)|].
  split.
  { intros self xcom run_id Hr Ht. split.
    - rewrite Hr. by apply get_add_xcom_value.
    - intros. by apply (add_add_xcom_value xcom xcom' run_id). }
  split; [intros; by apply add_xcom_value_no_run|].
  split; [apply create_or_replace_pool|].
  by apply (create_or_replace_flat providers set_providers).
Qed.

Lemma upsert_is_create_or_replace_witness :
  Store.get_xcom_value (Store.add_xcom_value xcom_r1 (store empty_world))
    "d1" "t1" "k" (Some "r1") = Some xcom_r1.
Proof.
  destruct upsert_is_create_or_replace as (_ & _ & _ & _ & _ & _ & Hx & _).
  apply (Hx (store empty_world) xcom_r1 "r1"); reflexivity.
Defined.

(** C1 as stated fails: an XCom entry without run_id is not retrievable
    under its own key after it was added. *)
Lemma upsert_xcom_without_run_id_is_dropped :
  Store.get_xcom_value (Store.add_xcom_value xcom_no_run (store empty_world))
    (XCom.dag_id xcom_no_run) (XCom.task_id xcom_no_run) (XCom.key xcom_no_run)
    (XCom.run_id xcom_no_run)
  <> Some xcom_no_run.
Proof. vm_compute. discriminate. Qed.

(** ** C2: the most recent XCom entry *)

Lemma max_from_first_maximal {A} (f : A -> Z) (l : list A) :
  forall best : A,
    exists l1 l2 : list A,
      best :: l = l1 ++ max_from f best l :: l2 /\
      Forall (fun y => f y < f (max_from f best l)) l1 /\
      Forall (fun y => f y <= f (max_from f best l)) l2.
Proof.
  induction l as [|a l IH]; intros best; simpl.
  - exists [], []. split; [done|]. split; constructor.
  - destruct (Z.ltb_spec (f best) (f a)) as [Hlt|Hge].
    + destruct (IH a) as (l1 & l2 & Heq & H1 & H2).
      exists (best :: l1), l2. split; [simpl; congruence|]. split; [|done].
      constructor; [|done]. destruct l1 as [|c l1]; simpl in Heq.
      * injection Heq as Ha _. by rewrite <- Ha.
      * injection Heq as Ha _. subst c. apply Forall_cons in H1 as [H1 _]. lia.
    + destruct (IH best) as (l1 & l2 & Heq & H1 & H2).
      destruct l1 as [|c l1]; simpl in Heq.
      * injection Heq as Hb Hl. exists [], (a :: l2).
        split; [simpl; congruence|]. split; [constructor|].
        constructor; [|done]. rewrite <- Hb. lia.
      * injection Heq as Hc Hl. subst c. exists (best :: a :: l1), l2.
        split; [simpl; congruence|]. split; [|done].
        apply Forall_cons in H1 as [Hb H1].
        repeat constructor; [done|lia|done].
Qed.

(** C2 (as amended).  A lookup without run_id (or with an empty one)
    returns nothing when there is no entry under (dag_id, task_id, key);
    otherwise it returns an entry of maximal timestamp among them, and
    among the entries of maximal timestamp the one that comes first in the
    dictionary's insertion order: every entry before it is strictly older,
    every entry after it is no newer.  The run_id plays no part in the
    choice. *)
Theorem most_recent_xcom_is_first_maximal
    (self : InstanceStore) (dag_id task_id key : string) :
  Store.get_xcom_value self dag_id task_id key (Some "")
  = Store.get_xcom_value self dag_id task_id key None /\
  match Store.get_xcom_value self dag_id task_id key None with
  | None => OrderedDict.values (Store.xcom_runs self dag_id task_id key) = []
  | Some x =>
      exists before after : list XCom.t,
        OrderedDict.values (Store.xcom_runs self dag_id task_id key)
        = before ++ x :: after /\
        Forall (fun y => XCom.timestamp y < XCom.timestamp x) before /\
        Forall (fun y => XCom.timestamp y <= XCom.timestamp x) after
  end.
Proof.
  split; [done|]. unfold Store.get_xcom_value.
  destruct (OrderedDict.values (Store.xcom_runs self dag_id task_id key))
    as [|x l]; [done|].
  simpl. apply max_from_first_maximal.
Qed.

(** C2 as stated fails on ties: the same two entries with the same
    timestamp, stored in the two possible orders, give two different
    answers; in each store the entry that was stored first is returned,
    whatever its run_id. *)
Lemma xcom_tie_follows_insertion_order :
  OrderedDict.values (Store.xcom_runs store_a_then_b "d1" "t1" "k")
    ≡ₚ OrderedDict.values (Store.xcom_runs store_b_then_a "d1" "t1" "k") /\
  XCom.timestamp xcom_a = XCom.timestamp xcom_b /\
  Store.get_xcom_value store_a_then_b "d1" "t1" "k" None = Some xcom_a /\
  Store.get_xcom_value store_b_then_a "d1" "t1" "k" None = Some xcom_b /\
  xcom_a <> xcom_b.
Proof.
  split.
  { assert (OrderedDict.values (Store.xcom_runs store_a_then_b "d1" "t1" "k")
            = [xcom_a; xcom_b]) as -> by (vm_compute; reflexivity).
    assert (OrderedDict.values (Store.xcom_runs store_b_then_a "d1" "t1" "k")
            = [xcom_b; xcom_a]) as -> by (vm_compute; reflexivity).
    apply perm_swap. }
  split; [reflexivity|].
  split; [vm_compute; reflexivity|].
  split; [vm_compute; reflexivity|].
  discriminate.
Qed.

(** ** C3, C4: pool slots *)

Lemma get_store_raises {A} (instance_id : string) (rest : InstanceStore -> M A)
    (w : World) :
  (self ← Api.get_store instance_id; rest self) w
  = (Raised (NameError "get_store"), w).
Proof. reflexivity. Qed.

Lemma store_update_pool_slots_run w name r p occupied queued running :
  Store.get_pool (store w) name = Some r ->
  pool_objs (mem w) !! r = Some p ->
  Store.update_pool_slots name occupied queued running w
  = (Done (Some r),
     mkWorld
       (mkMem (task_instance_objs (mem w))
          (<[r := slots_assigned occupied queued running p]> (pool_objs (mem w))))
       (store w)).
Proof.
  intros Hget Hobj.
  unfold Store.update_pool_slots, mbind, M_bind, read_store, load_pool,
    store_pool, mret, M_ret.
  simpl. by rewrite Hget, Hobj.
Qed.

Lemma store_update_pool_slots_skips w name occupied queued running :
  (Store.get_pool (store w) name = None \/
   exists r, Store.get_pool (store w) name = Some r /\
             pool_objs (mem w) !! r = None) ->
  (Store.update_pool_slots name occupied queued running w).2 = w.
Proof.
  unfold Store.update_pool_slots, mbind, M_bind, read_store, load_pool.
  intros [Hnone|(r & Hget & Hobj)]; simpl.
  - by rewrite Hnone.
  - by rewrite Hget, Hobj.
Qed.

Lemma store_new_pool_run pool w :
  (pool_ref ← new_pool pool; Store.add_pool pool_ref) w
  = (Done tt,
     mkWorld
       (mkMem (task_instance_objs (mem w)) (pool_objs (mem w) ++ [pool]))
       (set_pools (<[Pool.name pool := length (pool_objs (mem w))]> (pools (store w)))
          (store w))).
Proof.
  unfold mbind, M_bind, new_pool, Store.add_pool, load_pool, modify_store,
    mbind, M_bind. simpl.
  by rewrite list_lookup_middle.
Qed.

Lemma pool_init_derived d : pool_derived (Pool.init d).
Proof. reflexivity. Qed.

Lemma slots_assigned_derived occupied queued running p :
  pool_derived (slots_assigned occupied queued running p).
Proof. reflexivity. Qed.

Lemma store_update_pool_slots_derived name occupied queued running :
  keeps_pools_derived (Store.update_pool_slots name occupied queued running).
Proof.
  intros w Hall.
  destruct (Store.get_pool (store w) name) as [r|] eqn:Hget.
  - destruct (pool_objs (mem w) !! r) as [p|] eqn:Hobj.
    + rewrite (store_update_pool_slots_run _ _ _ _ _ _ _ Hget Hobj). simpl.
      apply Forall_insert; [done|apply slots_assigned_derived].
    + rewrite store_update_pool_slots_skips; [done|]. right. eauto.
  - rewrite store_update_pool_slots_skips; [done|]. by left.
Qed.

(** C3.  The slot-update request never reaches the pool: its first
    statement calls [get_store], a name the program does not define, and
    raises NameError, whatever the pool and whatever counts are supplied.
    For pool "p1" with 10 slots and 3 occupied, the request giving only
    queued=2 leaves queued at 0.  The store method called with queued=2
    alone sets queued to 2 and resets occupied to 0 and open_slots to
    10. *)
Theorem slot_update_request_raises_name_error :
  (forall (w : World) (pool_name : string)
          (occupied_slots queued_slots running_slots : option Z)
          (instance_id : string),
      Api.update_pool_slots pool_name occupied_slots queued_slots running_slots
        instance_id w
      = (Raised (NameError "get_store"), w)) /\
  pool_objs (mem world_p1) = [Pool.mk "p1" 10 None 3 0 0 (Some 7)] /\
  Api.update_pool_slots "p1" None (Some 2) None "default" world_p1
  = (Raised (NameError "get_store"), world_p1) /\
  pool_objs (mem (Store.update_pool_slots "p1" None (Some 2) None world_p1).2)
  = [Pool.mk "p1" 10 None 0 2 0 (Some 10)].
Proof.
  split; [|split; [|split]]; [|reflexivity..].
  intros. apply get_store_raises.
Qed.

(** C4.  A pool is always built with open_slots = slots - occupied_slots,
    whatever open_slots the data carried.  The slot update of the store
    writes the three counts it is given (0 for a count left out) into the
    pool found under the name, derives open_slots from the capacity and
    the new occupied count, and touches no other pool.  So building a
    pool and storing it, and every slot update, keep the equation on
    every pool object. *)
Theorem open_slots_is_always_derived :
  (forall d : Pool.data,
      pool_derived (Pool.init d) /\
      Pool.open_slots (Pool.init d)
      = Some (Pool.d_slots d - default 0 (Pool.d_occupied_slots d))) /\
  (forall (w : World) (name : string) (occupied queued running : option Z)
          (r : ref) (p : Pool.t),
      Store.get_pool (store w) name = Some r ->
      pool_objs (mem w) !! r = Some p ->
      exists (p' : Pool.t) (w' : World),
        Store.update_pool_slots name occupied queued running w
        = (Done (Some r), w') /\
        store w' = store w /\
        pool_objs (mem w') !! r = Some p' /\
        pool_derived p' /\
        Pool.slots p' = Pool.slots p /\
        Pool.occupied_slots p' = default 0 occupied /\
        Pool.queued_slots p' = default 0 queued /\
        Pool.running_slots p' = default 0 running /\
        Pool.open_slots p' = Some (Pool.slots p - default 0 occupied) /\
        forall r' : ref,
          r' <> r -> pool_objs (mem w') !! r' = pool_objs (mem w) !! r') /\
  (forall d : Pool.data,
      keeps_pools_derived (pool ← new_pool (Pool.init d); Store.add_pool pool)) /\
  (forall (name : string) (occupied queued running : option Z),
      keeps_pools_derived (Store.update_pool_slots name occupied queued running)).
Proof.
  split; [|split; [|split]].
  - intros d. split; reflexivity.
  - intros w name occupied queued running r p Hget Hobj.
    eexists _, _. split; [by apply store_update_pool_slots_run|]. simpl.
    split; [done|]. split.
    { apply list_lookup_insert_eq. by eapply lookup_lt_Some. }
    do 6 (split; [reflexivity|]).
    intros r' Hne. by apply list_lookup_insert_ne.
  - intros d w Hall. rewrite store_new_pool_run. simpl.
    apply Forall_app. split; [done|]. repeat constructor.
  - apply store_update_pool_slots_derived.
Qed.

(** Data that supply open_slots = 99 for 10 slots, 4 of them occupied:
    the pool built has open_slots = 6; after it is stored and occupied is
    set to 9 the pool has open_slots = 1; after an update that leaves
    occupied out it has occupied = 0 and open_slots = 10. *)
Lemma open_slots_is_always_derived_witness :
  let d := Pool.mk_data "p2" 10 None (Some 4) None None (Some 99) in
  let created := (pool ← new_pool (Pool.init d); Store.add_pool pool) empty_world in
  let updated := Store.update_pool_slots "p2" (Some 9) None None created.2 in
  let again := Store.update_pool_slots "p2" None (Some 2) None updated.2 in
  Pool.open_slots (Pool.init d) = Some 6 /\
  Forall pool_derived (pool_objs (mem created.2)) /\
  (exists p, pool_objs (mem updated.2) !! 0%nat = Some p /\
             pool_derived p /\ Pool.open_slots p = Some 1) /\
  (exists p, pool_objs (mem again.2) !! 0%nat = Some p /\
             Pool.occupied_slots p = 0 /\ Pool.open_slots p = Some 10).
Proof.
  destruct open_slots_is_always_derived as (Hinit & Hslots & Hcreate & _).
  intros d created updated again.
  split; [apply (Hinit d)|].
  split; [apply (Hcreate d empty_world); constructor|].
  split.
  - destruct (Hslots created.2 "p2" (Some 9) None None 0%nat (Pool.init d)
                eq_refl eq_refl)
      as (p' & w' & Hrun & _ & Hobj & Hder & _ & _ & _ & _ & Hopen & _).
    exists p'. assert (updated.2 = w') as -> by (unfold updated; by rewrite Hrun).
    done.
  - destruct (Hslots updated.2 "p2" None (Some 2) None 0%nat
                (Pool.mk "p2" 10 None 9 0 0 (Some 1)) eq_refl eq_refl)
      as (p' & w' & Hrun & _ & Hobj & _ & _ & Hocc & _ & _ & Hopen & _).
    exists p'. assert (again.2 = w') as -> by (unfold again; by rewrite Hrun).
    done.
Defined.

(** ** The quotient of two integers as a float *)

Lemma round_half_even_spec n d :
  0 < d ->
  2 * Z.abs (round_half_even n d * d - n) <= d /\
  (2 * Z.abs (round_half_even n d * d - n) = d ->
   Z.even (round_half_even n d) = true).
Proof.
  intros Hd. unfold round_half_even.
  pose proof (Z.div_mod n d ltac:(lia)) as Hdm.
  pose proof (Z.mod_pos_bound n d Hd) as Hr.
  set (q := n / d) in *. set (r := n mod d) in *.
  destruct (Z.compare_spec (2 * r) d) as [Heq|Hlt|Hgt].
  - destruct (Z.even q) eqn:Hev.
    + split; [lia|]. intros _. exact Hev.
    + split; [lia|]. intros _.
      rewrite Z.even_add, Hev. reflexivity.
  - split; [lia|]. intros Htie. lia.
  - split; [lia|]. intros Htie. lia.
Qed.

Lemma round_half_even_bounds n d lo hi :
  0 < d -> lo * d <= n < hi * d ->
  lo <= round_half_even n d <= hi.
Proof.
  intros Hd [Hlo Hhi]. unfold round_half_even.
  assert (lo <= n / d) by (apply Z.div_le_lower_bound; lia).
  assert (n / d < hi) by (apply Z.div_lt_upper_bound; lia).
  destruct (2 * (n mod d) ?= d); [destruct (Z.even (n / d))|..]; lia.
Qed.

Lemma scaled_common n d x S :
  0 <= S -> - x <= S ->
  scaled_numerator n x * 2 ^ (S - Z.max 0 (- x)) = n * 2 ^ S /\
  scaled_denominator d x * 2 ^ (S - Z.max 0 (- x)) = d * 2 ^ (x + S) /\
  0 < 2 ^ (S - Z.max 0 (- x)).
Proof.
  intros HS Hx. unfold scaled_numerator, scaled_denominator.
  rewrite <- !Z.mul_assoc, <- !Z.pow_add_r by lia.
  split; [f_equal; f_equal; lia|].
  split; [f_equal; f_equal; lia|].
  apply Z.pow_pos_nonneg; lia.
Qed.

Lemma quotient_has_53_bits n d :
  0 < n -> 0 < d ->
  let k := Z.log2 n - Z.log2 d in
  let e :=
    if scaled_denominator d k <=? scaled_numerator n k then k - 52
    else k - 53 in
  0 < scaled_denominator d e /\
  2 ^ 52 * scaled_denominator d e <= scaled_numerator n e
  < 2 ^ 53 * scaled_denominator d e.
Proof.
  intros Hn Hd k e.
  pose proof (Z.log2_spec n Hn) as Hln. pose proof (Z.log2_spec d Hd) as Hld.
  pose proof (Z.log2_nonneg n) as Hln0. pose proof (Z.log2_nonneg d) as Hld0.
  set (ln := Z.log2 n) in *. set (ld := Z.log2 d) in *.
  set (S := ln + ld + 60).
  assert (0 < scaled_denominator d e) as Hpos.
  { unfold scaled_denominator. apply Z.mul_pos_pos; [lia|].
    apply Z.pow_pos_nonneg; lia. }
  split; [exact Hpos|].
  destruct (scaled_common n d k S) as (HNk & HDk & Htk); [lia|unfold k; lia|].
  assert (- e <= S) as HeS by (unfold e, k, S; destruct (_ <=? _); lia).
  destruct (scaled_common n d e S) as (HNe & HDe & Hte); [lia|lia|].
  set (tk := 2 ^ (S - Z.max 0 (- k))) in *.
  set (te := 2 ^ (S - Z.max 0 (- e))) in *.
  set (Nk := scaled_numerator n k) in *. set (Dk := scaled_denominator d k) in *.
  set (Ne := scaled_numerator n e) in *. set (De := scaled_denominator d e) in *.
  assert (2 ^ (k + S) * 2 ^ ld = 2 ^ ln * 2 ^ S) as Hrel.
  { rewrite <- !Z.pow_add_r by (unfold k, S; lia). f_equal. unfold k. lia. }
  replace (Z.succ ln) with (ln + 1) in Hln by lia.
  replace (Z.succ ld) with (ld + 1) in Hld by lia.
  rewrite Z.pow_add_r in Hln, Hld by lia. change (2 ^ 1) with 2 in *.
  assert (0 < 2 ^ S) as HP by (apply Z.pow_pos_nonneg; unfold S; lia).
  assert (0 < 2 ^ (k + S)) as HX by (apply Z.pow_pos_nonneg; unfold k, S; lia).
  set (P := 2 ^ S) in *. set (X := 2 ^ (k + S)) in *.
  set (A := 2 ^ ln) in *. set (B := 2 ^ ld) in *.
  subst e. destruct (Z.leb_spec Dk Nk) as [Htest|Htest].
  - assert (d * X <= n * P) as H1 by nia.
    assert (2 ^ 52 * 2 ^ (k - 52 + S) = X) as Hsh.
    { unfold X. rewrite <- Z.pow_add_r by (unfold k, S; lia). f_equal. lia. }
    set (Y := 2 ^ (k - 52 + S)) in *.
    assert (n * P < 2 * (d * X)) as H2 by nia.
    split.
    + apply (Zmult_le_reg_r _ _ te); [lia|].
      rewrite <- Z.mul_assoc, HDe, HNe. nia.
    + apply (Zmult_lt_reg_r _ _ te); [lia|].
      rewrite <- Z.mul_assoc, HDe, HNe. change (2 ^ 53) with (2 * 2 ^ 52). nia.
  - assert (n * P < d * X) as H1 by nia.
    assert (2 ^ 53 * 2 ^ (k - 53 + S) = X) as Hsh.
    { unfold X. rewrite <- Z.pow_add_r by (unfold k, S; lia). f_equal. lia. }
    set (Y := 2 ^ (k - 53 + S)) in *.
    assert (d * X <= 2 * (n * P)) as H2 by nia.
    split.
    + apply (Zmult_le_reg_r _ _ te); [lia|].
      rewrite <- Z.mul_assoc, HDe, HNe. change (2 ^ 53) with (2 * 2 ^ 52) in Hsh. nia.
    + apply (Zmult_lt_reg_r _ _ te); [lia|].
      rewrite <- Z.mul_assoc, HDe, HNe. nia.
Qed.

Lemma true_divide_pos_spec n d :
  0 < n -> 0 < d ->
  forall m e, true_divide_pos n d = (m, e) ->
  2 ^ 52 <= m < 2 ^ 53 /\
  2 * Z.abs (m * scaled_denominator d e - scaled_numerator n e)
  <= scaled_denominator d e /\
  (2 * Z.abs (m * scaled_denominator d e - scaled_numerator n e)
   = scaled_denominator d e -> Z.even m = true) /\
  (m = 2 ^ 52 ->
   4 * (m * scaled_denominator d e - scaled_numerator n e)
   <= scaled_denominator d e).
Proof.
  intros Hn Hd m e. unfold true_divide_pos.
  pose proof (quotient_has_53_bits n d Hn Hd) as Hbits. cbv zeta in Hbits.
  set (e0 := if _ <=? _ then _ else _) in *.
  destruct Hbits as (HD & Hlo & Hhi).
  pose proof (round_half_even_spec (scaled_numerator n e0)
                (scaled_denominator d e0) HD) as [Herr Htie].
  pose proof (round_half_even_bounds (scaled_numerator n e0)
                (scaled_denominator d e0) (2 ^ 52) (2 ^ 53) HD
                (conj Hlo Hhi)) as Hm.
  set (m0 := round_half_even _ _) in *.
  set (N := scaled_numerator n e0) in *. set (D := scaled_denominator d e0) in *.
  destruct (Z.eqb_spec m0 (2 ^ 53)) as [Hcarry|Hno]; intros [= <- <-].
  - destruct (scaled_common n d e0 (Z.abs e0 + 1)) as (HN & HDe & Ht); [lia..|].
    destruct (scaled_common n d (e0 + 1) (Z.abs e0 + 1)) as (HN' & HD' & Ht');
      [lia..|].
    fold N in HN. fold D in HDe.
    set (t := 2 ^ _) in HN, HDe, Ht. set (t' := 2 ^ _) in HN', HD', Ht'.
    set (N' := scaled_numerator n (e0 + 1)) in *.
    set (D' := scaled_denominator d (e0 + 1)) in *.
    assert (D' * t' = 2 * (D * t)) as HDD.
    { rewrite HD', HDe. replace (e0 + 1 + (Z.abs e0 + 1))
        with (1 + (e0 + (Z.abs e0 + 1))) by lia.
      rewrite Z.pow_add_r by lia. change (2 ^ 1) with 2. ring. }
    assert (N' * t' = N * t) as HNN by congruence.
    rewrite Hcarry in Herr. change (2 ^ 53) with (2 * 2 ^ 52) in Herr.
    assert (0 < D') as HDpos.
    { unfold D', scaled_denominator. apply Z.mul_pos_pos; [lia|].
      apply Z.pow_pos_nonneg; lia. }
    split; [lia|].
    assert (4 * (2 ^ 52 * D' - N') <= D' /\ 0 <= 2 ^ 52 * D' - N') as [Hq Hnn].
    { split.
      - apply (Zmult_le_reg_r _ _ t'); [lia|]. nia.
      - apply (Zmult_le_reg_r _ _ t'); [lia|]. nia. }
    split; [lia|]. split; [intros _; reflexivity|]. intros _. exact Hq.
  - split; [lia|]. split; [exact Herr|]. split; [exact Htie|].
    intros ->. lia.
Qed.

Lemma true_divide_nearest n d : 0 < d -> nearest_float n d (true_divide n d).
Proof.
  intros Hd. unfold true_divide. destruct n as [|n|n].
  - exists 0, 0. do 4 (split; [done|]). cbv zeta.
    change (Z.max 0 (- 0)) with 0. change (Z.max 0 0) with 0.
    change (2 ^ 0) with 1. change (Z.abs 0) with 0.
    rewrite !Z.mul_0_l, Z.mul_1_r. change (Z.abs (0 - 0)) with 0.
    split; [lia|]. split; lia.
  - destruct (true_divide_pos (Z.pos n) d) as [m e] eqn:Hdiv.
    destruct (true_divide_pos_spec (Z.pos n) d (Pos2Z.is_pos n) Hd m e Hdiv)
      as (Hm & Herr & Htie & Hq).
    unfold scaled_numerator, scaled_denominator in *.
    exists m, e. split; [done|].
    split; [rewrite Z.sgn_pos by lia; done|]. split; [done|].
    rewrite (Z.abs_eq m) by lia. split; [done|]. cbv zeta.
    rewrite (Z.abs_eq (Z.pos n)) by lia. done.
  - change (- Z.neg n) with (Z.pos n).
    destruct (true_divide_pos (Z.pos n) d) as [m e] eqn:Hdiv.
    destruct (true_divide_pos_spec (Z.pos n) d (Pos2Z.is_pos n) Hd m e Hdiv)
      as (Hm & Herr & Htie & Hq).
    unfold scaled_numerator, scaled_denominator in *.
    exists (- m), e. split; [done|].
    split; [rewrite Z.sgn_neg by lia; done|]. split; [done|].
    rewrite Z.abs_opp, (Z.abs_eq m) by lia. split; [done|]. cbv zeta.
    change (Z.abs (Z.neg n)) with (Z.pos n). rewrite Z.even_opp. done.
Qed.

Lemma total_seconds_nearest microseconds :
  nearest_float microseconds (10 ^ 6) (total_seconds microseconds).
Proof. by apply true_divide_nearest. Qed.

(** One and a half seconds, a tenth of a second and a microsecond are the
    floats 1.5, 0.1 and 1e-06; a difference of 10^17 + 1 microseconds is
    not representable and gives the same float as 10^17. *)
Lemma total_seconds_values :
  total_seconds 1500000 = Finite 6755399441055744 (-52) /\
  total_seconds 100000 = Finite 7205759403792794 (-56) /\
  total_seconds 1 = Finite 4722366482869645 (-72) /\
  total_seconds (- 1500000) = Finite (-6755399441055744) (-52) /\
  total_seconds 100000000000000001 = total_seconds 100000000000000000.
Proof. repeat split; vm_compute; reflexivity. Qed.

(** ** C5, C6: task instance state *)

Lemma get_put_task_instance_same d r t d' r' t' x self :
  Store.get_task_instance self d r t = Some x ->
  Store.get_task_instance (Store.put_task_instance d' r' t' x self) d r t
  = Some x.
Proof.
  intros Hget. destruct (decide ((d', r', t') = (d, r, t))) as [[= -> -> ->]|Hne].
  - apply get_put_task_instance.
  - by rewrite get_put_task_instance_ne.
Qed.

Lemma assign_state_keys now_start now_end state ti :
  TaskInstance.same_identity (Api.assign_state now_start now_end state ti) ti /\
  TaskInstance.try_number (Api.assign_state now_start now_end state ti)
  = TaskInstance.try_number ti.
Proof.
  unfold Api.assign_state. cbv zeta.
  destruct (bool_decide (state = "running")); [by repeat split|].
  destruct (bool_decide (state ∈ ["success"; "failed"; "skipped"]));
    [|by repeat split].
  destruct ti as [? ? ? ? ? ? start_date ? ? ? ? ? ? ? ? ? ? ? ?].
  by destruct start_date; repeat split.
Qed.

Lemma set_task_instance_state_run now_start now_end d r t state w x ti :
  Store.get_task_instance (store w) d r t = Some x ->
  task_instance_objs (mem w) !! x = Some ti ->
  Api.set_task_instance_state now_start now_end d r t state w
  = (Done (TaskInstanceActionResponse.mk t d r state
             ("Task instance state set to " +:+ state)),
     mkWorld
       (mkMem
          (<[x := Api.assign_state now_start now_end state ti]>
             (task_instance_objs (mem w)))
          (pool_objs (mem w)))
       (Store.put_task_instance (TaskInstance.dag_id ti)
          (TaskInstance.run_id ti) (TaskInstance.task_id ti) x (store w))).
Proof.
  intros Hget Hobj.
  assert (x < length (task_instance_objs (mem w)))%nat as Hlt
    by by eapply lookup_lt_Some.
  destruct (assign_state_keys now_start now_end state ti)
    as ((Ht & Hd & Hr & _) & _).
  unfold Api.set_task_instance_state. unfold mbind at 1. unfold M_bind, read_store.
  rewrite Hget. unfold mbind at 1. unfold M_bind, load_task_instance.
  rewrite Hobj. unfold mbind at 1. unfold M_bind, store_task_instance.
  unfold mbind at 1. unfold M_bind.
  erewrite add_task_instance_run by (by apply list_lookup_insert_eq).
  simpl. by rewrite Hd, Hr, Ht.
Qed.

(** C5.  For a task instance the store holds, setting the state succeeds
    and the instance then has that state.  With state "running" its
    start_date is the current instant and its end_date is None.  With
    state "success", "failed" or "skipped" its start_date is the one it
    had, or the current instant if it had none, its end_date is the
    current instant, and its duration is end_date - start_date in
    seconds: the float nearest to the microseconds between the two
    divided by 10^6.  None of the three is None. *)
Theorem state_change_sets_dates
    (w : World) (dag_id run_id task_id state : string) (x : ref)
    (ti : TaskInstance.t) (now_start now_end : datetime) :
  Store.get_task_instance (store w) dag_id run_id task_id = Some x ->
  task_instance_objs (mem w) !! x = Some ti ->
  exists (resp : TaskInstanceActionResponse.t) (w' : World)
         (ti' : TaskInstance.t),
    Api.set_task_instance_state now_start now_end dag_id run_id task_id state w
    = (Done resp, w') /\
    Store.get_task_instance (store w') dag_id run_id task_id = Some x /\
    task_instance_objs (mem w') !! x = Some ti' /\
    TaskInstance.state ti' = state /\
    (state = "running" ->
     TaskInstance.start_date ti' = Some now_start /\
     TaskInstance.end_date ti' = None) /\
    (state ∈ ["success"; "failed"; "skipped"] ->
     let start_date := default now_start (TaskInstance.start_date ti) in
     TaskInstance.start_date ti' = Some start_date /\
     TaskInstance.end_date ti' = Some now_end /\
     exists seconds : float,
       TaskInstance.duration ti' = Some seconds /\
       nearest_float (now_end - start_date) 1000000 seconds).
Proof.
  intros Hget Hobj. eexists _, _, _.
  split; [by apply set_task_instance_state_run|]. simpl.
  split; [by apply get_put_task_instance_same|].
  split; [apply list_lookup_insert_eq; by eapply lookup_lt_Some|].
  split; [|split].
  - unfold Api.assign_state. cbv zeta.
    destruct (bool_decide (state = "running")); [done|].
    destruct (bool_decide (state ∈ ["success"; "failed"; "skipped"])); [|done].
    destruct ti as [? ? ? ? ? ? start_date ? ? ? ? ? ? ? ? ? ? ? ?].
    by destruct start_date.
  - by intros ->.
  - intros Hin. apply list_elem_of_In in Hin. simpl in Hin.
    destruct ti as [? ? ? ? ? ? start_date ? ? ? ? ? ? ? ? ? ? ? ?].
    destruct Hin as [<-|[<-|[<-|[]]]]; destruct start_date;
      (split; [done|]; split; [done|]; eexists; split; [done|];
       apply total_seconds_nearest).
Qed.

(** The second step of the scenario: the instance running since instant
    100 is set to "success" one and a half seconds later. *)
Lemma state_change_sets_dates_witness :
  exists (resp : TaskInstanceActionResponse.t) (w' : World)
         (ti' : TaskInstance.t),
    Api.set_task_instance_state 1500100 1500100 "d1" "r1" "t1" "success"
      world_t1
    = (Done resp, w') /\
    task_instance_objs (mem w') !! 0%nat = Some ti' /\
    TaskInstance.start_date ti' = Some 100 /\
    TaskInstance.end_date ti' = Some 1500100 /\
    exists seconds : float,
      TaskInstance.duration ti' = Some seconds /\
      nearest_float 1500000 1000000 seconds.
Proof.
  destruct (state_change_sets_dates world_t1 "d1" "r1" "t1" "success" 0%nat
              ti_running 1500100 1500100)
    as (resp & w' & ti' & Hrun & _ & Hobj & _ & _ & Hterminal).
  - vm_compute. reflexivity.
  - reflexivity.
  - exists resp, w', ti'. split; [exact Hrun|]. split; [exact Hobj|].
    apply Hterminal. apply list_elem_of_In. simpl. by left.
Defined.

(** The whole scenario: "running" at instant 100, then "success" one and
    a half seconds later; the duration is the float 1.5. *)
Lemma task_instance_state_scenario :
  let step1 :=
    Api.set_task_instance_state 100 100 "d1" "r1" "t1" "running" world_t0 in
  let step2 :=
    Api.set_task_instance_state 1500100 1500100 "d1" "r1" "t1" "success"
      step1.2 in
  (TaskInstance.start_date <$> task_instance_objs (mem step1.2) !! 0%nat)
  = Some (Some 100) /\
  (TaskInstance.end_date <$> task_instance_objs (mem step1.2) !! 0%nat)
  = Some None /\
  (TaskInstance.end_date <$> task_instance_objs (mem step2.2) !! 0%nat)
  = Some (Some 1500100) /\
  (TaskInstance.duration <$> task_instance_objs (mem step2.2) !! 0%nat)
  = Some (Some (Finite 6755399441055744 (-52))).
Proof. repeat split; vm_compute; reflexivity. Qed.

Lemma clear_allowed_should_clear clear_request ti :
  clear_allowed clear_request ti <->
  Api.should_clear clear_request ti
  && negb (ClearTaskInstance.dry_run clear_request) = true.
Proof.
  unfold clear_allowed, Api.should_clear. cbv zeta.
  destruct (ClearTaskInstance.dry_run clear_request),
    (ClearTaskInstance.only_failed clear_request),
    (ClearTaskInstance.only_running clear_request); simpl;
    repeat case_bool_decide; simpl; intuition congruence.
Qed.

Lemma store_clear_task_instance_run x ti w :
  task_instance_objs (mem w) !! x = Some ti ->
  Store.clear_task_instance x w
  = (Done tt,
     mkWorld
       (mkMem (<[x := Store.reset ti]> (task_instance_objs (mem w)))
          (pool_objs (mem w)))
       (Store.put_task_instance (TaskInstance.dag_id ti)
          (TaskInstance.run_id ti) (TaskInstance.task_id ti) x (store w))).
Proof.
  intros Hobj.
  assert (x < length (task_instance_objs (mem w)))%nat as Hlt
    by by eapply lookup_lt_Some.
  unfold Store.clear_task_instance. unfold mbind at 1.
  unfold M_bind, load_task_instance. rewrite Hobj.
  unfold mbind at 1. unfold M_bind, store_task_instance.
  by erewrite add_task_instance_run by (by apply list_lookup_insert_eq).
Qed.

Lemma clear_task_instance_run d r t clear_request w x ti :
  Store.get_task_instance (store w) d r t = Some x ->
  task_instance_objs (mem w) !! x = Some ti ->
  Api.clear_task_instance d r t clear_request w
  = if Api.should_clear clear_request ti
       && negb (ClearTaskInstance.dry_run clear_request)
    then
      (Done (TaskInstanceActionResponse.mk t d r "none" "Task instance cleared"),
       mkWorld
         (mkMem (<[x := Store.reset ti]> (task_instance_objs (mem w)))
            (pool_objs (mem w)))
         (Store.put_task_instance (TaskInstance.dag_id ti)
            (TaskInstance.run_id ti) (TaskInstance.task_id ti) x (store w)))
    else
      (Done (TaskInstanceActionResponse.mk t d r (TaskInstance.state ti)
               "Task instance not cleared (dry run or filter conditions not met)"),
       w).
Proof.
  intros Hget Hobj.
  assert (x < length (task_instance_objs (mem w)))%nat as Hlt
    by by eapply lookup_lt_Some.
  unfold Api.clear_task_instance. unfold mbind at 1. unfold M_bind, read_store.
  rewrite Hget. unfold mbind at 1. unfold M_bind. unfold load_task_instance at 1.
  rewrite Hobj.
  destruct (Api.should_clear clear_request ti
            && negb (ClearTaskInstance.dry_run clear_request)).
  - unfold mbind, M_bind.
    rewrite (store_clear_task_instance_run x ti w Hobj).
    unfold load_task_instance, mret, M_ret. simpl.
    by rewrite list_lookup_insert_eq.
  - unfold mbind, M_bind, load_task_instance, mret, M_ret. by rewrite Hobj.
Qed.

(** C6.  For a task instance the store holds, a clear request never
    fails.  It is carried out exactly when it is not a dry run and the
    instance passes the requested filters (only_failed: state "failed";
    only_running: state "running").  Otherwise nothing at all changes and
    the answer reports the instance as not cleared.  When it is carried
    out the instance ends with state "none", try_number 1 and start_date,
    end_date and duration None, whatever they were; its other fields
    keep their values. *)
Theorem clear_resets_or_does_nothing
    (w : World) (dag_id run_id task_id : string)
    (clear_request : ClearTaskInstance.t) (x : ref) (ti : TaskInstance.t) :
  Store.get_task_instance (store w) dag_id run_id task_id = Some x ->
  task_instance_objs (mem w) !! x = Some ti ->
  (~ clear_allowed clear_request ti ->
   Api.clear_task_instance dag_id run_id task_id clear_request w
   = (Done (TaskInstanceActionResponse.mk task_id dag_id run_id
              (TaskInstance.state ti)
              "Task instance not cleared (dry run or filter conditions not met)"),
      w)) /\
  (clear_allowed clear_request ti ->
   exists (w' : World) (ti' : TaskInstance.t),
     Api.clear_task_instance dag_id run_id task_id clear_request w
     = (Done (TaskInstanceActionResponse.mk task_id dag_id run_id "none"
                "Task instance cleared"),
        w') /\
     Store.get_task_instance (store w') dag_id run_id task_id = Some x /\
     task_instance_objs (mem w') !! x = Some ti' /\
     TaskInstance.state ti' = "none" /\
     TaskInstance.try_number ti' = 1 /\
     TaskInstance.start_date ti' = None /\
     TaskInstance.end_date ti' = None /\
     TaskInstance.duration ti' = None /\
     TaskInstance.same_identity ti' ti).
Proof.
  intros Hget Hobj.
  rewrite (clear_task_instance_run _ _ _ clear_request _ _ _ Hget Hobj).
  rewrite clear_allowed_should_clear.
  destruct (Api.should_clear clear_request ti
            && negb (ClearTaskInstance.dry_run clear_request)).
  - split; [done|]. intros _. eexists _, _. split; [done|]. simpl.
    split; [by apply get_put_task_instance_same|].
    split; [apply list_lookup_insert_eq; by eapply lookup_lt_Some|].
    by repeat split.
  - split; [done|]. by intros [=].
Qed.

(** A running instance: a plain clear resets it; a clear restricted to
    failed instances leaves the world as it is. *)
Lemma clear_resets_or_does_nothing_witness :
  (exists w',
     Api.clear_task_instance "d1" "r1" "t1" clear_request_plain world_t1
     = (Done (TaskInstanceActionResponse.mk "t1" "d1" "r1" "none"
                "Task instance cleared"), w') /\
     task_instance_objs (mem w') !! 0%nat = Some ti_fresh) /\
  Api.clear_task_instance "d1" "r1" "t1" clear_request_only_failed world_t1
  = (Done (TaskInstanceActionResponse.mk "t1" "d1" "r1" "running"
             "Task instance not cleared (dry run or filter conditions not met)"),
     world_t1).
Proof.
  split.
  - destruct (clear_resets_or_does_nothing world_t1 "d1" "r1" "t1"
                clear_request_plain 0%nat ti_running) as [_ Hclear].
    + vm_compute. reflexivity.
    + reflexivity.
    + destruct Hclear as (w' & ti' & Hrun & _ & Hobj & _).
      { split; [reflexivity|]. split; discriminate. }
      exists w'. split; [exact Hrun|].
      assert (w' = (Api.clear_task_instance "d1" "r1" "t1" clear_request_plain
                      world_t1).2) as -> by (by rewrite Hrun).
      vm_compute. reflexivity.
  - apply (clear_resets_or_does_nothing world_t1 "d1" "r1" "t1"
             clear_request_only_failed 0%nat ti_running).
    + vm_compute. reflexivity.
    + reflexivity.
    + intros (_ & Hfailed & _). specialize (Hfailed eq_refl). discriminate.
Defined.

(** ** C7: uniqueness of independently keyed resources *)

(** C7.  The create and update requests of connections, variables, pools
    and providers never reach their uniqueness checks: each begins with
    the call of [get_store], raises NameError there and leaves the world
    as it was, whatever the store holds.  With connection "c1" stored, a
    create under "c1" is answered with NameError, not with 409; with no
    "c2" stored, an update of "c2" is answered with NameError, not with
    404. *)
Theorem create_and_update_raise_name_error :
  (forall (connection : Connection.t) (conn_id instance_id : string),
      raises_name_error (Api.create_connection connection instance_id) /\
      raises_name_error (Api.update_connection conn_id connection instance_id)) /\
  (forall (variable : Variable_.t) (key instance_id : string),
      raises_name_error (Api.create_variable variable instance_id) /\
      raises_name_error (Api.update_variable key variable instance_id)) /\
  (forall (body : Pool.data) (pool_name instance_id : string),
      raises_name_error (Api.create_pool body instance_id) /\
      raises_name_error (Api.update_pool pool_name body instance_id)) /\
  (forall (provider : Provider.t) (provider_name instance_id : string),
      raises_name_error (Api.create_provider provider instance_id) /\
      raises_name_error (Api.update_provider provider_name provider instance_id)) /\
  Store.get_connection (store world_c1) "c1" = Some conn_c1 /\
  Api.create_connection conn_c1_again "default" world_c1
  = (Raised (NameError "get_store"), world_c1) /\
  Store.get_connection (store world_c1) "c2" = None /\
  Api.update_connection "c2" conn_c1_again "default" world_c1
  = (Raised (NameError "get_store"), world_c1).
Proof.
  split; [|split; [|split; [|split]]].
  - intros. split; intros w; apply get_store_raises.
  - intros. split; intros w; apply get_store_raises.
  - intros. split; intros w; apply get_store_raises.
  - intros. split; intros w; apply get_store_raises.
  - repeat split; reflexivity.
Qed.

(** ** C8: parents of created resources *)








(** ** C9: the instance registry *)

Lemma get_instance_known instance_id s reg :
  instances reg !! instance_id = Some s ->
  get_instance instance_id reg = (s, reg).
Proof.
  intros Hs. unfold get_instance, ensure, at_key. rewrite Hs. simpl.
  rewrite Hs. by destruct reg.
Qed.



Lemma stop_instance_registry instance_id p :
  registry (stop_instance instance_id p) = registry p /\
  objects (stop_instance instance_id p) = objects p /\
  servers (stop_instance instance_id p) !! instance_id = None.
Proof.
  unfold stop_instance.
  destruct (servers p !! instance_id) eqn:Hs; simpl; [|done].
  repeat split. apply lookup_delete_eq.
Qed.

Lemma stop_instance_eq instance_id p :
  stop_instance instance_id p
  = mkProcess (objects p) (registry p) (delete instance_id (servers p)).
Proof.
  unfold stop_instance.
  destruct (servers p !! instance_id) eqn:Hs; [done|].
  rewrite delete_id by done. by destruct p.
Qed.

Lemma handle_same_stores {A} (a : string) (handler : M A) (p q : Process) :
  registry q = registry p -> objects q = objects p ->
  (handle a handler q).1 = (handle a handler p).1 /\
  registry (handle a handler q).2 = registry (handle a handler p).2 /\
  objects (handle a handler q).2 = objects (handle a handler p).2.
Proof.
  intros Hreg Hobj. unfold handle. rewrite Hreg, Hobj.
  destruct (get_instance a (registry p)) as [s reg].
  by destruct (handler (mkWorld (objects p) s)).
Qed.





(** ** C10: reading a log that does not exist *)




(** * Further properties of the code *)

(** ** Deleting independently keyed resources *)

Lemma deletes_key_flat {E : Type} (field : InstanceStore -> gmap string E)
    (set_field : gmap string E -> InstanceStore -> InstanceStore) :
  (forall v s, field (set_field v s) = v) ->
  (forall s, set_field (field s) s = s) ->
  deletes_key (fun s k => field s !! k)
    (fun k s =>
       match field s !! k with
       | Some _ => (true, set_field (delete k (field s)) s)
       | None => (false, s)
       end).
Proof.
  intros Hget Hid self k. simpl.
  destruct (field self !! k) as [e|] eqn:He; simpl.
  - rewrite Hget. split; [done|].
    split; [apply lookup_delete_eq|].
    split; [|done]. intros k' Hne. by apply lookup_delete_ne.
  - split; [done|]. split; [done|]. split; done.
Qed.

Lemma add_then_delete_restores_flat {E : Type}
    (field : InstanceStore -> gmap string E)
    (set_field : gmap string E -> InstanceStore -> InstanceStore)
    (key : E -> string) :
  (forall v s, field (set_field v s) = v) ->
  (forall v v' s, set_field v' (set_field v s) = set_field v' s) ->
  (forall s, set_field (field s) s = s) ->
  add_then_delete_restores (fun s k => field s !! k)
    (fun e s => set_field (<[key e := e]> (field s)) s) key
    (fun k s =>
       match field s !! k with
       | Some _ => (true, set_field (delete k (field s)) s)
       | None => (false, s)
       end).
Proof.
  intros Hget Hset Hid self e Hnone. simpl in *.
  rewrite Hget, lookup_insert_eq, Hset, delete_insert_id by done.
  by rewrite Hid.
Qed.

Lemma set_pools_id s : set_pools (pools s) s = s.
Proof. by destruct s. Qed.
Lemma set_variables_id s : set_variables (variables s) s = s.
Proof. by destruct s. Qed.
Lemma set_connections_id s : set_connections (connections s) s = s.
Proof. by destruct s. Qed.
Lemma set_providers_id s : set_providers (providers s) s = s.
Proof. by destruct s. Qed.

(** X1.  Deleting a connection, variable, pool or provider from the store
    answers True exactly when the key was there; afterwards the key is
    gone and every other key holds what it held; when the key was not
    there the store is what it was.  Adding a connection, variable or
    provider under a key that was free and deleting that key gives back
    the very store one started from. *)
Theorem delete_removes_exactly_the_key :
  (deletes_key Store.get_connection Store.delete_connection /\
   deletes_key Store.get_variable Store.delete_variable /\
   deletes_key Store.get_pool Store.delete_pool /\
   deletes_key Store.get_provider Store.delete_provider) /\
  (add_then_delete_restores Store.get_connection Store.add_connection
     Connection.conn_id Store.delete_connection /\
   add_then_delete_restores Store.get_variable Store.add_variable
     Variable_.key Store.delete_variable /\
   add_then_delete_restores Store.get_provider Store.add_provider
     Provider.package_name Store.delete_provider).
Proof.
  split.
  - split; [by apply (deletes_key_flat connections set_connections);
              [|apply set_connections_id]|].
    split; [by apply (deletes_key_flat variables set_variables);
              [|apply set_variables_id]|].
    split; [by apply (deletes_key_flat pools set_pools);
              [|apply set_pools_id]|].
    by apply (deletes_key_flat providers set_providers);
      [|apply set_providers_id].
  - split; [by apply (add_then_delete_restores_flat connections set_connections);
              [| |apply set_connections_id]|].
    split; [by apply (add_then_delete_restores_flat variables set_variables);
              [| |apply set_variables_id]|].
    by apply (add_then_delete_restores_flat providers set_providers);
      [| |apply set_providers_id].
Qed.

Lemma delete_removes_exactly_the_key_witness :
  Store.delete_connection "c1" (Store.add_connection conn_c1 (store empty_world))
  = (true, store empty_world) /\
  (Store.delete_connection "c2" (store world_c1)).2 = store world_c1.
Proof.
  destruct delete_removes_exactly_the_key as ((Hdel & _) & (Hback & _)).
  split.
  - apply (Hback (store empty_world) conn_c1). reflexivity.
  - apply (Hdel (store world_c1) "c2"). vm_compute. reflexivity.
Defined.

(** Opens a delete handler and its store method up. *)
(** ** Requests that ask for the store by name *)

(** X2.  Every get and delete request of connections, variables, pools
    and providers, the hooks request, the four XCom requests and the
    connection listing begin with the call of [get_store] and raise
    NameError there, for every store and every argument.  The world is
    left as it was: a delete request removes nothing even when the key is
    stored, and the creation of an XCom entry stores nothing. *)
Theorem get_store_requests_raise_name_error :
  (forall k instance_id : string,
      raises_name_error (Api.get_connection k instance_id) /\
      raises_name_error (Api.delete_connection k instance_id) /\
      raises_name_error (Api.get_variable k instance_id) /\
      raises_name_error (Api.delete_variable k instance_id) /\
      raises_name_error (Api.get_pool k instance_id) /\
      raises_name_error (Api.delete_pool k instance_id) /\
      raises_name_error (Api.get_provider k instance_id) /\
      raises_name_error (Api.delete_provider k instance_id) /\
      raises_name_error (Api.get_provider_hooks k instance_id)) /\
  (forall (dag_id run_id task_id key instance_id : string) (xcom : XCom.t),
      raises_name_error (Api.get_xcom_entry dag_id run_id task_id key instance_id) /\
      raises_name_error
        (Api.delete_xcom_entry dag_id run_id task_id key instance_id) /\
      raises_name_error
        (Api.create_xcom_entry dag_id run_id task_id xcom instance_id)) /\
  (forall (dict_items : forall V : Type, gmap string V -> list (string * V))
          (dag_id run_id task_id instance_id : string) (key : option string)
          (limit offset : option Z),
      raises_name_error
        (Listing.list_xcom_entries dict_items dag_id run_id task_id key
           instance_id) /\
      raises_name_error
        (Listing.api_list_connections dict_items limit offset instance_id)) /\
  Store.get_connection
    (store (Api.delete_connection "c1" "default" world_c1).2) "c1"
  = Some conn_c1 /\
  Store.get_xcom_value
    (store (Api.create_xcom_entry "d1" "r1" "t1" xcom_r1 "default" empty_world).2)
    "d1" "t1" "k" (Some "r1")
  = None.
Proof.
  split; [|split; [|split]].
  - intros. repeat split; intros w; reflexivity.
  - intros. repeat split; intros w; reflexivity.
  - intros. split; intros w; reflexivity.
  - split; reflexivity.
Qed.

(** ** Deleting XCom entries *)

Section ordered_dict_del.
Context {K V : Type} `{EqDecision K}.
Implicit Types (d : OrderedDict.t K V) (k : K) (v : V).

Lemma ordered_del_None k d :
  OrderedDict.del k d = None <-> OrderedDict.get d k = None.
Proof.
  induction d as [|[k' v'] d IH]; simpl; [done|].
  destruct (decide (k = k')); [done|].
  rewrite fmap_None. exact IH.
Qed.

Lemma ordered_del_get_ne k k' d d' :
  OrderedDict.del k d = Some d' -> k' <> k ->
  OrderedDict.get d' k' = OrderedDict.get d k'.
Proof.
  revert d'. induction d as [|[k0 v0] d IH]; intros d' Hdel Hne; simpl in *;
    [done|].
  destruct (decide (k = k0)) as [->|Hk].
  - injection Hdel as <-. by rewrite decide_False.
  - destruct (OrderedDict.del k d) as [d0|] eqn:Hd; [|done].
    injection Hdel as <-. simpl. destruct (decide (k' = k0)); [done|].
    by apply IH.
Qed.

Lemma ordered_get_keys k d :
  OrderedDict.get d k = None <-> k ∉ OrderedDict.keys d.
Proof.
  induction d as [|[k' v'] d IH]; simpl.
  - split; [intros _; apply not_elem_of_nil|done].
  - rewrite not_elem_of_cons. destruct (decide (k = k')); [|tauto].
    split; [done|]. by intros [? _].
Qed.

Lemma ordered_del_get k d d' :
  NoDup (OrderedDict.keys d) -> OrderedDict.del k d = Some d' ->
  OrderedDict.get d' k = None.
Proof.
  revert d'. induction d as [|[k0 v0] d IH]; intros d' Hnd Hdel; simpl in *;
    [done|].
  apply NoDup_cons in Hnd as [Hnotin Hnd].
  destruct (decide (k = k0)) as [->|Hk].
  - injection Hdel as <-. by apply ordered_get_keys.
  - destruct (OrderedDict.del k d) as [d0|] eqn:Hd; [|done].
    injection Hdel as <-. simpl. rewrite decide_False by done. by apply IH.
Qed.

Lemma ordered_del_values k d d' :
  OrderedDict.del k d = Some d' ->
  OrderedDict.values d' `sublist_of` OrderedDict.values d /\
  S (length (OrderedDict.values d')) = length (OrderedDict.values d).
Proof.
  revert d'. induction d as [|[k0 v0] d IH]; intros d' Hdel; simpl in *;
    [done|].
  destruct (decide (k = k0)) as [->|Hk].
  - injection Hdel as <-. split; [by apply sublist_cons|done].
  - destruct (OrderedDict.del k d) as [d0|] eqn:Hd; [|done].
    injection Hdel as <-. destruct (IH d0 eq_refl) as [Hsub Hlen]. simpl.
    split; [by apply sublist_skip|by rewrite Hlen].
Qed.

End ordered_dict_del.

Lemma delete_xcom_value_one dag_id task_id key r self :
  truthy_str r = true ->
  match OrderedDict.del r (Store.xcom_runs self dag_id task_id key) with
  | None => Store.delete_xcom_value dag_id task_id key (Some r) self = (false, self)
  | Some runs' =>
      (Store.delete_xcom_value dag_id task_id key (Some r) self).1 = true /\
      Store.xcom_runs
        (Store.delete_xcom_value dag_id task_id key (Some r) self).2
        dag_id task_id key = runs'
  end.
Proof.
  intros Ht. unfold Store.delete_xcom_value, Store.xcom_runs, at_key.
  cbv zeta. rewrite Ht.
  destruct (xcoms self !! dag_id) as [by_task|]; simpl; [|done].
  destruct (by_task !! task_id) as [by_key|]; simpl; [|done].
  destruct (by_key !! key) as [runs|]; simpl; [|done].
  destruct (OrderedDict.del r runs) as [runs'|]; simpl; [|done].
  split; [done|]. rewrite lookup_insert_eq. simpl.
  rewrite lookup_insert_eq. simpl. by rewrite lookup_insert_eq.
Qed.

(** X3.  Deleting the XCom entry of one run answers True exactly when the
    store holds an entry for that run under (dag_id, task_id, key).
    Afterwards that run has no entry, every other run has the entry it
    had, and the remaining entries keep their order; when there was no
    such entry the store is what it was. *)
Theorem delete_xcom_of_one_run
    (self : InstanceStore) (dag_id task_id key r : string) :
  truthy_str r = true ->
  NoDup (OrderedDict.keys (Store.xcom_runs self dag_id task_id key)) ->
  let answer := Store.delete_xcom_value dag_id task_id key (Some r) self in
  answer.1
  = bool_decide
      (is_Some (Store.get_xcom_value self dag_id task_id key (Some r))) /\
  Store.get_xcom_value answer.2 dag_id task_id key (Some r) = None /\
  (forall r' : string,
      truthy_str r' = true -> r' <> r ->
      Store.get_xcom_value answer.2 dag_id task_id key (Some r')
      = Store.get_xcom_value self dag_id task_id key (Some r')) /\
  OrderedDict.values (Store.xcom_runs answer.2 dag_id task_id key)
    `sublist_of` OrderedDict.values (Store.xcom_runs self dag_id task_id key) /\
  (answer.1 = false -> answer.2 = self).
Proof.
  intros Ht Hnd answer. subst answer.
  pose proof (delete_xcom_value_one dag_id task_id key r self Ht) as Hone.
  unfold Store.get_xcom_value. rewrite Ht.
  destruct (OrderedDict.del r (Store.xcom_runs self dag_id task_id key))
    as [runs'|] eqn:Hdel.
  - destruct Hone as [Htrue Hruns]. rewrite Htrue, Hruns.
    split.
    { symmetry. apply bool_decide_eq_true_2.
      destruct (OrderedDict.get (Store.xcom_runs self dag_id task_id key) r)
        eqn:Hget; [done|].
      apply ordered_del_None in Hget. congruence. }
    split; [by eapply ordered_del_get|].
    split; [intros r' Ht' Hne; rewrite Ht'; by eapply ordered_del_get_ne|].
    split; [by eapply ordered_del_values|done].
  - rewrite Hone. simpl. apply ordered_del_None in Hdel. rewrite Hdel.
    split; [symmetry; apply bool_decide_eq_false_2; by intros [? ?]|].
    split; [done|]. split; [done|]. split; done.
Qed.

Lemma delete_xcom_of_one_run_witness :
  Store.delete_xcom_value "d1" "t1" "k" (Some "a") store_two_runs
  = (true, (Store.delete_xcom_value "d1" "t1" "k" (Some "a") store_two_runs).2) /\
  Store.get_xcom_value
    (Store.delete_xcom_value "d1" "t1" "k" (Some "a") store_two_runs).2
    "d1" "t1" "k" (Some "a") = None /\
  Store.get_xcom_value
    (Store.delete_xcom_value "d1" "t1" "k" (Some "a") store_two_runs).2
    "d1" "t1" "k" (Some "b") = Some xcom_b_later.
Proof.
  destruct (delete_xcom_of_one_run store_two_runs "d1" "t1" "k" "a")
    as (Hans & Hgone & Hother & _).
  - reflexivity.
  - apply (bool_decide_unpack _). vm_compute. reflexivity.
  - split; [|split].
    + vm_compute. reflexivity.
    + exact Hgone.
    + rewrite (Hother "b"); [vm_compute; reflexivity|reflexivity|discriminate].
Defined.

Lemma ensure_lookup `{Countable K} {V} (k : K) (e : V) (d : gmap K V) :
  is_Some (ensure k e d !! k).
Proof.
  unfold ensure. destruct (d !! k) eqn:E; [by rewrite E|].
  by rewrite lookup_insert_eq.
Qed.

Lemma update_at_lookup `{Countable K} {V} (k : K) (e : V) (f : V -> V)
    (d : gmap K V) :
  is_Some (update_at k e f d !! k).
Proof. unfold update_at. by rewrite lookup_insert_eq. Qed.

(** [add_xcom_value] leaves a dictionary under the key, with or without
    an entry in it. *)
Lemma add_xcom_value_key_dict xcom self :
  is_Some
    (at_key (XCom.task_id xcom) ∅
       (at_key (XCom.dag_id xcom) ∅
          (xcoms (Store.add_xcom_value xcom self))) !! XCom.key xcom).
Proof.
  unfold Store.add_xcom_value. cbv zeta.
  destruct (XCom.run_id xcom) as [r|]; [destruct (truthy_str r)|]; simpl;
    rewrite ?at_key_update_at;
    first [apply update_at_lookup | apply ensure_lookup].
Qed.

(** X4.  Deleting under (dag_id, task_id, key) without a run_id (or with
    an empty one) removes the entries of every run at once: afterwards no
    lookup under that key finds anything.  The keys beside it keep their
    entries.  The answer is True exactly when the store has a dictionary
    for the key, and otherwise the store is what it was; since adding an
    XCom entry creates that dictionary even when the entry itself is not
    stored, the answer after any add under that key is True. *)
Theorem delete_xcom_without_run_id_removes_every_run
    (self : InstanceStore) (dag_id task_id key : string)
    (run_id : option string) :
  truthy_opt_str run_id = false ->
  let answer := Store.delete_xcom_value dag_id task_id key run_id self in
  answer.1
  = bool_decide
      (is_Some (at_key task_id ∅ (at_key dag_id ∅ (xcoms self)) !! key)) /\
  (forall r : option string,
      Store.get_xcom_value answer.2 dag_id task_id key r = None) /\
  (forall key' : string,
      key' <> key ->
      Store.xcom_runs answer.2 dag_id task_id key'
      = Store.xcom_runs self dag_id task_id key') /\
  (answer.1 = false -> answer.2 = self) /\
  (forall xcom : XCom.t,
      XCom.dag_id xcom = dag_id -> XCom.task_id xcom = task_id ->
      XCom.key xcom = key ->
      (Store.delete_xcom_value dag_id task_id key run_id
         (Store.add_xcom_value xcom self)).1 = true).
Proof.
  intros Hr answer.
  assert (forall s : InstanceStore,
    Store.delete_xcom_value dag_id task_id key run_id s
    = match
        by_task ← xcoms s !! dag_id;
        by_key ← by_task !! task_id;
        _ ← by_key !! key;
        Some (set_xcoms
                (<[dag_id := <[task_id := delete key by_key]> by_task]>
                   (xcoms s)) s)
      with
      | Some s' => (true, s')
      | None => (false, s)
      end) as Hdel.
  { intros s. unfold Store.delete_xcom_value. cbv zeta.
    destruct (xcoms s !! dag_id) as [by_task|]; simpl; [|done].
    destruct (by_task !! task_id) as [by_key|]; simpl; [|done].
    destruct (by_key !! key) as [runs|]; simpl; [|done].
    destruct run_id as [r|]; [|done]. simpl in Hr. by rewrite Hr. }
  assert (forall s : InstanceStore,
    Store.xcom_runs s dag_id task_id key = OrderedDict.empty ->
    forall r, Store.get_xcom_value s dag_id task_id key r = None) as Hempty.
  { intros s Hs r. unfold Store.get_xcom_value. rewrite Hs.
    destruct r as [r|]; [|done]. by destruct (truthy_str r). }
  split; [|split; [|split; [|split]]].
  - subst answer. rewrite Hdel. unfold at_key.
    destruct (xcoms self !! dag_id) as [by_task|]; simpl; [|done].
    destruct (by_task !! task_id) as [by_key|]; simpl; [|done].
    by destruct (by_key !! key).
  - apply Hempty. subst answer. rewrite Hdel.
    unfold Store.xcom_runs, at_key.
    destruct (xcoms self !! dag_id) as [by_task|] eqn:Hd; simpl;
      [|by rewrite Hd].
    destruct (by_task !! task_id) as [by_key|] eqn:Ht; simpl;
      [|by rewrite Hd; simpl; rewrite Ht].
    destruct (by_key !! key) as [runs|] eqn:Hk; simpl;
      [|by rewrite Hd; simpl; rewrite Ht; simpl; rewrite Hk].
    rewrite lookup_insert_eq. simpl. rewrite lookup_insert_eq. simpl.
    by rewrite lookup_delete_eq.
  - intros key' Hne. subst answer. rewrite Hdel.
    unfold Store.xcom_runs, at_key.
    destruct (xcoms self !! dag_id) as [by_task|] eqn:Hd; simpl;
      [|by rewrite Hd].
    destruct (by_task !! task_id) as [by_key|] eqn:Ht; simpl;
      [|by rewrite Hd; simpl; rewrite Ht].
    destruct (by_key !! key) as [runs|] eqn:Hk; simpl;
      [|by rewrite Hd; simpl; rewrite Ht].
    rewrite lookup_insert_eq. simpl. rewrite lookup_insert_eq. simpl.
    by rewrite lookup_delete_ne.
  - subst answer. rewrite Hdel.
    destruct (xcoms self !! dag_id) as [by_task|]; simpl; [|done].
    destruct (by_task !! task_id) as [by_key|]; simpl; [|done].
    by destruct (by_key !! key).
  - intros xcom <- <- <-. rewrite Hdel.
    destruct (add_xcom_value_key_dict xcom self) as [runs Hruns].
    unfold at_key in Hruns.
    destruct (xcoms (Store.add_xcom_value xcom self) !! XCom.dag_id xcom)
      as [by_task|]; simpl in *; [|done].
    destruct (by_task !! XCom.task_id xcom) as [by_key|]; simpl in *; [|done].
    by rewrite Hruns.
Qed.

Lemma delete_xcom_without_run_id_removes_every_run_witness :
  (Store.delete_xcom_value "d1" "t1" "k" None store_two_runs).1 = true /\
  Store.get_xcom_value
    (Store.delete_xcom_value "d1" "t1" "k" None store_two_runs).2
    "d1" "t1" "k" (Some "b") = None /\
  (Store.delete_xcom_value "d1" "t1" "k" None
     (Store.add_xcom_value xcom_no_run (InstanceStore_init "i1"))).1 = true /\
  Store.delete_xcom_value "d1" "t1" "k" None (InstanceStore_init "i1")
  = (false, InstanceStore_init "i1").
Proof.
  destruct (delete_xcom_without_run_id_removes_every_run store_two_runs
              "d1" "t1" "k" None eq_refl) as (Hans & Hgone & _).
  destruct (delete_xcom_without_run_id_removes_every_run
              (InstanceStore_init "i1") "d1" "t1" "k" None eq_refl)
    as (_ & _ & _ & Hsame & Hadd).
  split; [rewrite Hans; vm_compute; reflexivity|].
  split; [apply Hgone|].
  split; [by apply Hadd|].
  vm_compute. reflexivity.
Defined.

(** ** XCom requests *)

Lemma ordered_set_keys {K V : Type} `{EqDecision K} (k : K) (v : V)
    (d : OrderedDict.t K V) :
  ((k ∈ OrderedDict.keys d) /\
   OrderedDict.keys (OrderedDict.set k v d) = OrderedDict.keys d) \/
  ((k ∉ OrderedDict.keys d) /\
   OrderedDict.keys (OrderedDict.set k v d) = OrderedDict.keys d ++ [k]).
Proof.
  induction d as [|[k' v'] d IH].
  - right. split; [apply not_elem_of_nil|done].
  - cbn [OrderedDict.set]. destruct (decide (k = k')) as [->|Hne].
    + left. split; [apply list_elem_of_here|done].
    + destruct IH as [[Hin Heq]|[Hnin Heq]].
      * left. split; [by apply list_elem_of_further|].
        unfold OrderedDict.keys in *. simpl. by rewrite Heq.
      * right. split; [by apply not_elem_of_cons|].
        unfold OrderedDict.keys in *. simpl. by rewrite Heq.
Qed.

Lemma ordered_set_NoDup {K V : Type} `{EqDecision K} (k : K) (v : V)
    (d : OrderedDict.t K V) :
  NoDup (OrderedDict.keys d) -> NoDup (OrderedDict.keys (OrderedDict.set k v d)).
Proof.
  intros Hnd. destruct (ordered_set_keys k v d) as [[_ ->]|[Hnin ->]]; [done|].
  apply NoDup_app. split; [done|]. split; [|apply NoDup_singleton].
  intros x Hx Hk. apply list_elem_of_singleton in Hk. by subst.
Qed.

Lemma xcom_runs_add_xcom_value xcom run_id self :
  XCom.run_id xcom = Some run_id -> truthy_str run_id = true ->
  Store.xcom_runs (Store.add_xcom_value xcom self) (XCom.dag_id xcom)
    (XCom.task_id xcom) (XCom.key xcom)
  = OrderedDict.set run_id xcom
      (Store.xcom_runs self (XCom.dag_id xcom) (XCom.task_id xcom)
         (XCom.key xcom)).
Proof.
  intros Hr Ht. rewrite (add_xcom_value_eq _ _ _ Hr Ht).
  unfold Store.xcom_runs. simpl. by rewrite !at_key_update_at.
Qed.

(** X5.  Round trip of an XCom entry through the store: an entry added
    under a run_id that is not empty is found by the lookup for that run;
    deleting it for that run answers True and removes it, so the lookup
    then finds nothing; a second delete answers False and leaves the
    store as it is. *)
Theorem xcom_store_round_trip
    (self : InstanceStore) (run_id : string) (xcom : XCom.t) :
  XCom.run_id xcom = Some run_id ->
  truthy_str run_id = true ->
  NoDup (OrderedDict.keys
           (Store.xcom_runs self (XCom.dag_id xcom) (XCom.task_id xcom)
              (XCom.key xcom))) ->
  let added := Store.add_xcom_value xcom self in
  let deleted :=
    Store.delete_xcom_value (XCom.dag_id xcom) (XCom.task_id xcom)
      (XCom.key xcom) (Some run_id) added in
  Store.get_xcom_value added (XCom.dag_id xcom) (XCom.task_id xcom)
    (XCom.key xcom) (Some run_id) = Some xcom /\
  deleted.1 = true /\
  Store.get_xcom_value deleted.2 (XCom.dag_id xcom) (XCom.task_id xcom)
    (XCom.key xcom) (Some run_id) = None /\
  Store.delete_xcom_value (XCom.dag_id xcom) (XCom.task_id xcom)
    (XCom.key xcom) (Some run_id) deleted.2
  = (false, deleted.2).
Proof.
  intros Hr Ht Hnd s1 deleted.
  set (dag_id := XCom.dag_id xcom) in *. set (task_id := XCom.task_id xcom) in *.
  assert (Store.xcom_runs s1 dag_id task_id (XCom.key xcom)
          = OrderedDict.set run_id xcom
              (Store.xcom_runs self dag_id task_id (XCom.key xcom)))
    as Hruns1 by (by apply (xcom_runs_add_xcom_value xcom run_id)).
  assert (Store.get_xcom_value s1 dag_id task_id (XCom.key xcom) (Some run_id)
          = Some xcom) as Hget1
    by (by apply (get_add_xcom_value xcom run_id)).
  pose proof (delete_xcom_value_one dag_id task_id (XCom.key xcom) run_id s1 Ht)
    as Hdel.
  destruct (OrderedDict.del run_id
              (Store.xcom_runs s1 dag_id task_id (XCom.key xcom)))
    as [runs'|] eqn:Hd; cycle 1.
  { apply ordered_del_None in Hd. unfold Store.get_xcom_value in Hget1.
    rewrite Ht in Hget1. congruence. }
  destruct Hdel as [Htrue Hruns2]. fold deleted in Htrue, Hruns2.
  assert (OrderedDict.get runs' run_id = None) as Hgone.
  { eapply ordered_del_get; [|exact Hd]. rewrite Hruns1.
    by apply ordered_set_NoDup. }
  split; [exact Hget1|]. split; [exact Htrue|].
  split.
  { unfold Store.get_xcom_value. by rewrite Ht, Hruns2. }
  pose proof (delete_xcom_value_one dag_id task_id (XCom.key xcom) run_id
                deleted.2 Ht) as Hdel2.
  rewrite Hruns2 in Hdel2.
  apply ordered_del_None in Hgone. by rewrite Hgone in Hdel2.
Qed.

Lemma xcom_store_round_trip_witness :
  let added := Store.add_xcom_value xcom_r1 (store empty_world) in
  let deleted := Store.delete_xcom_value "d1" "t1" "k" (Some "r1") added in
  Store.get_xcom_value added "d1" "t1" "k" (Some "r1") = Some xcom_r1 /\
  deleted.1 = true /\
  Store.get_xcom_value deleted.2 "d1" "t1" "k" (Some "r1") = None /\
  Store.delete_xcom_value "d1" "t1" "k" (Some "r1") deleted.2
  = (false, deleted.2).
Proof.
  apply (xcom_store_round_trip (store empty_world) "r1" xcom_r1).
  - reflexivity.
  - reflexivity.
  - apply (bool_decide_unpack _). vm_compute. reflexivity.
Defined.

(** ** Reading *)

Lemma world_eta w : mkWorld (mem w) (store w) = w.
Proof. by destruct w. Qed.

(** X6.  The get requests of DAGs, runs and task instances answer with
    the entity the store holds under the key of the path (for a task
    instance, with the object the store refers to), and with 404 when the
    store holds none; in both cases nothing is changed.  The store method
    for the hooks of a provider answers with the hooks of a provider it
    holds and with the empty list for one it does not hold. *)
Theorem get_request_answers_or_not_found :
  get_answers Store.get_dag Api.get_dag /\
  get_answers (fun s k => Store.get_dag_run s k.1 k.2)
    (fun k => Api.get_dag_run k.1 k.2) /\
  (forall (s : InstanceStore) (k : string),
      Store.get_provider s k = None -> Store.get_provider_hooks s k = []) /\
  (forall (s : InstanceStore) (k : string) (provider : Provider.t),
      Store.get_provider s k = Some provider ->
      Store.get_provider_hooks s k = Provider.hooks provider) /\
  (forall (w : World) (dag_id run_id task_id : string),
      match Store.get_task_instance (store w) dag_id run_id task_id with
      | Some x =>
          forall ti : TaskInstance.t,
            task_instance_objs (mem w) !! x = Some ti ->
            Api.get_task_instance dag_id run_id task_id w = (Done ti, w)
      | None =>
          Api.get_task_instance dag_id run_id task_id w
          = (Raised (HTTPException 404 "Task instance not found"), w)
      end).
Proof.
  repeat split.
  - intros w k. run_handler Api.get_dag. destruct (Store.get_dag _ _); by eauto.
  - intros w k. run_handler Api.get_dag_run.
    destruct (Store.get_dag_run _ _ _); by eauto.
  - intros s k Hnone. unfold Store.get_provider_hooks. by rewrite Hnone.
  - intros s k provider Hsome. unfold Store.get_provider_hooks. by rewrite Hsome.
  - intros w d r t. run_handler Api.get_task_instance.
    destruct (Store.get_task_instance _ _ _ _) as [x|]; [|done].
    intros ti Hti. unfold load_task_instance. by rewrite Hti.
Qed.

Lemma get_request_answers_or_not_found_witness :
  Api.get_dag_run "d1" "r1" world_run = (Done run_r1, world_run) /\
  Api.get_task_instance "d1" "r1" "t1" world_t1 = (Done ti_running, world_t1) /\
  Api.get_task_instance "d1" "r1" "t9" world_t1
  = (Raised (HTTPException 404 "Task instance not found"), world_t1) /\
  Store.get_provider_hooks (store world_provider) "unknown" = [] /\
  Store.get_provider_hooks (store world_provider) "apache-airflow-providers-http"
  = Provider.hooks provider_p.
Proof.
  destruct get_request_answers_or_not_found
    as (_ & Hrun & Hnone & Hhooks & Hti).
  split; [apply (Hrun world_run ("d1", "r1"))|].
  split; [exact (Hti world_t1 "d1" "r1" "t1" ti_running eq_refl)|].
  split; [exact (Hti world_t1 "d1" "r1" "t9")|].
  split; [apply Hnone; reflexivity|].
  apply Hhooks. reflexivity.
Defined.

(** ** DAG runs *)

(** X10.  Updating a run the store does not hold answers 404 and changes
    nothing.  Updating one it holds stores the body under the dag_id and
    run_id of the path, written over the body's own; the other fields are
    the body's as they are: no default is filled in, and the DAG itself
    is not looked at. *)
Theorem run_update_replaces_under_the_path
    (w : World) (dag_id run_id : string) (body : DAGRun.t) :
  (Store.get_dag_run (store w) dag_id run_id = None ->
   Api.update_dag_run dag_id run_id body w
   = (Raised (HTTPException 404 "DAG run not found"), w)) /\
  (is_Some (Store.get_dag_run (store w) dag_id run_id) ->
   let stored :=
     DAGRun.mk dag_id run_id (DAGRun.execution_date body)
       (DAGRun.start_date body) (DAGRun.end_date body) (DAGRun.state body)
       (DAGRun.external_trigger body) (DAGRun.conf body) in
   exists w' : World,
     Api.update_dag_run dag_id run_id body w = (Done stored, w') /\
     Store.get_dag_run (store w') dag_id run_id = Some stored /\
     mem w' = mem w /\ dags (store w') = dags (store w)).
Proof.
  split.
  - intros Hnone. run_handler Api.update_dag_run. by rewrite Hnone.
  - intros [old Hold] stored. eexists. run_handler Api.update_dag_run.
    rewrite Hold. cbn [truthy_opt negb]. cbv zeta.
    unfold modify_store, mret, M_ret. split; [done|]. cbn [store mem].
    split; [|done].
    destruct (create_or_replace_dag_run (store w) stored) as [Hget _].
    exact Hget.
Qed.

Lemma run_update_replaces_under_the_path_witness :
  (exists w' : World,
     Api.update_dag_run "d1" "r1"
       (DAGRun.mk "dX" "rX" (Naive 70) None None "success" false (JDict [])) world_run
     = (Done (DAGRun.mk "d1" "r1" (Naive 70) None None "success" false (JDict [])), w')) /\
  Api.update_dag_run "d1" "r2" run_r1 world_run
  = (Raised (HTTPException 404 "DAG run not found"), world_run).
Proof.
  split.
  - destruct (run_update_replaces_under_the_path world_run "d1" "r1"
                (DAGRun.mk "dX" "rX" (Naive 70) None None "success" false (JDict [])))
      as [_ Hsome].
    destruct Hsome as (w' & Hrun & _).
    { exists run_r1. vm_compute. reflexivity. }
    by exists w'.
  - apply (run_update_replaces_under_the_path world_run "d1" "r2" run_r1).
    vm_compute. reflexivity.
Defined.

(** X11.  Creating a run under a DAG the store holds always succeeds,
    whether or not a run of that id is already there (it is then
    replaced).  The stored run has the dag_id of the path; its run_id is
    the body's, or "manual__" followed by the formatted current instant
    when the body's is empty; its start_date is the body's, or the
    current instant when the body has none; execution_date, end_date,
    state, external_trigger and conf are the body's. *)
Theorem run_creation_fills_defaults
    (strftime : datetime -> string) (n1 n2 n3 : datetime)
    (w : World) (dag_id : string) (body : DAGRun.t) :
  is_Some (Store.get_dag (store w) dag_id) ->
  let stored :=
    DAGRun.mk dag_id
      (if bool_decide (DAGRun.run_id body = "")
       then "manual__" +:+ strftime n1 else DAGRun.run_id body)
      (DAGRun.execution_date body)
      (Some (default n3 (DAGRun.start_date body)))
      (DAGRun.end_date body) (DAGRun.state body)
      (DAGRun.external_trigger body) (DAGRun.conf body) in
  exists w' : World,
    Api.create_dag_run strftime n1 n2 n3 dag_id body w = (Done stored, w') /\
    Store.get_dag_run (store w') dag_id (DAGRun.run_id stored) = Some stored /\
    mem w' = mem w.
Proof.
  intros [dag Hdag] stored. unfold Store.get_dag in Hdag.
  assert (Api.fill_dag_run strftime n1 n2 n3 dag_id body = stored) as Hfill.
  { subst stored. unfold Api.fill_dag_run. cbv zeta.
    destruct body as [? run_id ? start_date ? ? ? ?]. simpl.
    destruct run_id; by destruct start_date. }
  eexists. run_handler Api.create_dag_run.
  rewrite bool_decide_eq_false_2 by (by rewrite Hdag).
  cbv zeta. rewrite Hfill. unfold modify_store, mret, M_ret.
  split; [done|]. cbn [store mem]. split; [|done].
  destruct (create_or_replace_dag_run (store w) stored) as [Hget _].
  exact Hget.
Qed.

Lemma run_creation_fills_defaults_witness :
  exists w' : World,
    Api.create_dag_run (fun _ => "2024-01-01T00:00:00") 5 6 7 "d1"
      (DAGRun.mk "dX" "" (Naive 50) None None "queued" true (JDict [])) world_run
    = (Done (DAGRun.mk "d1" "manual__2024-01-01T00:00:00" (Naive 50) (Some 7) None
               "queued" true (JDict [])), w').
Proof.
  destruct (run_creation_fills_defaults (fun _ => "2024-01-01T00:00:00") 5 6 7
              world_run "d1"
              (DAGRun.mk "dX" "" (Naive 50) None None "queued" true (JDict [])))
    as (w' & Hrun & _).
  - exists dag_d1. reflexivity.
  - by exists w'.
Defined.

(** ** Task instances *)

Lemma put_task_instance_present d r t x self :
  Store.get_task_instance self d r t = Some x ->
  Store.put_task_instance d r t x self = self.
Proof.
  intros Hget. rewrite put_task_instance_eq.
  unfold Store.get_task_instance, at_key in Hget.
  unfold update_at, at_key.
  destruct (task_instances self !! d) as [md|] eqn:Hd; simpl in *; [|done].
  destruct (md !! r) as [mr|] eqn:Hr; simpl in *; [|done].
  rewrite (insert_id mr t x Hget), (insert_id md r mr Hr).
  rewrite (insert_id _ d md Hd). by destruct self.
Qed.

(** X12.  Setting the state of a task instance the store does not hold,
    or clearing it, answers 404 and changes nothing. *)
Theorem task_instance_requests_need_the_instance
    (w : World) (dag_id run_id task_id state : string)
    (now_start now_end : datetime) (clear_request : ClearTaskInstance.t) :
  Store.get_task_instance (store w) dag_id run_id task_id = None ->
  Api.set_task_instance_state now_start now_end dag_id run_id task_id state w
  = (Raised (HTTPException 404 "Task instance not found"), w) /\
  Api.clear_task_instance dag_id run_id task_id clear_request w
  = (Raised (HTTPException 404 "Task instance not found"), w).
Proof.
  intros Hnone. split.
  - run_handler Api.set_task_instance_state. by rewrite Hnone.
  - run_handler Api.clear_task_instance. by rewrite Hnone.
Qed.

Lemma task_instance_requests_need_the_instance_witness :
  Api.set_task_instance_state 1 1 "d1" "r1" "t9" "running" world_t1
  = (Raised (HTTPException 404 "Task instance not found"), world_t1).
Proof.
  apply (task_instance_requests_need_the_instance world_t1 "d1" "r1" "t9"
           "running" 1 1 clear_request_plain).
  vm_compute. reflexivity.
Defined.

(** X13.  Setting a state other than "running", "success", "failed" and
    "skipped" (such as "queued" or "upstream_failed") changes the state
    of the instance and nothing else: start_date, end_date, duration and
    try_number are what they were. *)
Theorem other_states_change_only_the_state
    (w : World) (dag_id run_id task_id state : string) (x : ref)
    (ti : TaskInstance.t) (now_start now_end : datetime) :
  Store.get_task_instance (store w) dag_id run_id task_id = Some x ->
  task_instance_objs (mem w) !! x = Some ti ->
  state ∉ ["running"; "success"; "failed"; "skipped"] ->
  exists (resp : TaskInstanceActionResponse.t) (w' : World),
    Api.set_task_instance_state now_start now_end dag_id run_id task_id state w
    = (Done resp, w') /\
    task_instance_objs (mem w') !! x = Some (TaskInstance.set_state state ti).
Proof.
  intros Hget Hobj Hstate. eexists _, _.
  split; [by apply set_task_instance_state_run|]. simpl.
  rewrite list_lookup_insert_eq by (by eapply lookup_lt_Some). f_equal.
  unfold Api.assign_state. cbv zeta.
  rewrite bool_decide_eq_false_2
    by (intros ->; apply Hstate, list_elem_of_here).
  rewrite bool_decide_eq_false_2; [done|].
  intros Hin. apply Hstate. by apply list_elem_of_further.
Qed.

Lemma other_states_change_only_the_state_witness :
  exists (resp : TaskInstanceActionResponse.t) (w' : World),
    Api.set_task_instance_state 300 300 "d1" "r1" "t1" "upstream_failed" world_t1
    = (Done resp, w') /\
    task_instance_objs (mem w') !! 0%nat
    = Some (TaskInstance.set_state "upstream_failed" ti_running).
Proof.
  apply (other_states_change_only_the_state world_t1 "d1" "r1" "t1"
           "upstream_failed" 0%nat ti_running 300 300).
  - vm_compute. reflexivity.
  - reflexivity.
  - apply (bool_decide_unpack _). vm_compute. reflexivity.
Defined.

Lemma assign_state_finished now_start now_end state ti :
  state ∈ ["success"; "failed"; "skipped"] ->
  let start_date := default now_start (TaskInstance.start_date ti) in
  TaskInstance.state (Api.assign_state now_start now_end state ti) = state /\
  TaskInstance.start_date (Api.assign_state now_start now_end state ti)
  = Some start_date /\
  TaskInstance.end_date (Api.assign_state now_start now_end state ti)
  = Some now_end /\
  TaskInstance.duration (Api.assign_state now_start now_end state ti)
  = Some (total_seconds (now_end - start_date)).
Proof.
  intros Hin. apply list_elem_of_In in Hin. simpl in Hin.
  destruct ti as [? ? ? ? ? ? start_date ? ? ? ? ? ? ? ? ? ? ? ?].
  destruct Hin as [<-|[<-|[<-|[]]]]; by destruct start_date.
Qed.

(** X14.  A task instance set to "running" at one instant and to
    "success", "failed" or "skipped" at a later one ends with the first
    instant as start_date, the second as end_date and, as duration, the
    float nearest to their difference in seconds, which is not
    negative. *)
Theorem running_then_finished
    (w : World) (dag_id run_id task_id state : string) (x : ref)
    (ti : TaskInstance.t) (t1 t1' t2 t2' : datetime) :
  Store.get_task_instance (store w) dag_id run_id task_id = Some x ->
  task_instance_objs (mem w) !! x = Some ti ->
  state ∈ ["success"; "failed"; "skipped"] ->
  t1 <= t2 ->
  exists (w1 w2 : World) (ti2 : TaskInstance.t),
    (Api.set_task_instance_state t1 t1' dag_id run_id task_id "running" w).2
    = w1 /\
    (Api.set_task_instance_state t2' t2 dag_id run_id task_id state w1).2 = w2 /\
    task_instance_objs (mem w2) !! x = Some ti2 /\
    TaskInstance.state ti2 = state /\
    TaskInstance.start_date ti2 = Some t1 /\
    TaskInstance.end_date ti2 = Some t2 /\
    exists m e : Z,
      TaskInstance.duration ti2 = Some (Finite m e) /\
      nearest_float (t2 - t1) 1000000 (Finite m e) /\
      0 <= m.
Proof.
  intros Hget Hobj Hin Hle.
  assert (x < length (task_instance_objs (mem w)))%nat as Hlt
    by by eapply lookup_lt_Some.
  pose proof (set_task_instance_state_run t1 t1' _ _ _ "running" w x ti Hget Hobj)
    as Hrun1.
  set (ti1 := Api.assign_state t1 t1' "running" ti) in Hrun1.
  match type of Hrun1 with _ = (_, ?w0) => set (w1 := w0) in Hrun1 end.
  assert (Store.get_task_instance (store w1) dag_id run_id task_id = Some x)
    as Hget1 by (by apply get_put_task_instance_same).
  assert (task_instance_objs (mem w1) !! x = Some ti1) as Hobj1
    by (by apply list_lookup_insert_eq).
  pose proof (set_task_instance_state_run t2' t2 _ _ _ state w1 x ti1 Hget1 Hobj1)
    as Hrun2.
  match type of Hrun2 with _ = (_, ?w0) => set (w2 := w0) in Hrun2 end.
  destruct (assign_state_finished t2' t2 state ti1 Hin) as (Hs & Hst & He & Hd).
  exists w1, w2, (Api.assign_state t2' t2 state ti1).
  split; [by rewrite Hrun1|]. split; [by rewrite Hrun2|].
  split.
  { apply list_lookup_insert_eq. by eapply lookup_lt_Some. }
  split; [done|]. split; [exact Hst|]. split; [done|].
  change (default t2' (TaskInstance.start_date ti1)) with t1 in Hd.
  destruct (total_seconds_nearest (t2 - t1)) as (m & e & Hf & Hsgn & Hrest).
  exists m, e. split; [by rewrite Hd, Hf|].
  split; [by exists m, e|].
  destruct (Z.sgn_spec m) as [[? ?]|[[? ?]|[? Hneg]]]; [lia..|].
  destruct (Z.sgn_spec (t2 - t1)) as [[? ?]|[[? ?]|[? ?]]]; lia.
Qed.

Lemma running_then_finished_witness :
  exists (w2 : World) (ti2 : TaskInstance.t) (m e : Z),
    (Api.set_task_instance_state 1500100 1500100 "d1" "r1" "t1" "failed"
       (Api.set_task_instance_state 100 100 "d1" "r1" "t1" "running" world_t0).2).2
    = w2 /\
    task_instance_objs (mem w2) !! 0%nat = Some ti2 /\
    TaskInstance.duration ti2 = Some (Finite m e) /\
    nearest_float 1500000 1000000 (Finite m e) /\
    0 <= m.
Proof.
  destruct (running_then_finished world_t0 "d1" "r1" "t1" "failed" 0%nat
              ti_fresh 100 100 1500100 1500100)
    as (w1 & w2 & ti2 & <- & <- & Hobj & _ & _ & _ & m & e & Hd & Hn & Hm).
  - vm_compute. reflexivity.
  - reflexivity.
  - apply (bool_decide_unpack _). vm_compute. reflexivity.
  - lia.
  - eexists _, ti2, m, e. split; [reflexivity|]. by repeat split.
Defined.

(** X15.  Clearing is idempotent: whatever the request, sending it a
    second time leaves the world exactly as the first one left it. *)
Theorem clear_twice_is_clear_once
    (w : World) (dag_id run_id task_id : string)
    (clear_request : ClearTaskInstance.t) (x : ref) (ti : TaskInstance.t) :
  Store.get_task_instance (store w) dag_id run_id task_id = Some x ->
  task_instance_objs (mem w) !! x = Some ti ->
  (Api.clear_task_instance dag_id run_id task_id clear_request
     (Api.clear_task_instance dag_id run_id task_id clear_request w).2).2
  = (Api.clear_task_instance dag_id run_id task_id clear_request w).2.
Proof.
  intros Hget Hobj.
  assert (x < length (task_instance_objs (mem w)))%nat as Hlt
    by by eapply lookup_lt_Some.
  rewrite (clear_task_instance_run _ _ _ clear_request w x ti Hget Hobj).
  destruct (Api.should_clear clear_request ti
            && negb (ClearTaskInstance.dry_run clear_request)) eqn:Hfirst;
    cbn [snd].
  - erewrite (clear_task_instance_run _ _ _ clear_request _ x (Store.reset ti));
      [|by apply get_put_task_instance_same|by apply list_lookup_insert_eq].
    destruct (Api.should_clear clear_request (Store.reset ti)
              && negb (ClearTaskInstance.dry_run clear_request)); [|done].
    cbn [snd mem store task_instance_objs pool_objs].
    rewrite list_insert_insert_eq.
    change (TaskInstance.dag_id (Store.reset ti)) with (TaskInstance.dag_id ti).
    change (TaskInstance.run_id (Store.reset ti)) with (TaskInstance.run_id ti).
    change (TaskInstance.task_id (Store.reset ti)) with (TaskInstance.task_id ti).
    by rewrite put_put_task_instance.
  - rewrite (clear_task_instance_run _ _ _ clear_request w x ti Hget Hobj).
    by rewrite Hfirst.
Qed.

Lemma clear_twice_is_clear_once_witness :
  (Api.clear_task_instance "d1" "r1" "t1" clear_request_plain
     (Api.clear_task_instance "d1" "r1" "t1" clear_request_plain world_t1).2).2
  = (Api.clear_task_instance "d1" "r1" "t1" clear_request_plain world_t1).2.
Proof.
  apply (clear_twice_is_clear_once world_t1 "d1" "r1" "t1" clear_request_plain
           0%nat ti_running).
  - vm_compute. reflexivity.
  - reflexivity.
Defined.

(** X16.  For a task instance stored under its own dag_id, run_id and
    task_id, setting its state or clearing it acts on that one object
    only: the store's index, every other task instance and every pool
    are exactly what they were. *)
Theorem state_requests_touch_one_object
    (w : World) (dag_id run_id task_id state : string) (x : ref)
    (ti : TaskInstance.t) (now_start now_end : datetime)
    (clear_request : ClearTaskInstance.t) :
  Store.get_task_instance (store w) dag_id run_id task_id = Some x ->
  task_instance_objs (mem w) !! x = Some ti ->
  (TaskInstance.dag_id ti, TaskInstance.run_id ti, TaskInstance.task_id ti)
  = (dag_id, run_id, task_id) ->
  forall w' : World,
    w' = (Api.set_task_instance_state now_start now_end dag_id run_id task_id
            state w).2 \/
    w' = (Api.clear_task_instance dag_id run_id task_id clear_request w).2 ->
    store w' = store w /\
    pool_objs (mem w') = pool_objs (mem w) /\
    length (task_instance_objs (mem w')) = length (task_instance_objs (mem w)) /\
    forall y : ref,
      y <> x ->
      task_instance_objs (mem w') !! y = task_instance_objs (mem w) !! y.
Proof.
  intros Hget Hobj [= Hd Hr Ht] w' [->| ->].
  - rewrite (set_task_instance_state_run _ _ _ _ _ state w x ti Hget Hobj).
    cbn [snd mem store task_instance_objs pool_objs].
    rewrite Hd, Hr, Ht, put_task_instance_present by done.
    split; [done|]. split; [done|]. split; [apply length_insert|].
    intros y Hne. by apply list_lookup_insert_ne.
  - rewrite (clear_task_instance_run _ _ _ clear_request w x ti Hget Hobj).
    destruct (Api.should_clear clear_request ti
              && negb (ClearTaskInstance.dry_run clear_request));
      cbn [snd mem store task_instance_objs pool_objs]; [|done].
    rewrite Hd, Hr, Ht, put_task_instance_present by done.
    split; [done|]. split; [done|]. split; [apply length_insert|].
    intros y Hne. by apply list_lookup_insert_ne.
Qed.

Lemma state_requests_touch_one_object_witness :
  store (Api.set_task_instance_state 250 250 "d1" "r1" "t1" "success" world_t1).2
  = store world_t1.
Proof.
  apply (state_requests_touch_one_object world_t1 "d1" "r1" "t1" "success"
           0%nat ti_running 250 250 clear_request_plain).
  - vm_compute. reflexivity.
  - reflexivity.
  - reflexivity.
  - by left.
Defined.

(** ** The registry and the server *)

Lemma get_instance_other a b reg :
  a <> b ->
  instances (get_instance a reg).2 !! b = instances reg !! b.
Proof.
  intros Hne. unfold get_instance, ensure. simpl.
  destruct (instances reg !! a); [done|]. by rewrite lookup_insert_ne.
Qed.

(** X17.  A request handled for one instance, and the start or the stop
    of one instance, leave the store registered under every other
    identifier exactly as it was; a handler changes no server entry.  A
    stop, and a start without sample data, leave every task-instance and
    pool object as it was, so what the other stores refer to is unchanged
    as well. *)
Theorem other_instances_are_untouched
    {A : Type} (a b : string) (handler : M A) (populate_instance : M unit)
    (port : Z) (populate : bool) (p : Process) :
  a <> b ->
  instances (registry (handle a handler p).2) !! b = instances (registry p) !! b /\
  servers (handle a handler p).2 = servers p /\
  instances (registry (start_instance populate_instance a port populate p)) !! b
  = instances (registry p) !! b /\
  instances (registry (stop_instance a p)) !! b = instances (registry p) !! b /\
  servers (stop_instance a p) !! b = servers p !! b /\
  objects (stop_instance a p) = objects p /\
  objects (start_instance populate_instance a port false p) = objects p.
Proof.
  intros Hne.
  assert (forall (B : Type) (h : M B) (q : Process),
    instances (registry (handle a h q).2) !! b = instances (registry q) !! b)
    as Hhandle.
  { intros B h q. unfold handle.
    destruct (get_instance a (registry q)) as [s reg] eqn:Hget.
    destruct (h _) as [out w]. simpl. rewrite lookup_insert_ne by done.
    change reg with (s, reg).2. rewrite <- Hget. by apply get_instance_other. }
  split; [apply Hhandle|]. split.
  { unfold handle. destruct (get_instance a (registry p)) as [s reg].
    by destruct (handler _). }
  split.
  { unfold start_instance, create_app.
    destruct (get_instance a (registry p)) as [s reg] eqn:Hget.
    assert (instances reg !! b = instances (registry p) !! b) as Hreg.
    { change reg with (s, reg).2. rewrite <- Hget. by apply get_instance_other. }
    destruct populate; simpl; [|done]. by rewrite Hhandle. }
  destruct (stop_instance_registry a p) as (Hreg & Hobj & _). rewrite Hreg.
  split; [done|]. split.
  { unfold stop_instance.
    destruct (servers p !! a); simpl; [|done]. by apply lookup_delete_ne. }
  split; [exact Hobj|].
  unfold start_instance, create_app.
  by destruct (get_instance a (registry p)).
Qed.

Lemma other_instances_are_untouched_witness :
  instances
    (registry (handle "b" (Api.get_task_logs 3 "d1" "r1" "t1" 1) process_used).2)
    !! "a"
  = instances (registry process_used) !! "a" /\
  objects (stop_instance "b" process_used) = objects process_used.
Proof.
  destruct (other_instances_are_untouched "b" "a"
              (Api.get_task_logs 3 "d1" "r1" "t1" 1) (mret tt) 0 false
              process_used)
    as (Hhandle & _ & _ & _ & _ & Hobj & _).
  - discriminate.
  - by split.
Defined.

(** X18.  Stopping an identifier that has no server changes nothing, so
    a second stop changes nothing either.  Starting an instance again
    without sample data, after it was stopped, registers a server for it
    and leaves the registry and every task-instance and pool object as
    they were: the instance comes back with the store it had, and every
    request handled after the restart gives the answer, the stores and
    the objects it would have given before the stop. *)
Theorem stop_and_restart
    (instance_id : string) (populate_instance : M unit) (port : Z)
    (p : Process) :
  (servers p !! instance_id = None -> stop_instance instance_id p = p) /\
  stop_instance instance_id (stop_instance instance_id p)
  = stop_instance instance_id p /\
  (is_Some (instances (registry p) !! instance_id) ->
   let restarted :=
     start_instance populate_instance instance_id port false
       (stop_instance instance_id p) in
   registry restarted = registry p /\
   objects restarted = objects p /\
   servers restarted
   = <[instance_id := mkUvicornServer instance_id "0.0.0.0" port]> (servers p) /\
   forall (A : Type) (handler : M A),
     (handle instance_id handler restarted).1
     = (handle instance_id handler p).1 /\
     registry (handle instance_id handler restarted).2
     = registry (handle instance_id handler p).2 /\
     objects (handle instance_id handler restarted).2
     = objects (handle instance_id handler p).2).
Proof.
  assert (forall q, servers q !! instance_id = None ->
                    stop_instance instance_id q = q) as Hnoop.
  { intros q Hq. unfold stop_instance. by rewrite Hq. }
  split; [apply Hnoop|]. split.
  { apply Hnoop. apply stop_instance_registry. }
  intros [s Hs] restarted.
  assert (restarted
          = mkProcess (objects p) (registry p)
              (<[instance_id := mkUvicornServer instance_id "0.0.0.0" port]>
                 (servers p))) as ->.
  { subst restarted. rewrite stop_instance_eq.
    unfold start_instance, create_app. cbn [objects registry servers].
    rewrite (get_instance_known _ s (registry p) Hs).
    cbn [objects registry servers]. by rewrite insert_delete_eq. }
  split; [done|]. split; [done|]. split; [done|].
  intros A handler. by apply handle_same_stores.
Qed.

Lemma stop_and_restart_witness :
  stop_instance "zz" process_used = process_used /\
  registry (start_instance (mret tt) "a" 9090 false process_stopped)
  = registry process_used /\
  objects (start_instance (mret tt) "a" 9090 false process_stopped)
  = objects process_used.
Proof.
  destruct (stop_and_restart "zz" (mret tt) 0 process_used) as (Hnoop & _).
  destruct (stop_and_restart "a" (mret tt) 9090 process_used)
    as (_ & _ & Hrestart).
  split; [apply Hnoop; reflexivity|].
  destruct Hrestart as (Hreg & Hobj & _).
  - eexists. vm_compute. reflexivity.
  - by split.
Defined.

(** ** Listings *)

Lemma py_slice_page {A} (l : list A) (offset limit : Z) :
  0 <= offset -> 0 <= limit ->
  py_slice l (Some offset) (Some (offset + limit))
  = take (Z.to_nat limit) (drop (Z.to_nat offset) l).
Proof.
  intros Ho Hl. unfold py_slice, slice_index. cbv zeta.
  destruct (Z.ltb_spec offset 0); [lia|].
  destruct (Z.ltb_spec (offset + limit) 0); [lia|].
  set (n := Z.of_nat (length l)).
  assert (length l = Z.to_nat n) as Hn by (subst n; lia).
  destruct (Z.le_gt_cases offset n) as [Hon|Hon].
  - rewrite (Z.min_l offset n) by done.
    destruct (Z.le_gt_cases (offset + limit) n) as [Hln|Hln].
    + rewrite Z.min_l by done. f_equal. lia.
    + rewrite Z.min_r by lia.
      rewrite !take_ge; [done| |]; rewrite length_drop; lia.
  - rewrite !Z.min_r by lia. replace (n - n) with 0 by lia.
    rewrite (drop_ge l (Z.to_nat offset)) by lia. by rewrite take_nil.
Qed.

Lemma py_slice_to {A} (l : list A) (i : Z) :
  py_slice l None (Some i)
  = take (Z.to_nat (slice_index (Z.of_nat (length l)) i)) l.
Proof. unfold py_slice. cbv zeta. by rewrite Z.sub_0_r. Qed.

Lemma py_slice_from {A} (l : list A) (i : Z) :
  py_slice l (Some i) None
  = drop (Z.to_nat (slice_index (Z.of_nat (length l)) i)) l.
Proof.
  unfold py_slice. cbv zeta. apply take_ge. rewrite length_drop.
  unfold slice_index. destruct (i <? 0); lia.
Qed.

Section enumerations.
Context (dict_items : forall V : Type, gmap string V -> list (string * V)).
Hypothesis Hitems : lists_items dict_items.

Lemma dict_values_elem {V} (d : gmap string V) (x : V) :
  x ∈ Listing.dict_values dict_items d <-> exists k, d !! k = Some x.
Proof.
  unfold Listing.dict_values. rewrite list_elem_of_fmap. split.
  - intros ([k y] & -> & Hin). exists k. rewrite (Hitems V d) in Hin.
    by apply elem_of_map_to_list.
  - intros [k Hk]. exists (k, x). split; [done|]. rewrite (Hitems V d).
    by apply elem_of_map_to_list.
Qed.

Lemma dict_keys_elem {V} (d : gmap string V) (k : string) :
  k ∈ Listing.dict_keys dict_items d <-> is_Some (d !! k).
Proof.
  unfold Listing.dict_keys. rewrite list_elem_of_fmap. split.
  - intros ([k' y] & -> & Hin). exists y. rewrite (Hitems V d) in Hin.
    by apply elem_of_map_to_list.
  - intros [x Hk]. exists (k, x). split; [done|]. rewrite (Hitems V d).
    by apply elem_of_map_to_list.
Qed.

Lemma dict_values_length {V} (d : gmap string V) :
  length (Listing.dict_values dict_items d) = size d.
Proof.
  unfold Listing.dict_values.
  by rewrite length_fmap, (Hitems V d), length_map_to_list.
Qed.

End enumerations.

(** X19.  The DAG listing answers, for a limit of at least 1 and an
    offset of at least 0 and whatever order the dictionary lists its
    DAGs in, with the DAGs at positions offset to offset + limit of that
    order and with the number of all DAGs of the store as total_entries.
    The page has min(limit, total - offset) DAGs, none when the offset is
    at or beyond the total; every DAG of the page is in the store;
    nothing is changed. *)
Theorem dag_listing_is_a_page
    (dict_items : forall V : Type, gmap string V -> list (string * V))
    (w : World) (limit offset : Z) :
  lists_items dict_items -> 0 <= offset -> 1 <= limit ->
  let total := Z.of_nat (size (dags (store w))) in
  exists page : list DAG.t,
    Listing.list_dags dict_items limit offset w
    = (Done (DAGCollection.mk page total), w) /\
    page
    = take (Z.to_nat limit)
        (drop (Z.to_nat offset) (Listing.dict_values dict_items (dags (store w)))) /\
    Z.of_nat (length page) = Z.max 0 (Z.min limit (total - offset)) /\
    (total <= offset -> page = []) /\
    (forall dag : DAG.t,
        dag ∈ page -> exists k : string, dags (store w) !! k = Some dag).
Proof.
  intros Hitems Ho Hl total.
  assert (length (Listing.dict_values dict_items (dags (store w)))
          = size (dags (store w))) as Hlen by by apply dict_values_length.
  eexists. split.
  { unfold Listing.list_dags, mbind, M_bind, read_store, mret, M_ret.
    cbv zeta. rewrite py_slice_page by lia. by rewrite Hlen. }
  split; [done|]. split.
  { rewrite length_take, length_drop, Hlen. subst total. lia. }
  split.
  { intros Hbig. rewrite drop_ge; [by rewrite take_nil|].
    rewrite Hlen. subst total. lia. }
  intros dag Hin. apply (dict_values_elem dict_items Hitems).
  eapply elem_of_sublist; [exact Hin|].
  etrans; [apply sublist_take|apply sublist_drop].
Qed.

Lemma dag_listing_is_a_page_witness :
  Listing.list_dags items_by_key 100 0 world_run
  = (Done (DAGCollection.mk [dag_d1] 1), world_run) /\
  Listing.list_dags items_by_key 100 1 world_run
  = (Done (DAGCollection.mk [] 1), world_run).
Proof.
  split.
  - destruct (dag_listing_is_a_page items_by_key world_run 100 0)
      as (page & Hrun & -> & _); [by intros V d|lia|lia|].
    rewrite Hrun. vm_compute. reflexivity.
  - destruct (dag_listing_is_a_page items_by_key world_run 100 1)
      as (page & Hrun & _ & _ & Hempty & _); [by intros V d|lia|lia|].
    rewrite Hrun, Hempty; [vm_compute; reflexivity|vm_compute; discriminate].
Defined.

Lemma dag_run_filters (gte lte : option datetime_tz) (state : option string)
    (l : list DAGRun.t) :
  let l1 :=
    match gte with
    | Some g =>
        filter (fun dr =>
                  ordering_instant g <= ordering_instant (DAGRun.execution_date dr))
          l
    | None => l
    end in
  let l2 :=
    match lte with
    | Some g =>
        filter (fun dr =>
                  ordering_instant (DAGRun.execution_date dr) <= ordering_instant g)
          l1
    | None => l1
    end in
  let l3 :=
    if truthy_opt_str state then
      filter (fun dr => Some (DAGRun.state dr) = state) l2
    else l2 in
  l3 `sublist_of` l /\
  (forall dr : DAGRun.t, dr ∈ l1 <-> dr ∈ l /\ run_passes gte None None dr) /\
  forall dr : DAGRun.t, dr ∈ l3 <-> dr ∈ l /\ run_passes gte lte state dr.
Proof.
  intros l1 l2 l3.
  assert (l1 `sublist_of` l /\
          forall dr, dr ∈ l1 <->
            dr ∈ l /\
            forall g, gte = Some g ->
              ordering_instant g <= ordering_instant (DAGRun.execution_date dr))
    as [S1 E1].
  { subst l1. destruct gte as [g|].
    - split; [apply sublist_filter|]. intros dr. rewrite list_elem_of_filter.
      split; [intros [? ?]; split; [done|by intros ? [= <-]]|].
      intros [? Hg]; split; [by apply Hg|done].
    - split; [done|]. intros dr. split; [by intros ?; split|by intros [? _]]. }
  assert (l2 `sublist_of` l1 /\
          forall dr, dr ∈ l2 <->
            dr ∈ l1 /\
            forall g, lte = Some g ->
              ordering_instant (DAGRun.execution_date dr) <= ordering_instant g)
    as [S2 E2].
  { subst l2. destruct lte as [g|].
    - split; [apply sublist_filter|]. intros dr. rewrite list_elem_of_filter.
      split; [intros [? ?]; split; [done|by intros ? [= <-]]|].
      intros [? Hg]; split; [by apply Hg|done].
    - split; [done|]. intros dr. split; [by intros ?; split|by intros [? _]]. }
  assert (l3 `sublist_of` l2 /\
          forall dr, dr ∈ l3 <->
            dr ∈ l2 /\ (truthy_opt_str state = true ->
                        Some (DAGRun.state dr) = state))
    as [S3 E3].
  { subst l3. destruct (truthy_opt_str state).
    - split; [apply sublist_filter|]. intros dr. rewrite list_elem_of_filter.
      split; [by intros [? ?]|]. intros [? Hs]. split; [by apply Hs|done].
    - split; [done|]. intros dr. split; [by intros ?|by intros [? _]]. }
  split; [by etrans; [|etrans]|]. split.
  - intros dr. rewrite E1. unfold run_passes. simpl.
    split; [intros [? ?]; by repeat split|]. intros [? (? & _ & _)]. by split.
  - intros dr. rewrite E3, E2, E1. unfold run_passes. tauto.
Qed.

Lemma datetime_le_comparable (x y : datetime_tz) :
  comparable x y ->
  datetime_le x y = inr (bool_decide (ordering_instant x <= ordering_instant y)).
Proof. by destruct x, y. Qed.

Lemma datetime_le_mixed (x y : datetime_tz) :
  ~ comparable x y -> datetime_le x y = inl naive_and_aware.
Proof. destruct x, y; simpl; intros Hn; done || by destruct Hn. Qed.

Lemma comparable_sym (x y : datetime_tz) : comparable x y -> comparable y x.
Proof. by destruct x, y. Qed.

Lemma comprehension_filter {A} (keep : A -> Exn + bool) (P : A -> Prop)
    `{forall x, Decision (P x)} (l : list A) :
  (forall x, x ∈ l -> keep x = inr (bool_decide (P x))) ->
  comprehension keep l = inr (filter P l).
Proof.
  intros Hkeep. induction l as [|x l IH]; [done|].
  simpl. rewrite Hkeep by apply list_elem_of_here.
  rewrite IH, filter_cons.
  - unfold bool_decide, decide. by destruct (H x).
  - intros y Hy. apply Hkeep. by apply list_elem_of_further.
Qed.

(** A comprehension whose condition can only raise [e] raises [e] as soon
    as it raises for one element. *)
Lemma comprehension_raises {A} (keep : A -> Exn + bool) (e : Exn) (l : list A)
    (x : A) :
  (forall y e', keep y = inl e' -> e' = e) ->
  x ∈ l -> keep x = inl e -> comprehension keep l = inl e.
Proof.
  intros Honly Hx Hkeep. induction l as [|y l IH]; [by apply elem_of_nil in Hx|].
  simpl. destruct (keep y) as [e'|b] eqn:Hy.
  - by rewrite (Honly y e' Hy).
  - apply elem_of_cons in Hx as [->|Hx]; [congruence|].
    by rewrite (IH Hx).
Qed.

Lemma datetime_le_raises_only (x y : datetime_tz) (e : Exn) :
  datetime_le x y = inl e -> e = naive_and_aware.
Proof. destruct x, y; simpl; congruence. Qed.

(** X20.  Listing the runs of a DAG that has none registered answers an
    empty page with total_entries 0, not an error.  Otherwise, when each
    date bound can be ordered with the execution dates it is compared
    with, total_entries is the number of runs of that DAG that pass every
    filter given (execution date at or after the lower bound, at or
    before the upper bound, state equal to the one given); the runs
    counted are the stored runs that pass, in the dictionary's order, and
    the page holds those at positions offset to offset + limit.  When a
    bound is naive and an execution date it is compared with is aware, or
    the other way round, the request raises TypeError: for the lower
    bound every run of the DAG is compared, for the upper bound every run
    that passed the lower one.  Nothing is changed in any case. *)
Theorem run_listing_filters_then_pages
    (dict_items : forall V : Type, gmap string V -> list (string * V))
    (w : World) (dag_id : string) (limit offset : Z)
    (gte lte : option datetime_tz) (state : option string) :
  lists_items dict_items -> 0 <= offset -> 1 <= limit ->
  let answer :=
    Listing.list_dag_runs dict_items dag_id limit offset gte lte state w in
  match dag_runs (store w) !! dag_id with
  | None => answer = (Done (DAGRunCollection.mk [] 0), w)
  | Some runs =>
      let lower_bound_ordered :=
        forall (g : datetime_tz) (run_id : string) (dr : DAGRun.t),
          gte = Some g -> runs !! run_id = Some dr ->
          comparable (DAGRun.execution_date dr) g in
      ((lower_bound_ordered /\
        forall (l : datetime_tz) (run_id : string) (dr : DAGRun.t),
          lte = Some l -> runs !! run_id = Some dr ->
          run_passes gte None None dr ->
          comparable (DAGRun.execution_date dr) l) ->
       exists matching : list DAGRun.t,
         answer
         = (Done
              (DAGRunCollection.mk
                 (take (Z.to_nat limit) (drop (Z.to_nat offset) matching))
                 (Z.of_nat (length matching))), w) /\
         matching `sublist_of` Listing.dict_values dict_items runs /\
         forall dr : DAGRun.t,
           dr ∈ matching <->
           (exists run_id : string, runs !! run_id = Some dr) /\
           run_passes gte lte state dr) /\
      (forall (g : datetime_tz) (run_id : string) (dr : DAGRun.t),
          gte = Some g -> runs !! run_id = Some dr ->
          ~ comparable (DAGRun.execution_date dr) g ->
          answer = (Raised naive_and_aware, w)) /\
      (forall (l : datetime_tz) (run_id : string) (dr : DAGRun.t),
          lower_bound_ordered ->
          lte = Some l -> runs !! run_id = Some dr ->
          run_passes gte None None dr ->
          ~ comparable (DAGRun.execution_date dr) l ->
          answer = (Raised naive_and_aware, w))
  end.
Proof.
  intros Hitems Ho Hl answer. subst answer.
  destruct (dag_runs (store w) !! dag_id) as [runs|] eqn:Hruns; cycle 1.
  { unfold Listing.list_dag_runs, mbind, M_bind, read_store, mret, M_ret.
    by rewrite Hruns. }
  cbv zeta.
  set (all := Listing.dict_values dict_items runs).
  assert (forall dr, dr ∈ all <-> exists run_id, runs !! run_id = Some dr)
    as Hall by (intros dr; apply (dict_values_elem dict_items Hitems)).
  pose proof (dag_run_filters gte lte state all) as Hf.
  cbv zeta in Hf. destruct Hf as (Hsub & Hlower & Helem).
  assert (forall g : datetime_tz,
            (forall run_id dr, runs !! run_id = Some dr ->
               comparable (DAGRun.execution_date dr) g) ->
            comprehension (fun dr => datetime_ge (DAGRun.execution_date dr) g) all
            = inr (filter (fun dr =>
                             ordering_instant g
                             <= ordering_instant (DAGRun.execution_date dr)) all))
    as Hlow.
  { intros g Hcmp. apply comprehension_filter.
    intros dr Hdr. apply Hall in Hdr as [run_id Hdr].
    apply datetime_le_comparable, comparable_sym. by eapply Hcmp. }
  assert (forall (l : datetime_tz) (passed : list DAGRun.t),
            (forall dr, dr ∈ passed ->
               comparable (DAGRun.execution_date dr) l) ->
            comprehension (fun dr => datetime_le (DAGRun.execution_date dr) l)
              passed
            = inr (filter (fun dr =>
                             ordering_instant (DAGRun.execution_date dr)
                             <= ordering_instant l) passed))
    as Hup.
  { intros l passed Hcmp. apply comprehension_filter.
    intros dr Hdr. by apply datetime_le_comparable, Hcmp. }
  unfold Listing.list_dag_runs, raising, mbind, M_bind, read_store, mret,
    M_ret, raise.
  cbv beta iota zeta. rewrite Hruns. fold all.
  split; [|split].
  - intros [Hcmp_g Hcmp_l].
    eexists. split; [|split; [exact Hsub|]].
    + destruct gte as [g|], lte as [l|]; cbv beta iota;
        rewrite ?(Hlow g) by eauto; rewrite ?Hup;
        try by rewrite py_slice_page by lia.
      * intros dr Hdr. apply Hlower in Hdr as [Hdr Hpass].
        apply Hall in Hdr as [run_id Hdr]. by eapply Hcmp_l.
      * intros dr Hdr. apply Hall in Hdr as [run_id Hdr].
        eapply Hcmp_l; [done|done|]. by repeat split.
    + intros dr. by rewrite Helem, Hall.
  - intros g run_id dr -> Hdr Hmixed. cbv beta iota.
    rewrite (comprehension_raises _ naive_and_aware all dr); [done| | |].
    + intros y e'. apply datetime_le_raises_only.
    + apply Hall. eauto.
    + apply datetime_le_mixed. intros Hc. by apply Hmixed, comparable_sym.
  - intros l run_id dr Hcmp_g -> Hdr Hpass Hmixed.
    assert (forall passed : list DAGRun.t, dr ∈ passed ->
              comprehension
                (fun dr => datetime_le (DAGRun.execution_date dr) l) passed
              = inl naive_and_aware) as Hraise.
    { intros passed Hin.
      apply (comprehension_raises _ naive_and_aware passed dr); [|done|].
      - intros y e'. apply datetime_le_raises_only.
      - by apply datetime_le_mixed. }
    destruct gte as [g|]; cbv beta iota.
    + rewrite (Hlow g) by eauto.
      rewrite Hraise; [done|]. apply Hlower. split; [|done]. apply Hall. eauto.
    + rewrite Hraise; [done|]. apply Hall. eauto.
Qed.

Lemma run_listing_filters_then_pages_witness :
  Listing.list_dag_runs items_by_key "d1" 100 0 (Some (Naive 70)) None None
    world_two_runs
  = (Done (DAGRunCollection.mk [run_r2] 1), world_two_runs) /\
  Listing.list_dag_runs items_by_key "nope" 100 0 (Some (Aware 70 0)) None None
    world_two_runs
  = (Done (DAGRunCollection.mk [] 0), world_two_runs) /\
  Listing.list_dag_runs items_by_key "d1" 100 0 (Some (Aware 70 0)) None None
    world_two_runs
  = (Raised naive_and_aware, world_two_runs).
Proof.
  split; [vm_compute; reflexivity|]. split.
  - apply (run_listing_filters_then_pages items_by_key world_two_runs "nope"
             100 0 (Some (Aware 70 0)) None None); [by intros V d|lia|lia].
  - pose proof (run_listing_filters_then_pages items_by_key world_two_runs "d1"
                  100 0 (Some (Aware 70 0)) None None) as H.
    destruct H as (_ & Hmixed & _); [by intros V d|lia|lia|].
    apply (Hmixed (Aware 70 0) "r1" run_r1); [done|done|]. by intros [].
Defined.

(** X21.  The connection listing of the store cuts the list of all
    connections as Python slices do.  Without limit and offset it is the
    whole list, one connection for each key of the store; with an offset
    and a limit that are not negative it is the connections at positions
    offset to offset + limit; a negative limit is accepted and cuts that
    many connections off the end. *)
Theorem connection_listing_slices
    (dict_items : forall V : Type, gmap string V -> list (string * V))
    (w : World) (limit offset : Z) :
  lists_items dict_items ->
  let all := Listing.dict_values dict_items (connections (store w)) in
  Listing.list_connections dict_items (store w) None None = all /\
  (0 <= offset -> 0 <= limit ->
   Listing.list_connections dict_items (store w) (Some limit) (Some offset)
   = take (Z.to_nat limit) (drop (Z.to_nat offset) all)) /\
  (limit < 0 ->
   Listing.list_connections dict_items (store w) (Some limit) None
   = take (length all - Z.to_nat (- limit)) all) /\
  length all = size (connections (store w)).
Proof.
  intros Hitems all. split; [done|]. split; [|split].
  - intros Ho Hl. unfold Listing.list_connections. cbv zeta.
    rewrite py_slice_from, py_slice_to. fold all. unfold slice_index.
    destruct (Z.ltb_spec offset 0); [lia|].
    destruct (Z.ltb_spec limit 0); [lia|].
    rewrite length_drop.
    destruct (Z.le_gt_cases offset (Z.of_nat (length all))) as [Hon|Hon].
    + rewrite (Z.min_l offset) by done.
      destruct (Z.le_gt_cases limit (Z.of_nat (length all - Z.to_nat offset)))
        as [Hln|Hln].
      * by rewrite Z.min_l.
      * rewrite Z.min_r by lia.
        rewrite !take_ge; [done| |]; rewrite length_drop; lia.
    + rewrite (Z.min_r offset) by lia.
      rewrite !drop_ge by lia. by rewrite !take_nil.
  - intros Hneg. unfold Listing.list_connections. cbv zeta.
    rewrite py_slice_to. fold all. unfold slice_index.
    destruct (Z.ltb_spec limit 0); [|lia]. f_equal. lia.
  - apply (dict_values_length dict_items Hitems).
Qed.

Lemma connection_listing_slices_witness :
  Listing.list_connections items_by_key (store world_c1) (Some (-1)) None = [] /\
  Listing.list_connections items_by_key (store world_c1) (Some 5) (Some 0)
  = [conn_c1].
Proof.
  destruct (connection_listing_slices items_by_key world_c1 (-1) 0)
    as (_ & _ & Hneg & _); [by intros V d|].
  destruct (connection_listing_slices items_by_key world_c1 5 0)
    as (_ & Hpage & _); [by intros V d|].
  split.
  - rewrite Hneg by lia. vm_compute. reflexivity.
  - rewrite Hpage by lia. vm_compute. reflexivity.
Defined.

(** ** Listing XCom entries *)

Lemma list_bind_ext_in {A B} (f g : A -> list B) (l : list A) :
  (forall x, x ∈ l -> f x = g x) -> l ≫= f = l ≫= g.
Proof.
  induction l as [|a l IH]; intros Hfg; [done|].
  rewrite !bind_cons, (Hfg a) by apply list_elem_of_here.
  rewrite IH; [done|]. intros x Hx. apply Hfg. by apply list_elem_of_further.
Qed.

Lemma ordered_runs_listing {K V : Type} `{EqDecision K} (d : OrderedDict.t K V) :
  NoDup (OrderedDict.keys d) ->
  OrderedDict.keys d ≫=
    (fun k => match OrderedDict.get d k with Some v => [v] | None => [] end)
  = OrderedDict.values d.
Proof.
  induction d as [|[k0 v0] d IH]; intros Hnd; [done|].
  apply NoDup_cons in Hnd as [Hnin Hnd].
  change (OrderedDict.keys ((k0, v0) :: d)) with (k0 :: OrderedDict.keys d).
  change (OrderedDict.values ((k0, v0) :: d)) with (v0 :: OrderedDict.values d).
  rewrite bind_cons. simpl. rewrite decide_True by done. simpl. f_equal.
  rewrite <- (IH Hnd). apply list_bind_ext_in. intros k Hk.
  rewrite decide_False; [done|]. intros ->. done.
Qed.

(** X22.  Listing XCom entries with dag_id, task_id, key and run_id all
    given answers with the one entry that the lookup for that run finds,
    or with none.  With the run_id left out it answers with the entries
    of every run under that key, in the order in which the runs were
    first stored.  Neither answer depends on the order in which the
    other dictionaries are listed. *)
Theorem xcom_listing_by_key
    (dict_items : forall V : Type, gmap string V -> list (string * V))
    (self : InstanceStore) (dag_id task_id key : string) :
  truthy_str dag_id = true -> truthy_str task_id = true ->
  truthy_str key = true ->
  (forall run_id : string,
      truthy_str run_id = true ->
      Listing.list_xcom_values dict_items self (Some dag_id) (Some task_id)
        (Some run_id) (Some key)
      = match Store.get_xcom_value self dag_id task_id key (Some run_id) with
        | Some xcom => [xcom]
        | None => []
        end) /\
  (NoDup (OrderedDict.keys (Store.xcom_runs self dag_id task_id key)) ->
   forall run_id : option string,
     truthy_opt_str run_id = false ->
     Listing.list_xcom_values dict_items self (Some dag_id) (Some task_id)
       run_id (Some key)
     = OrderedDict.values (Store.xcom_runs self dag_id task_id key)).
Proof.
  intros Hd Ht Hk.
  assert (forall run_id : option string,
    Listing.list_xcom_values dict_items self (Some dag_id) (Some task_id)
      run_id (Some key)
    = Listing.one_or_all run_id
        (OrderedDict.keys (Store.xcom_runs self dag_id task_id key)) ≫=
      (fun r =>
         match OrderedDict.get (Store.xcom_runs self dag_id task_id key) r with
         | Some xcom => [xcom]
         | None => []
         end)) as Hlist.
  { intros run_id. unfold Listing.list_xcom_values, Listing.one_or_all.
    rewrite Hd, Ht, Hk. unfold Store.xcom_runs, at_key.
    rewrite bind_singleton.
    destruct (xcoms self !! dag_id) as [by_task|]; simpl.
    2:{ rewrite lookup_empty. simpl.
        by destruct run_id as [r|]; [destruct (truthy_str r)|]. }
    rewrite ?app_nil_r.
    destruct (by_task !! task_id) as [by_key|]; simpl.
    2:{ rewrite lookup_empty. simpl.
        by destruct run_id as [r|]; [destruct (truthy_str r)|]. }
    rewrite ?app_nil_r.
    destruct (by_key !! key) as [runs|]; simpl; [done|].
    by destruct run_id as [r|]; [destruct (truthy_str r)|]. }
  split.
  - intros run_id Hr. rewrite Hlist. unfold Listing.one_or_all.
    rewrite Hr. rewrite bind_singleton.
    unfold Store.get_xcom_value. by rewrite Hr.
  - intros Hnd run_id Hr. rewrite Hlist.
    assert (Listing.one_or_all run_id
              (OrderedDict.keys (Store.xcom_runs self dag_id task_id key))
            = OrderedDict.keys (Store.xcom_runs self dag_id task_id key)) as ->.
    { unfold Listing.one_or_all. destruct run_id as [r|]; [|done].
      simpl in Hr. by rewrite Hr. }
    by apply ordered_runs_listing.
Qed.

Lemma xcom_listing_by_key_witness :
  Listing.list_xcom_values items_by_key store_two_runs (Some "d1") (Some "t1")
    (Some "b") (Some "k") = [xcom_b_later] /\
  Listing.list_xcom_values items_by_key store_two_runs (Some "d1") (Some "t1")
    None (Some "k") = [xcom_a; xcom_b_later].
Proof.
  destruct (xcom_listing_by_key items_by_key store_two_runs "d1" "t1" "k")
    as [Hone Hall]; [reflexivity|reflexivity|reflexivity|].
  split.
  - rewrite (Hone "b") by reflexivity. vm_compute. reflexivity.
  - rewrite Hall; [vm_compute; reflexivity| |reflexivity].
    apply (bool_decide_unpack _). vm_compute. reflexivity.
Defined.

Lemma ordered_get_in_keys {K V : Type} `{EqDecision K}
    (d : OrderedDict.t K V) (k : K) (v : V) :
  OrderedDict.get d k = Some v -> k ∈ OrderedDict.keys d.
Proof.
  intros Hget. destruct (decide (k ∈ OrderedDict.keys d)) as [|Hnin]; [done|].
  apply ordered_get_keys in Hnin. congruence.
Qed.

(** X23.  Listing XCom entries without any filter answers with exactly
    the entries the store holds: an entry is listed if and only if it is
    the entry of some run under some (dag_id, task_id, key). *)
Theorem xcom_listing_without_filter_is_complete
    (dict_items : forall V : Type, gmap string V -> list (string * V))
    (self : InstanceStore) (xcom : XCom.t) :
  lists_items dict_items ->
  xcom ∈ Listing.list_xcom_values dict_items self None None None None <->
  exists dag_id task_id key run_id : string,
    OrderedDict.get (Store.xcom_runs self dag_id task_id key) run_id = Some xcom.
Proof.
  intros Hitems. unfold Listing.list_xcom_values, Listing.one_or_all.
  unfold Store.xcom_runs, at_key. split.
  - intros Hin. apply list_elem_of_bind in Hin as (d & Hin & _).
    destruct (xcoms self !! d) as [by_task|] eqn:Hd;
      [|by apply elem_of_nil in Hin].
    apply list_elem_of_bind in Hin as (t & Hin & _).
    destruct (by_task !! t) as [by_key|] eqn:Ht;
      [|by apply elem_of_nil in Hin].
    apply list_elem_of_bind in Hin as (k & Hin & _).
    destruct (by_key !! k) as [runs|] eqn:Hk; [|by apply elem_of_nil in Hin].
    apply list_elem_of_bind in Hin as (r & Hin & _).
    destruct (OrderedDict.get runs r) as [x|] eqn:Hr;
      [|by apply elem_of_nil in Hin].
    apply list_elem_of_singleton in Hin as ->.
    exists d, t, k, r. rewrite Hd. simpl. rewrite Ht. simpl. by rewrite Hk.
  - intros (d & t & k & r & Hget).
    destruct (xcoms self !! d) as [by_task|] eqn:Hd; simpl in Hget; cycle 1.
    { by rewrite lookup_empty in Hget. }
    destruct (by_task !! t) as [by_key|] eqn:Ht; simpl in Hget; cycle 1.
    { by rewrite lookup_empty in Hget. }
    destruct (by_key !! k) as [runs|] eqn:Hk; simpl in Hget; [|done].
    apply list_elem_of_bind. exists d.
    split; [|apply (dict_keys_elem dict_items Hitems); by rewrite Hd].
    rewrite Hd. apply list_elem_of_bind. exists t.
    split; [|apply (dict_keys_elem dict_items Hitems); by rewrite Ht].
    rewrite Ht. apply list_elem_of_bind. exists k.
    split; [|apply (dict_keys_elem dict_items Hitems); by rewrite Hk].
    rewrite Hk. apply list_elem_of_bind. exists r.
    split; [|by eapply ordered_get_in_keys].
    rewrite Hget. apply list_elem_of_here.
Qed.

Lemma xcom_listing_without_filter_is_complete_witness :
  xcom_b_later
    ∈ Listing.list_xcom_values items_by_key store_two_runs None None None None.
Proof.
  apply (xcom_listing_without_filter_is_complete items_by_key store_two_runs
           xcom_b_later); [by intros V d|].
  exists "d1", "t1", "k", "b". vm_compute. reflexivity.
Defined.

(** X24.  An identifier is among the instances the registry lists once
    it was looked up, and it stays there: stopping the instance takes the
    identifier out of the server's list of running instances and leaves
    the registry's list as it was. *)
Theorem instance_lists_after_start_and_stop
    (dict_items : forall V : Type, gmap string V -> list (string * V))
    (instance_id : string) (populate_instance : M unit) (port : Z)
    (populate : bool) (p : Process) :
  lists_items dict_items ->
  (instance_id
     ∈ Listing.store_list_instances dict_items
         (get_instance instance_id (registry p)).2) /\
  (let started :=
     start_instance populate_instance instance_id port populate p in
   (instance_id ∈ Listing.store_list_instances dict_items (registry started)) /\
   (instance_id ∈ Listing.server_list_instances dict_items started)) /\
  (instance_id
     ∉ Listing.server_list_instances dict_items (stop_instance instance_id p)) /\
  Listing.store_list_instances dict_items
    (registry (stop_instance instance_id p))
  = Listing.store_list_instances dict_items (registry p).
Proof.
  intros Hitems.
  assert (forall reg, is_Some (instances (get_instance instance_id reg).2
                               !! instance_id)) as Hknown.
  { intros reg. unfold get_instance. simpl. apply ensure_lookup. }
  split; [by apply (dict_keys_elem dict_items Hitems)|]. split.
  - cbv zeta. split.
    + apply (dict_keys_elem dict_items Hitems).
      unfold start_instance, create_app.
      destruct (get_instance instance_id (registry p)) as [s reg] eqn:Hget.
      assert (is_Some (instances reg !! instance_id)) as Hreg.
      { change reg with (s, reg).2. rewrite <- Hget. apply Hknown. }
      destruct populate; simpl; [|done]. unfold handle. simpl.
      destruct (get_instance instance_id reg) as [s' reg']. 
      destruct (populate_instance _) as [out w]. simpl.
      by rewrite lookup_insert_eq.
    + apply (dict_keys_elem dict_items Hitems).
      unfold start_instance, create_app.
      destruct (get_instance instance_id (registry p)) as [s reg].
      simpl. by rewrite lookup_insert_eq.
  - destruct (stop_instance_registry instance_id p) as (Hreg & _ & Hsrv).
    split; [|by rewrite Hreg].
    intros Hin. apply (dict_keys_elem dict_items Hitems) in Hin.
    rewrite Hsrv in Hin. by destruct Hin.
Qed.

Lemma instance_lists_after_start_and_stop_witness :
  ("a" ∈ Listing.store_list_instances items_by_key (registry process_stopped)) /\
  ("a" ∉ Listing.server_list_instances items_by_key process_stopped).
Proof.
  destruct (instance_lists_after_start_and_stop items_by_key "a" (mret tt) 0
              false process_used) as (_ & _ & Hgone & Hsame);
    [by intros V d|].
  split; [|exact Hgone].
  unfold process_stopped. rewrite Hsame. vm_compute.
  apply list_elem_of_here.
Defined.

(** ** Listing task instances *)

Lemma load_task_instances_run (rs : list ref) (tis : list TaskInstance.t) w :
  Forall2 (fun r ti => task_instance_objs (mem w) !! r = Some ti) rs tis ->
  load_task_instances rs w = (Done tis, w).
Proof.
  induction 1 as [|r ti rs tis Hr _ IH]; [done|].
  cbn [load_task_instances]. unfold mbind, M_bind, load_task_instance.
  rewrite Hr. fold (load_task_instances rs). by rewrite IH.
Qed.

Lemma live_references (rs : list ref) w :
  (forall x, x ∈ rs -> is_Some (task_instance_objs (mem w) !! x)) ->
  exists tis,
    Forall2 (fun r ti => task_instance_objs (mem w) !! r = Some ti) rs tis.
Proof.
  induction rs as [|r rs IH]; intros Hlive; [by exists []|].
  destruct (Hlive r) as [ti Hti]; [apply list_elem_of_here|].
  destruct IH as [tis Htis].
  { intros x Hx. apply Hlive. by apply list_elem_of_further. }
  exists (ti :: tis). by constructor.
Qed.

(** X25.  Listing the task instances of a run whose references are all
    live answers, changing nothing, with total_entries the number of
    task instances of that run that have the state asked for (all of
    them when no state is given) and with the page at positions offset
    to offset + limit of those.  An unknown DAG or run gives the empty
    page with total 0.  The two execution date bounds of the request have
    no effect on the answer. *)
Theorem task_instance_listing
    (dict_items : forall V : Type, gmap string V -> list (string * V))
    (w : World) (dag_id run_id : string) (limit offset : Z)
    (gte lte : option datetime) (state : option string) :
  lists_items dict_items -> 0 <= offset -> 1 <= limit ->
  (forall (task_id : string) (x : ref),
      Store.get_task_instance (store w) dag_id run_id task_id = Some x ->
      is_Some (task_instance_objs (mem w) !! x)) ->
  exists matching : list TaskInstance.t,
    Listing.list_task_instances dict_items dag_id run_id limit offset gte lte
      state w
    = (Done
         (TaskInstanceCollection.mk
            (take (Z.to_nat limit) (drop (Z.to_nat offset) matching))
            (Z.of_nat (length matching))), w) /\
    (forall ti : TaskInstance.t,
        ti ∈ matching <->
        (exists (task_id : string) (x : ref),
            Store.get_task_instance (store w) dag_id run_id task_id = Some x /\
            task_instance_objs (mem w) !! x = Some ti) /\
        (truthy_opt_str state = true -> Some (TaskInstance.state ti) = state)) /\
    (at_key run_id ∅ (at_key dag_id ∅ (task_instances (store w))) = ∅ ->
     matching = []) /\
    (forall gte' lte' : option datetime,
        Listing.list_task_instances dict_items dag_id run_id limit offset
          gte' lte' state w
        = Listing.list_task_instances dict_items dag_id run_id limit offset
            gte lte state w).
Proof.
  intros Hitems Ho Hl Hlive.
  set (rs := Listing.get_task_instances dict_items (store w) dag_id run_id).
  assert (forall x, x ∈ rs <->
            exists t, Store.get_task_instance (store w) dag_id run_id t = Some x)
    as Hrs.
  { intros x. subst rs. unfold Listing.get_task_instances.
    by rewrite (dict_values_elem dict_items Hitems). }
  destruct (live_references rs w) as [tis Htis].
  { intros x Hx. apply Hrs in Hx as [t Ht]. by eapply Hlive. }
  set (matching :=
    if truthy_opt_str state then
      filter (fun ti => Some (TaskInstance.state ti) = state) tis
    else tis).
  exists matching. split; [|split; [|split]].
  - unfold Listing.list_task_instances. unfold mbind at 1.
    unfold M_bind, read_store. unfold mbind at 1. unfold M_bind.
    fold rs. rewrite (load_task_instances_run rs tis w Htis).
    unfold mret, M_ret. cbv zeta. fold matching.
    by rewrite py_slice_page by lia.
  - intros ti.
    assert (ti ∈ tis <->
            exists t x, Store.get_task_instance (store w) dag_id run_id t = Some x /\
                        task_instance_objs (mem w) !! x = Some ti) as Htis_elem.
    { split.
      - intros Hin. apply list_elem_of_lookup in Hin as [i Hi].
        destruct (Forall2_lookup_r _ _ _ _ _ Htis Hi) as (x & Hx & Hobj).
        assert (x ∈ rs) as Hxin by (apply list_elem_of_lookup; eauto).
        apply Hrs in Hxin as [t Ht]. eauto.
      - intros (t & x & Hget & Hobj).
        assert (x ∈ rs) as Hxin by (apply Hrs; eauto).
        apply list_elem_of_lookup in Hxin as [i Hi].
        destruct (Forall2_lookup_l _ _ _ _ _ Htis Hi) as (ti' & Hti' & Hobj').
        rewrite Hobj in Hobj'. injection Hobj' as <-.
        apply list_elem_of_lookup. eauto. }
    subst matching. destruct (truthy_opt_str state).
    + rewrite list_elem_of_filter, Htis_elem. split; [by intros [? ?]|].
      intros [? Hs]. split; [by apply Hs|done].
    + rewrite Htis_elem. split; [by intros ?|by intros [? _]].
  - intros Hempty.
    assert (rs = []) as Hnil.
    { clearbody rs. destruct rs as [|x rs']; [done|].
      destruct (proj1 (Hrs x)) as [t Ht]; [apply list_elem_of_here|].
      unfold Store.get_task_instance in Ht. rewrite Hempty in Ht.
      by rewrite lookup_empty in Ht. }
    rewrite Hnil in Htis. apply Forall2_nil_inv_l in Htis. subst matching.
    rewrite Htis. by destruct (truthy_opt_str state).
  - done.
Qed.

Lemma task_instance_listing_witness :
  Listing.list_task_instances items_by_key "d1" "r1" 100 0 (Some 5) None
    (Some "running") world_t1
  = (Done (TaskInstanceCollection.mk [ti_running] 1), world_t1) /\
  Listing.list_task_instances items_by_key "d1" "r1" 100 0 None None
    (Some "failed") world_t1
  = (Done (TaskInstanceCollection.mk [] 0), world_t1).
Proof.
  destruct (task_instance_listing items_by_key world_t1 "d1" "r1" 100 0
              (Some 5) None (Some "running"))
    as (matching & Hrun & _); [by intros V d|lia|lia| |].
  { intros task_id x Hget.
    assert (x = 0%nat) as ->; [|by eexists].
    revert Hget. unfold Store.get_task_instance, world_t1.
    rewrite put_task_instance_eq. simpl. rewrite !at_key_update_at.
    destruct (decide (task_id = "t1")) as [->|Hne].
    - rewrite lookup_insert_eq. by intros [= <-].
    - rewrite lookup_insert_ne by done. unfold at_key.
      rewrite lookup_empty. simpl. rewrite lookup_empty. simpl.
      by rewrite lookup_empty. }
  split; vm_compute; reflexivity.
Defined.

(** ** The dictionaries of runs stay dictionaries *)

Lemma at_key_update_at_any `{Countable K} {V} (k k' : K) (e : V)
    (f : V -> V) (d : gmap K V) :
  at_key k' e (update_at k e f d)
  = if decide (k = k') then f (at_key k e d) else at_key k' e d.
Proof.
  destruct (decide (k = k')) as [<-|Hne].
  - apply at_key_update_at.
  - by apply at_key_update_at_ne.
Qed.

Lemma at_key_ensure_any `{Countable K} {V} (k k' : K) (e : V) (d : gmap K V) :
  at_key k' e (ensure k e d) = at_key k' e d.
Proof.
  destruct (decide (k = k')) as [<-|Hne].
  - apply at_key_ensure.
  - by apply at_key_ensure_ne.
Qed.

Lemma ordered_del_keys {K V : Type} `{EqDecision K} (k : K)
    (d d' : OrderedDict.t K V) :
  OrderedDict.del k d = Some d' ->
  OrderedDict.keys d' `sublist_of` OrderedDict.keys d.
Proof.
  revert d'. induction d as [|[k0 v0] d IH]; intros d' Hdel; simpl in *;
    [done|].
  destruct (decide (k = k0)) as [->|Hk].
  - injection Hdel as <-. by apply sublist_cons.
  - destruct (OrderedDict.del k d) as [d0|] eqn:Hd; [|done].
    injection Hdel as <-. apply sublist_skip. by apply IH.
Qed.

Lemma xcom_runs_after_add xcom self dag_id task_id key :
  Store.xcom_runs (Store.add_xcom_value xcom self) dag_id task_id key
  = Store.xcom_runs self dag_id task_id key \/
  exists run_id : string,
    Store.xcom_runs (Store.add_xcom_value xcom self) dag_id task_id key
    = OrderedDict.set run_id xcom (Store.xcom_runs self dag_id task_id key).
Proof.
  destruct (XCom.run_id xcom) as [r|] eqn:Hr;
    [destruct (truthy_str r) eqn:Ht|].
  - rewrite (add_xcom_value_eq xcom r self Hr Ht). unfold Store.xcom_runs.
    simpl. rewrite at_key_update_at_any.
    destruct (decide (XCom.dag_id xcom = dag_id)) as [<-|]; [|by left].
    rewrite at_key_update_at_any.
    destruct (decide (XCom.task_id xcom = task_id)) as [<-|]; [|by left].
    rewrite at_key_update_at_any.
    destruct (decide (XCom.key xcom = key)) as [<-|]; [|by left].
    right. by exists r.
  - left. unfold Store.xcom_runs, Store.add_xcom_value. cbv zeta.
    rewrite Hr, Ht. simpl.
    repeat first [rewrite at_key_update_at_any | rewrite at_key_ensure_any
                 | case_decide; subst]; done.
  - left. unfold Store.xcom_runs, Store.add_xcom_value. cbv zeta.
    rewrite Hr. simpl.
    repeat first [rewrite at_key_update_at_any | rewrite at_key_ensure_any
                 | case_decide; subst]; done.
Qed.

Lemma xcom_runs_after_delete dag_id task_id key run_id self d t k :
  OrderedDict.keys
    (Store.xcom_runs (Store.delete_xcom_value dag_id task_id key run_id self).2
       d t k)
  `sublist_of` OrderedDict.keys (Store.xcom_runs self d t k).
Proof.
  unfold Store.delete_xcom_value, Store.xcom_runs, at_key. cbv zeta.
  destruct (xcoms self !! dag_id) as [by_task|] eqn:Hd; simpl; [|done].
  destruct (by_task !! task_id) as [by_key|] eqn:Ht; simpl; [|done].
  destruct (by_key !! key) as [runs|] eqn:Hk; simpl; [|done].
  assert (forall by_key' : gmap string (OrderedDict.t string XCom.t),
    (forall k', k' <> key -> by_key' !! k' = by_key !! k') ->
    OrderedDict.keys (default OrderedDict.empty (by_key' !! key))
      `sublist_of` OrderedDict.keys runs ->
    OrderedDict.keys
      (default OrderedDict.empty
         (default ∅
            (default ∅
               (<[dag_id := <[task_id := by_key']> by_task]> (xcoms self) !! d)
             !! t) !! k))
    `sublist_of`
    OrderedDict.keys
      (default OrderedDict.empty
         (default ∅ (default ∅ (xcoms self !! d) !! t) !! k))) as Hstep.
  { intros by_key' Hother Hsame.
    destruct (decide (dag_id = d)) as [<-|Hnd];
      [|by rewrite lookup_insert_ne].
    rewrite lookup_insert_eq, Hd. simpl.
    destruct (decide (task_id = t)) as [<-|Hnt];
      [|by rewrite lookup_insert_ne].
    rewrite lookup_insert_eq, Ht. simpl.
    destruct (decide (key = k)) as [<-|Hnk]; [by rewrite Hk|].
    by rewrite Hother. }
  assert (OrderedDict.keys
            (default OrderedDict.empty (delete key by_key !! key))
          `sublist_of` OrderedDict.keys runs) as Hcascade.
  { rewrite lookup_delete_eq. apply sublist_nil_l. }
  destruct run_id as [r|]; [destruct (truthy_str r)|]; simpl.
  - destruct (OrderedDict.del r runs) as [runs'|] eqn:Hdel; simpl; [|done].
    apply Hstep.
    + intros k' Hne. by apply lookup_insert_ne.
    + rewrite lookup_insert_eq. simpl. by eapply ordered_del_keys.
  - apply Hstep; [|done]. intros k' Hne. by apply lookup_delete_ne.
  - apply Hstep; [|done]. intros k' Hne. by apply lookup_delete_ne.
Qed.

(** X26.  In the store of a new instance every dictionary of runs lists
    each run_id once, and adding or deleting an XCom entry keeps it so:
    the precondition of the properties of XCom deletion and listing holds
    in every store that these operations build. *)
Theorem runs_stay_listed_once :
  (forall instance_id : string,
      runs_listed_once (InstanceStore_init instance_id)) /\
  (forall (self : InstanceStore) (xcom : XCom.t),
      runs_listed_once self ->
      runs_listed_once (Store.add_xcom_value xcom self)) /\
  (forall (self : InstanceStore) (dag_id task_id key : string)
          (run_id : option string),
      runs_listed_once self ->
      runs_listed_once
        (Store.delete_xcom_value dag_id task_id key run_id self).2).
Proof.
  split; [|split].
  - intros instance_id d t k. unfold Store.xcom_runs, at_key. simpl.
    rewrite lookup_empty. simpl. rewrite lookup_empty. simpl.
    rewrite lookup_empty. apply NoDup_nil_2.
  - intros self xcom Hself d t k.
    destruct (xcom_runs_after_add xcom self d t k) as [->|[r ->]]; [done|].
    by apply ordered_set_NoDup.
  - intros self dag_id task_id key run_id Hself d t k.
    eapply sublist_NoDup; [apply (Hself d t k)|apply xcom_runs_after_delete].
Qed.

Lemma runs_stay_listed_once_witness : runs_listed_once store_two_runs.
Proof.
  destruct runs_stay_listed_once as (Hinit & Hadd & _).
  apply Hadd, Hadd, Hinit.
Defined.
